(** * fs-parse: a shallow embedding of the BGL / MDL binary decoders

    The Python sources under [fs_parse/] are embedded as pure functions.
    A Python [bytes] object is a [list byte], a Python [int] is a [Z], a
    Python [str] is a [string] holding its UTF-8 encoding, and code that may
    raise returns a [result] carrying the exception that was raised. *)

From Stdlib Require Import Strings.Byte Strings.String Strings.Ascii.
From Stdlib Require Import ZArith List Lia Bool.
Import ListNotations.
Open Scope Z_scope.

(** ** Python primitives used by the decoder *)
Module Py.

(** The f-string messages of the plain [Exception]s raised by the decoder. *)
Inductive message : Type :=
| Unknown_attached_object_type (object_type_id : Z)
| attachedObject_closing_delimiter_id_is (closing_delimiter_id : Z)
| UNKNOWN_scenery_object_type (decoded_id : Z) (i : nat) (offset record_size : Z)
| Unknown_section (type_id : string) (offset : Z).

(** The exception classes the embedded code can raise. *)
Inductive exn : Type :=
| struct_error
| IndexError
| ValueError
| TypeError
| OverflowError
| UnicodeDecodeError
| ZeroDivisionError
| Exception (msg : message).

Inductive result (A : Type) : Type :=
| Ok (a : A)
| Err (e : exn).
Arguments Ok {A} a.
Arguments Err {A} e.

Definition bind {A B : Type} (c : result A) (k : A -> result B) : result B :=
  match c with
  | Ok a => k a
  | Err e => Err e
  end.

Definition is_ok {A : Type} (c : result A) : bool :=
  match c with Ok _ => true | Err _ => false end.

Definition byte_val (b : byte) : Z := Z.of_N (Byte.to_N b).

(** [len(buffer)] *)
Definition len {A : Type} (l : list A) : Z := Z.of_nat (List.length l).

(** Normalisation of one slice bound, as [PySlice_AdjustIndices] does for
    step 1: a negative bound counts from the end, and both are clamped. *)
Definition adjust_index (n i : Z) : Z :=
  if i <? 0 then Z.max 0 (i + n) else Z.min i n.

(** [buffer[a:b]]: never raises, truncates at the end of the buffer. *)
Definition slice {A : Type} (buffer : list A) (a b : Z) : list A :=
  let n := len buffer in
  let a' := adjust_index n a in
  let b' := adjust_index n b in
  firstn (Z.to_nat (b' - a')) (skipn (Z.to_nat a') buffer).

(** [buffer[a:]] *)
Definition slice_from {A : Type} (buffer : list A) (a : Z) : list A :=
  skipn (Z.to_nat (adjust_index (len buffer) a)) buffer.

(** ** [struct]: native mode on the simulator's platform
    (little-endian x86 Windows, where [L] and [l] are 4 bytes wide). *)
Inductive fld : Type :=
| fB | fH | fL | fl | fQ | ff
| fs (n : Z).

Definition fld_size (f : fld) : Z :=
  match f with
  | fB => 1 | fH => 2 | fL => 4 | fl => 4 | fQ => 8 | ff => 4
  | fs n => n
  end.

Definition fld_align (f : fld) : Z :=
  match f with
  | fB => 1 | fH => 2 | fL => 4 | fl => 4 | fQ => 8 | ff => 4
  | fs _ => 1
  end.

(** What [struct.unpack] puts in the tuple.  A float field is kept as the
    IEEE-754 bit pattern that was read. *)
Inductive val : Type :=
| VInt (z : Z)
| VFloat (bits : Z)
| VBytes (b : list byte).

Definition align_up (pos a : Z) : Z := ((pos + a - 1) / a) * a.

Fixpoint le_uint (bs : list byte) : Z :=
  match bs with
  | [] => 0
  | b :: bs' => byte_val b + 256 * le_uint bs'
  end.

Definition le_sint (bits : Z) (bs : list byte) : Z :=
  let u := le_uint bs in
  if u <? 2 ^ (bits - 1) then u else u - 2 ^ bits.

Definition decode (f : fld) (bs : list byte) : val :=
  match f with
  | fB | fH | fL | fQ => VInt (le_uint bs)
  | fl => VInt (le_sint 32 bs)
  | ff => VFloat (le_uint bs)
  | fs _ => VBytes bs
  end.

Fixpoint calcsize_from (pos : Z) (fs : list fld) : Z :=
  match fs with
  | [] => pos
  | f :: fs' => calcsize_from (align_up pos (fld_align f) + fld_size f) fs'
  end.

(** [struct.calcsize(fmt)] *)
Definition calcsize (fs : list fld) : Z := calcsize_from 0 fs.

Fixpoint unpack_from (pos : Z) (fs : list fld) (data : list byte) : list val :=
  match fs with
  | [] => []
  | f :: fs' =>
      let p := align_up pos (fld_align f) in
      decode f (slice data p (p + fld_size f))
        :: unpack_from (p + fld_size f) fs' data
  end.

(** [struct.unpack(fmt, data)]: raises [struct.error] unless [data] has
    exactly the size of the format. *)
Definition unpack (fs : list fld) (data : list byte) : result (list val) :=
  if len data =? calcsize fs then Ok (unpack_from 0 fs data)
  else Err struct_error.

(** Reading a format string such as ["@2H2Ll6H"]: an optional mode
    character, then fields with an optional repeat count; for [s] the
    count is the length of the one field. *)
Definition digit_of (c : ascii) : option Z :=
  let n := Z.of_nat (nat_of_ascii c) in
  if (48 <=? n) && (n <=? 57) then Some (n - 48) else None.

Definition fld_of (c : ascii) : option fld :=
  match c with
  | "B"%char => Some fB
  | "H"%char => Some fH
  | "L"%char => Some fL
  | "l"%char => Some fl
  | "Q"%char => Some fQ
  | "f"%char => Some ff
  | _ => None
  end.

Fixpoint fmt_fields (s : string) (count : option Z) : list fld :=
  match s with
  | EmptyString => []
  | String c s' =>
      match digit_of c with
      | Some d =>
          fmt_fields s' (Some (10 * match count with Some n => n | None => 0 end + d))
      | None =>
          let n := match count with Some n => n | None => 1 end in
          match c with
          | "s"%char => fs n :: fmt_fields s' None
          | _ =>
              match fld_of c with
              | Some f => repeat f (Z.to_nat n) ++ fmt_fields s' None
              | None => fmt_fields s' None
              end
          end
      end
  end.

Definition fmt (s : string) : list fld :=
  match s with
  | String "@"%char s' => fmt_fields s' None
  | _ => fmt_fields s None
  end.

(** [str(value, 'ascii')]: every byte must be below [0x80]. *)
Definition is_ascii (b : byte) : bool := byte_val b <? 128.

Definition decode_ascii (value : list byte) : result (list byte) :=
  if forallb is_ascii value then Ok value else Err UnicodeDecodeError.

(** [s.strip('\x00')] on the code points of [s]. *)
Definition is_nul (b : byte) : bool := Byte.eqb b x00.

Fixpoint lstrip_nul (s : list byte) : list byte :=
  match s with
  | b :: s' => if is_nul b then lstrip_nul s' else s
  | [] => []
  end.

Definition strip_nul (s : list byte) : list byte :=
  rev (lstrip_nul (rev (lstrip_nul s))).

(** [str(value, 'utf-8')]: the strict decoder accepts well-formed UTF-8
    only (no overlong forms, no surrogates, nothing above U+10FFFF). *)
Definition in_range (lo hi : Z) (b : byte) : bool :=
  (lo <=? byte_val b) && (byte_val b <=? hi).

Fixpoint utf8_valid (bs : list byte) : bool :=
  match bs with
  | [] => true
  | b0 :: r0 =>
      if in_range 0x00 0x7F b0 then utf8_valid r0
      else
        match r0 with
        | [] => false
        | b1 :: r1 =>
            if in_range 0xC2 0xDF b0 then in_range 0x80 0xBF b1 && utf8_valid r1
            else
              match r1 with
              | [] => false
              | b2 :: r2 =>
                  if in_range 0xE0 0xEF b0 then
                    (if byte_val b0 =? 0xE0 then in_range 0xA0 0xBF b1
                     else if byte_val b0 =? 0xED then in_range 0x80 0x9F b1
                     else in_range 0x80 0xBF b1)
                    && in_range 0x80 0xBF b2 && utf8_valid r2
                  else
                    match r2 with
                    | [] => false
                    | b3 :: r3 =>
                        if in_range 0xF0 0xF4 b0 then
                          (if byte_val b0 =? 0xF0 then in_range 0x90 0xBF b1
                           else if byte_val b0 =? 0xF4 then in_range 0x80 0x8F b1
                           else in_range 0x80 0xBF b1)
                          && in_range 0x80 0xBF b2 && in_range 0x80 0xBF b3
                          && utf8_valid r3
                        else false
                    end
              end
        end
  end.

Definition decode_utf8 (value : list byte) : result string :=
  if utf8_valid value then Ok (string_of_list_byte value) else Err UnicodeDecodeError.

(** A [while cond: body] loop over a state, run for at most [rounds]
    rounds; [while_rounds] shows when the bound is never the reason to
    stop. *)
Fixpoint while {S : Type} (rounds : nat) (cond : S -> bool) (body : S -> result S)
    (s : S) : result S :=
  match rounds with
  | O => Ok s
  | Datatypes.S n =>
      if cond s then
        match body s with
        | Ok s' => while n cond body s'
        | Err e => Err e
        end
      else Ok s
  end.

End Py.

Import Py.

Declare Scope py_scope.
Notation "x <- c ;; k" := (Py.bind c (fun x => k))
  (at level 61, c at next level, right associativity) : py_scope.
Notation "' p <- c ;; k" := (Py.bind c (fun p => k))
  (at level 61, p pattern, c at next level, right associativity) : py_scope.
Open Scope py_scope.

(** ** fs_parse/utils.py *)
Module utils.

(** [parse_flags]: seven booleans from a bitmask. *)
Definition parse_flags (value : Z) : list bool :=
  map (fun mask => negb (Z.land value mask =? 0))
      [0x0001; 0x0002; 0x0004; 0x0008; 0x0010; 0x0020; 0x0040].

(** [stringz_2_ascii] *)
Definition stringz_2_ascii (value : list byte) : result string :=
  s <- decode_ascii value ;;
  Ok (string_of_list_byte (strip_nul s)).

(** The [while not terminated] loop of [read_stringz_word_aligned];
    [rest] is [buffer[i:]], and [buffer[i]] raises [IndexError] once the
    buffer is exhausted. *)
Fixpoint read_stringz_word_aligned_loop
    (rest : list byte) (i : Z) (terminating : bool) (result : list byte)
    : Py.result (list byte) :=
  match rest with
  | [] => Err IndexError
  | b :: rest' =>
      let result := result ++ [b] in
      let terminating := if byte_val b =? 0 then true else terminating in
      if (i mod 2 =? 1) && terminating then Ok result
      else read_stringz_word_aligned_loop rest' (i + 1) terminating result
  end.

Definition read_stringz_word_aligned (buffer : list byte) : result (Z * string) :=
  result <- read_stringz_word_aligned_loop buffer 0 false [] ;;
  let rawsize := len result in
  text <- stringz_2_ascii result ;;
  Ok (rawsize, text).

(** The loop of [read_stringz]. *)
Fixpoint read_stringz_loop (rest : list byte) (result : list byte)
    : Py.result (list byte) :=
  match rest with
  | [] => Err IndexError
  | b :: rest' =>
      let result := result ++ [b] in
      if byte_val b =? 0 then Ok result
      else read_stringz_loop rest' result
  end.

Definition read_stringz (buffer : list byte) : result string :=
  result <- read_stringz_loop buffer [] ;;
  stringz_2_ascii result.

(** The normalisation loop of [half_float_2_float] for a subnormal input:
    [while not (f & 0x400): f = f << 1; e -= 1].  [f] has ten bits and is
    not zero, so ten rounds are enough (see [normalize_reaches_bit]). *)
Fixpoint normalize (rounds : nat) (f e : Z) : Z * Z :=
  match rounds with
  | O => (f, e)
  | S n =>
      if Z.land f 0x00000400 =? 0 then normalize n (Z.shiftl f 1) (e - 1)
      else (f, e)
  end.

(** [half_float_2_float]: every [return] goes through [int(...)], the
    result is a Python [int]. *)
Definition half_float_2_float (float16 : Z) : Z :=
  let s := Z.land (Z.shiftr float16 15) 0x00000001 in
  let e := Z.land (Z.shiftr float16 10) 0x0000001f in
  let f := Z.land float16 0x000003ff in
  let finish (e f : Z) :=
    let e := e + (127 - 15) in
    let f := Z.shiftl f 13 in
    Z.lor (Z.lor (Z.shiftl s 31) (Z.shiftl e 23)) f in
  if e =? 0 then
    if f =? 0 then Z.shiftl s 31
    else
      let '(f, e) := normalize 10 f e in
      let e := e + 1 in
      let f := Z.land f (Z.lnot 0x00000400) in
      finish e f
  else if e =? 31 then
    if f =? 0 then Z.lor (Z.shiftl s 31) 0x7f800000
    else Z.lor (Z.lor (Z.shiftl s 31) 0x7f800000) (Z.shiftl f 13)
  else finish e f.

(** [set_bit]: set the Nth bit to 1.  [1 << bit] raises [ValueError] for a
    negative shift count. *)
Definition set_bit (value bit : Z) : result Z :=
  if bit <? 0 then Err ValueError
  else Ok (Z.lor value (Z.shiftl 1 bit)).

(** [clear_bit]: set the Nth bit to 0. *)
Definition clear_bit (value bit : Z) : result Z :=
  if bit <? 0 then Err ValueError
  else Ok (Z.land value (Z.lnot (Z.shiftl 1 bit))).

(** [invert_dict].  A dict is the list of its items in insertion order;
    [eqb] compares two values of the argument, which are the keys of the
    result. *)
Section InvertDict.
Variables (K V : Type) (eqb : V -> V -> bool).

(** [result.get(v)] *)
Fixpoint dict_get (result : list (V * list K)) (v : V) : option (list K) :=
  match result with
  | [] => None
  | (v', l) :: result' => if eqb v' v then Some l else dict_get result' v
  end.

(** [result[v] = l]: an existing key keeps its place. *)
Fixpoint dict_set (result : list (V * list K)) (v : V) (l : list K)
    : list (V * list K) :=
  match result with
  | [] => [(v, l)]
  | (v', l') :: result' =>
      if eqb v' v then (v', l) :: result'
      else (v', l') :: dict_set result' v l
  end.

Definition invert_dict (d : list (K * V)) : list (V * list K) :=
  fold_left
    (fun result '(k, v) =>
       dict_set result v
         (match dict_get result v with Some l => l | None => [] end ++ [k]))
    d [].

End InvertDict.

End utils.

(** ** The parts of the standard library the header decoder relies on *)
Module datetime.

(** A [datetime] is counted in microseconds from 0001-01-01 00:00:00, the
    first instant of ordinal day 1; a [timedelta] is a number of
    microseconds. *)
Definition us_per_day : Z := 86400 * 1000000.

(** [date.max.toordinal()], the last day of year 9999. *)
Definition MAXORDINAL : Z := 3652059.

Definition days_before_year (year : Z) : Z :=
  let y := year - 1 in
  y * 365 + y / 4 - y / 100 + y / 400.

(** [datetime.datetime(year=year, month=1, day=1, hour=0, minute=0, second=0)] *)
Definition january_1st (year : Z) : Z := days_before_year year * us_per_day.

(** [datetime.timedelta(microseconds=us)]: the day count must have a
    magnitude of at most 999999999. *)
Definition timedelta (us : Z) : result Z :=
  if Z.abs (us / us_per_day) <=? 999999999 then Ok us else Err OverflowError.

(** [d + td]: the resulting day must lie in years 1..9999. *)
Definition add (d td : Z) : result Z :=
  let r := d + td in
  let ordinal := r / us_per_day + 1 in
  if (1 <=? ordinal) && (ordinal <=? MAXORDINAL) then Ok r
  else Err OverflowError.

End datetime.

Module pyfloat.

(** The integer nearest to [n / d] for [d > 0], ties going to the even one. *)
Definition round_half_even (n d : Z) : Z :=
  let q := n / d in
  let r := n mod d in
  if 2 * r <? d then q
  else if d <? 2 * r then q + 1
  else if Z.even q then q else q + 1.

(** The fraction [n / (d * 2^e)] with the power of two moved to the side
    where its exponent is not negative. *)
Definition scale (n d e : Z) : Z * Z :=
  if 0 <=? e then (n, d * 2 ^ e) else (n * 2 ^ (- e), d).

(** [int(a / b)] for Python ints: [a / b] is the double nearest to the exact
    quotient (CPython rounds the true division of two ints correctly), and
    [int] truncates it. *)
Definition int_truediv (a b : Z) : result Z :=
  if b =? 0 then Err ZeroDivisionError
  else if a =? 0 then Ok 0
  else
    let sign := Z.sgn a * Z.sgn b in
    let a := Z.abs a in
    let b := Z.abs b in
    let k := Z.log2 a - Z.log2 b in
    let '(n, d) := scale a b k in
    let l := if d <=? n then k else k - 1 in
    let e := Z.max (l - 52) (-1074) in
    let '(n, d) := scale a b e in
    let m := round_half_even n d in
    if 0 <=? e then
      if m * 2 ^ e <? 2 ^ 1024 then Ok (sign * (m * 2 ^ e))
      else Err OverflowError
    else Ok (sign * (m / 2 ^ (- e))).

End pyfloat.

(** ** fs_parse/datatypes.py *)
Module datatypes.

(** [Unpackable.get_data]: slice [fmt_bytes_size] bytes at [offset] and
    unpack them. *)
Definition get_data (fs : list fld) (buffer : list byte) (offset : Z)
    : result (list val) :=
  unpack fs (slice buffer offset (offset + calcsize fs)).

(** [uuid.UUID(bytes_le=b)], kept as the sixteen bytes in network order. *)
Definition UUID_bytes_le (b : list byte) : result (list byte) :=
  if len b =? 16 then
    Ok (rev (slice b 0 4) ++ rev (slice b 4 6) ++ rev (slice b 6 8) ++ slice b 8 16)
  else Err ValueError.

End datatypes.

Import datatypes.

(** ** fs_parse/bgl/constants.py

    The names of the section types are those the section mapping in
    [bgl/classes.py] lists.  The numeric values of the enumerations, and the
    two earth circumference constants, are parameters of the development. *)
Module constants.

Inductive BGLSectionType : Type :=
| NONE | COPYRIGHT | GUID | AIRPORT | ILS_VOR | NDB | MARKER | BOUNDARY
| WAYPOINT | GEOPOL | SCENERYOBJECT | NAMELIST | VORILSICAOINDEX
| NDBICAOINDEX | WAYPOINTICAOINDEX | MODELDATA | AIRPORTSUMMARY | EXCLUSION
| TIMEZONE | TERRAINVECTORDB | TERRAINELEVATION | TERRAINLANDCLASS
| TERRAINWATERCLASS | TERRAINREGION | POPULATIONDENSITY | AUTOGENANNOTATION
| TERRAININDEX | TERRAINTEXTURELOOKUP
| TERRAINSEASONJAN | TERRAINSEASONFEB | TERRAINSEASONMAR | TERRAINSEASONAPR
| TERRAINSEASONMAY | TERRAINSEASONJUN | TERRAINSEASONJUL | TERRAINSEASONAUG
| TERRAINSEASONSEP | TERRAINSEASONOCT | TERRAINSEASONNOV | TERRAINSEASONDEC
| TERRAINPHOTOJAN | TERRAINPHOTOFEB | TERRAINPHOTOMAR | TERRAINPHOTOAPR
| TERRAINPHOTOMAY | TERRAINPHOTOJUN | TERRAINPHOTOJUL | TERRAINPHOTOAUG
| TERRAINPHOTOSEP | TERRAINPHOTOOCT | TERRAINPHOTONOV | TERRAINPHOTODEC
| TERRAINPHOTONIGHT | TACAN | TACANINDEX | FAKETYPES | ICAORUNWAY.

(** What the decoder takes from this module. *)
Class Values : Type := {
  (** [BGLSectionType(value)]: the member with that value, if any. *)
  BGLSectionType_of : Z -> option BGLSectionType;
  (** whether [ImageComplexity(value)] finds a member *)
  ImageComplexity_has : Z -> bool;
  (** whether [BeaconType(value)] finds a member *)
  BeaconType_has : Z -> bool;
  (** whether [TaxiwaySignJustification(value)] finds a member *)
  TaxiwaySignJustification_has : Z -> bool;
  (** The floating-point position of a taxiway sign, computed with
      [math.cos], [math.radians] and the two earth circumference constants
      from the anchor's raw longitude and latitude and the bit patterns of
      the two offsets: the pair [(lon, lat)] as doubles, or the exception
      the arithmetic raises. *)
  taxiway_sign_position : Z -> Z -> Z -> Z -> result (Z * Z)
}.

(** An [IntEnum] call: the value itself when it names a member, else
    [ValueError]. *)
Definition IntEnum (has : Z -> bool) (value : Z) : result Z :=
  if has value then Ok value else Err ValueError.

End constants.

Import constants.

(** ** fs_parse/bgl/records/sceneryobject.py *)
Module sceneryobject.
Section WithValues.
Context {V : Values}.

(** The two families of record layouts. *)
Inductive family : Type := FS9 | FSX.

(** [SceneryObjectRecordType] *)
Definition FS9_GENERIC_BUILDING : Z := 0x01.
Definition FS9_LIB_OBJ : Z := 0x02.
Definition FS9_WINDSOCK : Z := 0x03.
Definition FS9_FX : Z := 0x04.
Definition FS9_TAXIWAY_SIGN : Z := 0x05.
Definition FS9_TRIGGER : Z := 0x07.
Definition FS9_BEACON : Z := 0x08.
Definition FSX_GENERIC_BUILDING : Z := 0x0A.
Definition FSX_LIB_OBJ : Z := 0x0B.
Definition FSX_WINDSOCK : Z := 0x0C.
Definition FSX_FX : Z := 0x0D.
Definition FSX_TAXIWAY_SIGN : Z := 0x0E.
Definition FSX_TRIGGER : Z := 0x10.
Definition FSX_BEACON : Z := 0x11.
Definition FSX_EXTRUSION_BRIDGE : Z := 0x12.

(** [SceneryObjectHeader] and its two subclasses.  The attributes derived
    from the raw fields by float arithmetic ([lon], [lat], [alt], [pitch],
    [bank], [hdg]) are functions of the fields kept here. *)
Record SceneryObjectHeader : Type := {
  offset : Z;
  id : Z;
  size : Z;
  lon_raw_value : Z;
  lat_raw_value : Z;
  alt_raw : Z;
  flags : list bool;
  pitch_raw : Z;
  bank_raw : Z;
  hdg_raw : Z;
  image_complexity : Z;
  unknown : Z;
  instance_id : option (list byte)
}.

Definition SceneryObjectHeader_fmt : list fld := Eval vm_compute in fmt "@2H2Ll6H".
Definition FSXSceneryObjectHeader_extra_fmt : list fld := Eval vm_compute in fmt "@16s".

(** [SceneryObjectHeader.parse] *)
Definition SceneryObjectHeader_parse (bgl_file_data : list byte) (file_offset : Z)
    : result SceneryObjectHeader :=
  fields <- get_data SceneryObjectHeader_fmt bgl_file_data file_offset ;;
  match fields with
  | [VInt id; VInt size; VInt lon_raw_value; VInt lat_raw_value; VInt alt;
     VInt flags; VInt pitch; VInt bank; VInt hdg; VInt image_complexity;
     VInt unknown] =>
      image_complexity <- IntEnum ImageComplexity_has image_complexity ;;
      Ok {| offset := file_offset; id := id; size := size;
            lon_raw_value := lon_raw_value; lat_raw_value := lat_raw_value;
            alt_raw := alt; flags := utils.parse_flags flags;
            pitch_raw := pitch; bank_raw := bank; hdg_raw := hdg;
            image_complexity := image_complexity; unknown := unknown;
            instance_id := None |}
  | _ => Err ValueError
  end.

(** [FSXSceneryObjectHeader.parse] *)
Definition FSXSceneryObjectHeader_parse (bgl_file_data : list byte) (file_offset : Z)
    : result SceneryObjectHeader :=
  h <- SceneryObjectHeader_parse bgl_file_data file_offset ;;
  let fmt_bytes_size := calcsize SceneryObjectHeader_fmt in
  fields <- unpack FSXSceneryObjectHeader_extra_fmt
              (slice bgl_file_data (file_offset + fmt_bytes_size)
                     (file_offset + fmt_bytes_size + 16)) ;;
  match fields with
  | [VBytes instance_id] =>
      u <- UUID_bytes_le instance_id ;;
      Ok {| offset := offset h; id := id h; size := size h;
            lon_raw_value := lon_raw_value h; lat_raw_value := lat_raw_value h;
            alt_raw := alt_raw h; flags := flags h;
            pitch_raw := pitch_raw h; bank_raw := bank_raw h; hdg_raw := hdg_raw h;
            image_complexity := image_complexity h; unknown := unknown h;
            instance_id := Some u |}
  | _ => Err ValueError
  end.

(** [header_type().parse] and the header's [total_size], by family. *)
Definition header_parse (fam : family) : list byte -> Z -> result SceneryObjectHeader :=
  match fam with
  | FS9 => SceneryObjectHeader_parse
  | FSX => FSXSceneryObjectHeader_parse
  end.

Definition header_total_size (fam : family) : Z :=
  match fam with
  | FS9 => calcsize SceneryObjectHeader_fmt
  | FSX => calcsize SceneryObjectHeader_fmt + calcsize FSXSceneryObjectHeader_extra_fmt
  end.

(** [LibraryObject]: library object info. *)
Record LibraryObject : Type := {
  name : list byte;
  scale : Z
}.

Definition LibraryObject_fmt : list fld := Eval vm_compute in fmt "@16sf".

Definition LibraryObject_parse (bgl_file_data : list byte) (file_offset : Z)
    : result LibraryObject :=
  fields <- get_data LibraryObject_fmt bgl_file_data file_offset ;;
  match fields with
  | [VBytes name; VFloat scale] =>
      u <- UUID_bytes_le name ;;
      Ok {| name := u; scale := scale |}
  | _ => Err ValueError
  end.

(** [Beacon] *)
Record Beacon : Type := {
  beacon_type : Z;
  unknown_always_1 : Z;
  unknown_always_0 : Z
}.

Definition Beacon_fmt : list fld := Eval vm_compute in fmt "@2BH".

Definition Beacon_parse (bgl_file_data : list byte) (file_offset : Z) : result Beacon :=
  fields <- get_data Beacon_fmt bgl_file_data file_offset ;;
  match fields with
  | [VInt beacon_type; VInt u1; VInt u0] =>
      beacon_type <- IntEnum BeaconType_has beacon_type ;;
      Ok {| beacon_type := beacon_type; unknown_always_1 := u1; unknown_always_0 := u0 |}
  | _ => Err ValueError
  end.

(** The payload of an attached object. *)
Inductive attached_payload : Type :=
| AttachedLibraryObject (obj : LibraryObject)
| AttachedBeacon (obj : Beacon).

(** [FSXAttachedObjectData] and [FS9AttachedObjectData]; the three last
    fields of the fixed part exist in the FSX layout only. *)
Record AttachedObjectData : Type := {
  att_id : Z;
  start_delimiter_size : Z;
  object_type_id : Z;
  attached_object_data_size : Z;
  attach_point_string_relative_offset : Z;
  att_pitch_raw : Z;
  att_bank_raw : Z;
  att_hdg_raw : Z;
  bias_x : Z;
  bias_y : Z;
  bias_z : Z;
  att_instance_id : option (list byte);
  probability : option Z;
  randomness : option Z;
  obj_data : attached_payload;
  attach_point_name : string;
  closing_delimiter_id : Z;
  closing_delimiter_size : Z
}.

Definition FSXAttachedObjectData_fmt : list fld := Eval vm_compute in fmt "@8H3f16s2H".
Definition FS9AttachedObjectData_fmt : list fld := Eval vm_compute in fmt "@8H3f".

(** The [if]/[elif]/[else] on [object_type_id] shared by both classes. *)
Definition attached_payload_parse (bgl_file_data : list byte)
    (attached_obj_data_offset object_type_id : Z) : result attached_payload :=
  if existsb (Z.eqb object_type_id) [FS9_LIB_OBJ; FSX_LIB_OBJ] then
    obj <- LibraryObject_parse bgl_file_data attached_obj_data_offset ;;
    Ok (AttachedLibraryObject obj)
  else if existsb (Z.eqb object_type_id) [FS9_BEACON; FSX_BEACON] then
    obj <- Beacon_parse bgl_file_data attached_obj_data_offset ;;
    Ok (AttachedBeacon obj)
  else Err (Exception (Unknown_attached_object_type object_type_id)).

(** The closing delimiter: two [H] read at the end delimiter offset. *)
Definition closing_delimiter (bgl_file_data : list byte) (end_delimiter_offset : Z)
    : result (Z * Z) :=
  fields <- unpack (fmt "@2H")
              (slice bgl_file_data end_delimiter_offset (end_delimiter_offset + 4)) ;;
  match fields with
  | [VInt closing_delimiter_id; VInt closing_delimiter_size] =>
      Ok (closing_delimiter_id, closing_delimiter_size)
  | _ => Err ValueError
  end.

(** [FSXAttachedObjectData.parse] *)
Definition FSXAttachedObjectData_parse (bgl_file_data : list byte) (file_offset : Z)
    : result AttachedObjectData :=
  fields <- get_data FSXAttachedObjectData_fmt bgl_file_data file_offset ;;
  match fields with
  | [VInt id; VInt start_delimiter_size; VInt object_type_id;
     VInt attached_object_data_size; VInt attach_point_string_relative_offset;
     VInt pitch; VInt bank; VInt hdg;
     VFloat bias_x; VFloat bias_y; VFloat bias_z;
     VBytes instance_id; VInt probability; VInt randomness] =>
      instance_id <- UUID_bytes_le instance_id ;;
      let fixed_part_size := calcsize FSXAttachedObjectData_fmt in
      let attached_obj_data_offset := file_offset + fixed_part_size in
      obj_data <- attached_payload_parse bgl_file_data attached_obj_data_offset object_type_id ;;
      '(_, attach_point_name) <-
        utils.read_stringz_word_aligned
          (slice_from bgl_file_data
             (file_offset + start_delimiter_size + attach_point_string_relative_offset)) ;;
      let end_delimiter_offset := file_offset + start_delimiter_size + attached_object_data_size in
      '(closing_delimiter_id, closing_delimiter_size) <-
        closing_delimiter bgl_file_data end_delimiter_offset ;;
      if negb (closing_delimiter_id =? 0x1003) then
        Err (Exception (attachedObject_closing_delimiter_id_is closing_delimiter_id))
      else
        Ok {| att_id := id; start_delimiter_size := start_delimiter_size;
              object_type_id := object_type_id;
              attached_object_data_size := attached_object_data_size;
              attach_point_string_relative_offset := attach_point_string_relative_offset;
              att_pitch_raw := pitch; att_bank_raw := bank; att_hdg_raw := hdg;
              bias_x := bias_x; bias_y := bias_y; bias_z := bias_z;
              att_instance_id := Some instance_id;
              probability := Some probability; randomness := Some randomness;
              obj_data := obj_data; attach_point_name := attach_point_name;
              closing_delimiter_id := closing_delimiter_id;
              closing_delimiter_size := closing_delimiter_size |}
  | _ => Err ValueError
  end.

(** [FS9AttachedObjectData.parse] *)
Definition FS9AttachedObjectData_parse (bgl_file_data : list byte) (file_offset : Z)
    : result AttachedObjectData :=
  fields <- get_data FS9AttachedObjectData_fmt bgl_file_data file_offset ;;
  match fields with
  | [VInt id; VInt start_delimiter_size; VInt object_type_id;
     VInt attached_object_data_size; VInt attach_point_string_relative_offset;
     VInt pitch; VInt bank; VInt hdg;
     VFloat bias_x; VFloat bias_y; VFloat bias_z] =>
      let fixed_part_size := calcsize FS9AttachedObjectData_fmt in
      let attached_obj_data_offset := file_offset + fixed_part_size in
      obj_data <- attached_payload_parse bgl_file_data attached_obj_data_offset object_type_id ;;
      '(_, attach_point_name) <-
        utils.read_stringz_word_aligned
          (slice_from bgl_file_data
             (file_offset + start_delimiter_size + attach_point_string_relative_offset)) ;;
      let end_delimiter_offset := file_offset + start_delimiter_size + attached_object_data_size in
      '(closing_delimiter_id, closing_delimiter_size) <-
        closing_delimiter bgl_file_data end_delimiter_offset ;;
      if negb (closing_delimiter_id =? 0x1001) then
        Err (Exception (attachedObject_closing_delimiter_id_is closing_delimiter_id))
      else
        Ok {| att_id := id; start_delimiter_size := start_delimiter_size;
              object_type_id := object_type_id;
              attached_object_data_size := attached_object_data_size;
              attach_point_string_relative_offset := attach_point_string_relative_offset;
              att_pitch_raw := pitch; att_bank_raw := bank; att_hdg_raw := hdg;
              bias_x := bias_x; bias_y := bias_y; bias_z := bias_z;
              att_instance_id := None; probability := None; randomness := None;
              obj_data := obj_data; attach_point_name := attach_point_name;
              closing_delimiter_id := closing_delimiter_id;
              closing_delimiter_size := closing_delimiter_size |}
  | _ => Err ValueError
  end.

(** [total_size] of both attached-object classes. *)
Definition AttachedObjectData_total_size (a : AttachedObjectData) : Z :=
  start_delimiter_size a + attached_object_data_size a + closing_delimiter_size a.

(** Class attributes of [FS9LibraryObjectRecord] and of [LibraryObjectRecord]
    / [FSXLibraryObjectRecord]. *)
Definition attached_object_delimiter_id (fam : family) : Z :=
  match fam with FS9 => 0x1000 | FSX => 0x1002 end.

Definition attached_object_class_parse (fam : family)
    : list byte -> Z -> result AttachedObjectData :=
  match fam with
  | FS9 => FS9AttachedObjectData_parse
  | FSX => FSXAttachedObjectData_parse
  end.

(** [TaxiwaySignDataItem]: one taxiway sign. *)
Record TaxiwaySignDataItem : Type := {
  sign_lon : Z;
  sign_lat : Z;
  sign_hdg_raw : Z;
  text_size : Z;
  justification : Z;
  label_raw_size : Z;
  label : string
}.

Definition TaxiwaySignDataItem_fmt : list fld := Eval vm_compute in fmt "@2fH2B".

Definition TaxiwaySignDataItem_parse (anchor_lon_raw_value anchor_lat_raw_value : Z)
    (bgl_file_data : list byte) (file_offset : Z) : result TaxiwaySignDataItem :=
  fields <- get_data TaxiwaySignDataItem_fmt bgl_file_data file_offset ;;
  match fields with
  | [VFloat lon_offset_raw_value; VFloat lat_offset_raw_value; VInt hdg;
     VInt text_size; VInt justification] =>
      '(lon, lat) <- taxiway_sign_position anchor_lon_raw_value anchor_lat_raw_value
                       lon_offset_raw_value lat_offset_raw_value ;;
      justification <- IntEnum TaxiwaySignJustification_has justification ;;
      '(label_raw_size, label) <-
        utils.read_stringz_word_aligned
          (slice_from bgl_file_data (file_offset + calcsize TaxiwaySignDataItem_fmt)) ;;
      Ok {| sign_lon := lon; sign_lat := lat; sign_hdg_raw := hdg;
            text_size := text_size; justification := justification;
            label_raw_size := label_raw_size; label := label |}
  | _ => Err ValueError
  end.

Definition TaxiwaySignDataItem_total_size (item : TaxiwaySignDataItem) : Z :=
  calcsize TaxiwaySignDataItem_fmt + label_raw_size item.

(** The [for i in range(0, self.taxiway_signs_count)] loop of
    [FSXTaxiwaySign.parse]. *)
Fixpoint taxiway_sign_items (count : nat) (anchor_lon anchor_lat : Z)
    (bgl_file_data : list byte) (current_record_offset : Z)
    : result (list TaxiwaySignDataItem) :=
  match count with
  | O => Ok []
  | S count' =>
      item <- TaxiwaySignDataItem_parse anchor_lon anchor_lat bgl_file_data
                current_record_offset ;;
      items <- taxiway_sign_items count' anchor_lon anchor_lat bgl_file_data
                 (current_record_offset + TaxiwaySignDataItem_total_size item) ;;
      Ok (item :: items)
  end.

(** The variable part of a scenery object record, by record class. *)
Inductive payload : Type :=
| LibraryObjectRecord (obj_info : LibraryObject) (attached_object : option AttachedObjectData)
| BeaconRecord (obj : Beacon)
| WindSock (pole_height sock_length : Z) (pole_rgba sock_rgba : list byte) (flag_lighted : Z)
| EffectPlacement (effect_name effect_params : string)
| TaxiwaySign (taxiway_signs_count : Z) (items : list TaxiwaySignDataItem)
| PlaceHolderRecord
| ExtrusionBridgeRecord (fixed : list val) (placements : list (list byte))
    (points : list (Z * Z * Z)).

(** [SceneryObjectRecord]: the header, the offset of the data behind it and
    the payload of the subclass. *)
Record SceneryObjectRecord : Type := {
  fam : family;
  header : SceneryObjectHeader;
  data_offset : Z;
  body : payload
}.

(** [SceneryObjectRecord.parse]: the part every subclass runs first. *)
Definition SceneryObjectRecord_parse (fam : family) (bgl_file_data : list byte)
    (file_offset : Z) : result (SceneryObjectHeader * Z) :=
  h <- header_parse fam bgl_file_data file_offset ;;
  Ok (h, file_offset + header_total_size fam).

Definition PlaceHolderRecord_parse (fam : family) (bgl_file_data : list byte)
    (file_offset : Z) : result SceneryObjectRecord :=
  '(h, data_offset) <- SceneryObjectRecord_parse fam bgl_file_data file_offset ;;
  Ok {| fam := fam; header := h; data_offset := data_offset; body := PlaceHolderRecord |}.

(** [LibraryObjectRecord.parse] *)
Definition LibraryObjectRecord_parse (fam : family) (bgl_file_data : list byte)
    (file_offset : Z) : result SceneryObjectRecord :=
  '(h, data_offset) <- SceneryObjectRecord_parse fam bgl_file_data file_offset ;;
  _ <- get_data LibraryObject_fmt bgl_file_data file_offset ;;
  obj_info <- LibraryObject_parse bgl_file_data data_offset ;;
  let next_record_offset := data_offset + calcsize LibraryObject_fmt in
  let next_record_first_2_bytes :=
    slice bgl_file_data next_record_offset (next_record_offset + 2) in
  attached_object <-
    match next_record_first_2_bytes with
    | [] => Ok None
    | _ :: _ =>
        fields <- unpack (fmt "@H") next_record_first_2_bytes ;;
        match fields with
        | [VInt next_id] =>
            if next_id =? attached_object_delimiter_id fam then
              a <- attached_object_class_parse fam bgl_file_data next_record_offset ;;
              Ok (Some a)
            else Ok None
        | _ => Err ValueError
        end
    end ;;
  Ok {| fam := fam; header := h; data_offset := data_offset;
        body := LibraryObjectRecord obj_info attached_object |}.

(** [FSXBeaconRecord.parse] *)
Definition BeaconRecord_parse (fam : family) (bgl_file_data : list byte)
    (file_offset : Z) : result SceneryObjectRecord :=
  '(h, data_offset) <- SceneryObjectRecord_parse fam bgl_file_data file_offset ;;
  obj <- Beacon_parse bgl_file_data data_offset ;;
  Ok {| fam := fam; header := h; data_offset := data_offset; body := BeaconRecord obj |}.

Definition FSXWindSock_fmt : list fld := Eval vm_compute in fmt "@2f4s4sH".

(** [FSXWindSock.parse] *)
Definition WindSock_parse (fam : family) (bgl_file_data : list byte)
    (file_offset : Z) : result SceneryObjectRecord :=
  '(h, data_offset) <- SceneryObjectRecord_parse fam bgl_file_data file_offset ;;
  fields <- get_data FSXWindSock_fmt bgl_file_data data_offset ;;
  match fields with
  | [VFloat pole_height; VFloat sock_length; VBytes pole_rgba; VBytes sock_rgba;
     VInt flag_lighted] =>
      Ok {| fam := fam; header := h; data_offset := data_offset;
            body := WindSock pole_height sock_length pole_rgba sock_rgba flag_lighted |}
  | _ => Err ValueError
  end.

Definition FSXEffectPlacement_fmt : list fld := Eval vm_compute in fmt "@80s".

(** [FSXEffectPlacement.parse] *)
Definition EffectPlacement_parse (fam : family) (bgl_file_data : list byte)
    (file_offset : Z) : result SceneryObjectRecord :=
  '(h, data_offset) <- SceneryObjectRecord_parse fam bgl_file_data file_offset ;;
  fields <- get_data FSXEffectPlacement_fmt bgl_file_data data_offset ;;
  match fields with
  | [VBytes effect_name_buffer] =>
      '(_, effect_name) <- utils.read_stringz_word_aligned effect_name_buffer ;;
      let fmt_bytes_size := calcsize FSXEffectPlacement_fmt in
      let params_offset := data_offset + fmt_bytes_size in
      let effect_params_buffer_size := size h - fmt_bytes_size in
      let effect_params_buffer :=
        slice bgl_file_data params_offset (params_offset + effect_params_buffer_size) in
      effect_params <- utils.read_stringz effect_params_buffer ;;
      Ok {| fam := fam; header := h; data_offset := data_offset;
            body := EffectPlacement effect_name effect_params |}
  | _ => Err ValueError
  end.

Definition FSXTaxiwaySign_fmt : list fld := Eval vm_compute in fmt "@L".

(** [FSXTaxiwaySign.parse] *)
Definition TaxiwaySign_parse (fam : family) (bgl_file_data : list byte)
    (file_offset : Z) : result SceneryObjectRecord :=
  '(h, data_offset) <- SceneryObjectRecord_parse fam bgl_file_data file_offset ;;
  fields <- get_data FSXTaxiwaySign_fmt bgl_file_data data_offset ;;
  match fields with
  | [VInt taxiway_signs_count] =>
      let current_record_offset := data_offset + calcsize FSXTaxiwaySign_fmt in
      items <- taxiway_sign_items (Z.to_nat taxiway_signs_count)
                 (lon_raw_value h) (lat_raw_value h) bgl_file_data current_record_offset ;;
      Ok {| fam := fam; header := h; data_offset := data_offset;
            body := TaxiwaySign taxiway_signs_count items |}
  | _ => Err ValueError
  end.

Definition ExtrusionBridgeRecord_fmt : list fld := Eval vm_compute in fmt "@16s16s3L3L2f2BH".

(** The two [for i in range(...)] loops of [ExtrusionBridgeRecord.parse]. *)
Fixpoint bridge_placements (count : nat) (bgl_file_data : list byte) (current_offset : Z)
    : result (list (list byte)) :=
  match count with
  | O => Ok []
  | S count' =>
      fields <- unpack (fmt "@16s") (slice bgl_file_data current_offset (current_offset + 16)) ;;
      match fields with
      | [VBytes placement] =>
          rest <- bridge_placements count' bgl_file_data (current_offset + 16) ;;
          Ok (placement :: rest)
      | _ => Err TypeError
      end
  end.

Fixpoint bridge_points (count : nat) (bgl_file_data : list byte) (current_offset : Z)
    : result (list (Z * Z * Z)) :=
  match count with
  | O => Ok []
  | S count' =>
      fields <- unpack (fmt "@3L") (slice bgl_file_data current_offset (current_offset + 12)) ;;
      match fields with
      | [VInt point_lon; VInt point_lat; VInt point_alt] =>
          rest <- bridge_points count' bgl_file_data (current_offset + 12) ;;
          Ok ((point_lon, point_lat, point_alt) :: rest)
      | _ => Err ValueError
      end
  end.

(** [ExtrusionBridgeRecord.parse]; the thirteen fixed fields are kept as
    unpacked. *)
Definition ExtrusionBridgeRecord_parse (bgl_file_data : list byte) (file_offset : Z)
    : result SceneryObjectRecord :=
  '(h, data_offset) <- SceneryObjectRecord_parse FSX bgl_file_data file_offset ;;
  fields <- get_data ExtrusionBridgeRecord_fmt bgl_file_data data_offset ;;
  match fields with
  | [VBytes profile; VBytes material_set; _; _; _; _; _; _; _; _; _;
     VInt placement_count; VInt point_count] =>
      _ <- UUID_bytes_le profile ;;
      _ <- UUID_bytes_le material_set ;;
      let placements_offset := data_offset + calcsize ExtrusionBridgeRecord_fmt in
      let placement_size := calcsize (fmt "@16s") in
      placements <- bridge_placements (Z.to_nat placement_count) bgl_file_data
                      placements_offset ;;
      let points_offset := placements_offset + placement_count * placement_size in
      points <- bridge_points (Z.to_nat point_count) bgl_file_data points_offset ;;
      Ok {| fam := FSX; header := h; data_offset := data_offset;
            body := ExtrusionBridgeRecord fields placements points |}
  | _ => Err ValueError
  end.

(** The [total_size] property: [SceneryObjectRecord.total_size] is the
    header's [size] field, and [LibraryObjectRecord.total_size] adds the
    total size of the attached object when there is one. *)
Definition total_size (r : SceneryObjectRecord) : Z :=
  match body r with
  | LibraryObjectRecord _ (Some attached_object) =>
      size (header r) + AttachedObjectData_total_size attached_object
  | _ => size (header r)
  end.

(** [SCENERYOBJECTS_IDS.get(decoded_id, None)]: the [parse] of the record
    class registered under the id. *)
Definition SCENERYOBJECTS_IDS (decoded_id : Z)
    : option (list byte -> Z -> result SceneryObjectRecord) :=
  if decoded_id =? FS9_GENERIC_BUILDING then Some (PlaceHolderRecord_parse FS9)
  else if decoded_id =? FS9_LIB_OBJ then Some (LibraryObjectRecord_parse FS9)
  else if decoded_id =? FS9_WINDSOCK then Some (WindSock_parse FS9)
  else if decoded_id =? FS9_FX then Some (EffectPlacement_parse FS9)
  else if decoded_id =? FS9_TAXIWAY_SIGN then Some (TaxiwaySign_parse FS9)
  else if decoded_id =? FS9_TRIGGER then Some (PlaceHolderRecord_parse FS9)
  else if decoded_id =? FS9_BEACON then Some (BeaconRecord_parse FS9)
  else if decoded_id =? FSX_GENERIC_BUILDING then Some (PlaceHolderRecord_parse FSX)
  else if decoded_id =? FSX_LIB_OBJ then Some (LibraryObjectRecord_parse FSX)
  else if decoded_id =? FSX_WINDSOCK then Some (WindSock_parse FSX)
  else if decoded_id =? FSX_FX then Some (EffectPlacement_parse FSX)
  else if decoded_id =? FSX_TAXIWAY_SIGN then Some (TaxiwaySign_parse FSX)
  else if decoded_id =? FSX_TRIGGER then Some (PlaceHolderRecord_parse FSX)
  else if decoded_id =? FSX_BEACON then Some (BeaconRecord_parse FSX)
  else if decoded_id =? FSX_EXTRUSION_BRIDGE then Some ExtrusionBridgeRecord_parse
  else None.

End WithValues.
End sceneryobject.

(** ** fs_parse/bgl/records/modeldata.py *)
Module modeldata.

(** [ModelDataRecord]: a library object model, wrapping an MDL file. *)
Record ModelDataRecord : Type := {
  mdl_file_offset : Z;
  mdl_file_length : Z;
  uuid : list byte;
  mdl_data : list byte
}.

Definition ModelDataRecord_fmt : list fld := Eval vm_compute in fmt "@16s2L".

(** [ModelDataRecord.parse] *)
Definition ModelDataRecord_parse (bgl_file_data : list byte) (file_offset : Z)
    : result ModelDataRecord :=
  fields <- get_data ModelDataRecord_fmt bgl_file_data file_offset ;;
  match fields with
  | [VBytes uuid_value; VInt mdl_file_offset; VInt mdl_file_length] =>
      u <- UUID_bytes_le uuid_value ;;
      Ok {| mdl_file_offset := mdl_file_offset;
            mdl_file_length := mdl_file_length;
            uuid := u;
            mdl_data := slice bgl_file_data mdl_file_offset
                          (mdl_file_offset + mdl_file_length) |}
  | _ => Err ValueError
  end.

End modeldata.

(** ** fs_parse/bgl/subsections.py *)
Module subsections.
Section WithValues.
Context {V : Values}.

(** [BGLSubSectionHeader]; [QMID_b] is set by the terrain header only. *)
Record BGLSubSectionHeader : Type := {
  QMID_a : Z;
  QMID_b : option Z;
  records_number : Z;
  first_record_file_offset : Z;
  subsection_data_size : Z
}.

Definition BGLStandardSubSectionHeader_fmt : list fld := Eval vm_compute in fmt "@4L".
Definition BGLTerrainSubSectionHeader_fmt : list fld := Eval vm_compute in fmt "@5L".

(** [BGLStandardSubSectionHeader.parse] *)
Definition BGLStandardSubSectionHeader_parse (bgl_file_data : list byte)
    (file_offset : Z) : result BGLSubSectionHeader :=
  fields <- get_data BGLStandardSubSectionHeader_fmt bgl_file_data file_offset ;;
  match fields with
  | [VInt a; VInt n; VInt first; VInt sz] =>
      Ok {| QMID_a := a; QMID_b := None; records_number := n;
            first_record_file_offset := first; subsection_data_size := sz |}
  | _ => Err ValueError
  end.

(** [BGLTerrainSubSectionHeader.parse] *)
Definition BGLTerrainSubSectionHeader_parse (bgl_file_data : list byte)
    (file_offset : Z) : result BGLSubSectionHeader :=
  fields <- get_data BGLTerrainSubSectionHeader_fmt bgl_file_data file_offset ;;
  match fields with
  | [VInt a; VInt b; VInt n; VInt first; VInt sz] =>
      Ok {| QMID_a := a; QMID_b := Some b; records_number := n;
            first_record_file_offset := first; subsection_data_size := sz |}
  | _ => Err ValueError
  end.

(** A subsection after [parse]: the header and the records of the class. *)
Inductive subsection_records : Type :=
| NoRecords
| ModelDataRecords (skip_invalid : bool) (records : list modeldata.ModelDataRecord)
| SceneryObjectRecords (records : list sceneryobject.SceneryObjectRecord).

Record BGLSubSection : Type := {
  header : BGLSubSectionHeader;
  records : subsection_records
}.

(** [BGLSubSection.parse]: the header only. *)
Definition BGLSubSection_parse (bgl_file_data : list byte) (file_offset : Z)
    : result BGLSubSection :=
  h <- BGLStandardSubSectionHeader_parse bgl_file_data file_offset ;;
  Ok {| header := h; records := NoRecords |}.

(** The [for i in range(0, self.header.records_number)] loop of
    [ModelData.parse]: [todo] rounds are left and the next is round [i]. *)
Fixpoint ModelData_records (skip_invalid : bool) (todo : nat) (i : Z)
    (bgl_file_data : list byte) (first_record_file_offset : Z)
    : result (list modeldata.ModelDataRecord) :=
  match todo with
  | O => Ok []
  | S todo' =>
      let record_offset :=
        first_record_file_offset + i * calcsize modeldata.ModelDataRecord_fmt in
      match modeldata.ModelDataRecord_parse bgl_file_data record_offset with
      | Ok record =>
          rest <- ModelData_records skip_invalid todo' (i + 1) bgl_file_data
                    first_record_file_offset ;;
          Ok (record :: rest)
      | Err e =>
          if skip_invalid then
            ModelData_records skip_invalid todo' (i + 1) bgl_file_data
              first_record_file_offset
          else Err e
      end
  end.

(** [ModelData(skip_invalid).parse] *)
Definition ModelData_parse (skip_invalid : bool) (bgl_file_data : list byte)
    (file_offset : Z) : result BGLSubSection :=
  h <- BGLStandardSubSectionHeader_parse bgl_file_data file_offset ;;
  rs <- ModelData_records skip_invalid (Z.to_nat (records_number h)) 0 bgl_file_data
          (first_record_file_offset h) ;;
  Ok {| header := h; records := ModelDataRecords skip_invalid rs |}.

(** The first four bytes at the current offset: [(decoded_id, record_size)]. *)
Definition peek_record (bgl_file_data : list byte) (current_record_offset : Z)
    : result (Z * Z) :=
  fields <- unpack (fmt "@2H")
              (slice bgl_file_data current_record_offset (current_record_offset + 4)) ;;
  match fields with
  | [VInt decoded_id; VInt record_size] => Ok (decoded_id, record_size)
  | _ => Err ValueError
  end.

(** The [for i in range(0, self.header.records_number)] loop of
    [SceneryObject.parse]. *)
Fixpoint SceneryObject_records (todo : nat) (i : nat) (bgl_file_data : list byte)
    (current_record_offset : Z) : result (list sceneryobject.SceneryObjectRecord) :=
  match todo with
  | O => Ok []
  | S todo' =>
      '(decoded_id, record_size) <- peek_record bgl_file_data current_record_offset ;;
      match sceneryobject.SCENERYOBJECTS_IDS decoded_id with
      | Some record_class_parse =>
          record <- record_class_parse bgl_file_data current_record_offset ;;
          rest <- SceneryObject_records todo' (S i) bgl_file_data
                    (current_record_offset + sceneryobject.total_size record) ;;
          Ok (record :: rest)
      | None =>
          Err (Exception (UNKNOWN_scenery_object_type decoded_id i
                            current_record_offset record_size))
      end
  end.

(** [SceneryObject.parse] *)
Definition SceneryObject_parse (bgl_file_data : list byte) (file_offset : Z)
    : result BGLSubSection :=
  h <- BGLStandardSubSectionHeader_parse bgl_file_data file_offset ;;
  rs <- SceneryObject_records (Z.to_nat (records_number h)) 0 bgl_file_data
          (first_record_file_offset h) ;;
  Ok {| header := h; records := SceneryObjectRecords rs |}.

End WithValues.
End subsections.

(** ** fs_parse/bgl/classes.py *)
Module classes.
Section WithValues.
Context {V : Values}.

(** [BGLHeader] *)
Record BGLHeader : Type := {
  magic_number_1 : Z;
  header_size : Z;
  filetime : Z;
  magic_number_2 : Z;
  sections_count : Z;
  qmid_slots : list val
}.

Definition BGLHeader_fmt : list fld := Eval vm_compute in fmt "@2LQ10L".

(** The [try] / [except OverflowError] of [BGLHeader.parse]. *)
Definition filetime_of (filetime_100_ns_intervals : Z) : result Z :=
  let base_datetime := datetime.january_1st 1601 in
  microseconds <- pyfloat.int_truediv filetime_100_ns_intervals 10 ;;
  match (td <- datetime.timedelta microseconds ;; datetime.add base_datetime td) with
  | Ok filetime => Ok filetime
  | Err OverflowError =>
      let base_datetime_epoch := datetime.january_1st 1970 in
      nanoseconds <- pyfloat.int_truediv microseconds 1000 ;;
      td <- datetime.timedelta nanoseconds ;;
      datetime.add base_datetime_epoch td
  | Err e => Err e
  end.

(** [BGLHeader.parse] *)
Definition BGLHeader_parse (bgl_file_data : list byte) (file_offset : Z)
    : result BGLHeader :=
  fields <- get_data BGLHeader_fmt bgl_file_data file_offset ;;
  match fields with
  | VInt magic_number_1 :: VInt header_size :: VInt filetime_100_ns_intervals
      :: VInt magic_number_2 :: VInt sections_count :: qmid_slots =>
      filetime <- filetime_of filetime_100_ns_intervals ;;
      Ok {| magic_number_1 := magic_number_1; header_size := header_size;
            filetime := filetime; magic_number_2 := magic_number_2;
            sections_count := sections_count; qmid_slots := qmid_slots |}
  | _ => Err ValueError
  end.

(** The class a section type is mapped to; [None] is the mapping's [None]. *)
Inductive subsection_class : Type :=
| BGLSubSection_class
| SceneryObject_class
| ModelData_class.

(** [BGLSection.subsections_mapping] *)
Definition subsections_mapping (t : BGLSectionType) : option subsection_class :=
  match t with
  | NONE => None
  | COPYRIGHT => None
  | SCENERYOBJECT => Some SceneryObject_class
  | MODELDATA => Some ModelData_class
  | GUID | AIRPORT | ILS_VOR | NDB | MARKER | BOUNDARY | WAYPOINT | GEOPOL
  | NAMELIST | VORILSICAOINDEX | NDBICAOINDEX | WAYPOINTICAOINDEX
  | AIRPORTSUMMARY | EXCLUSION | TIMEZONE | TERRAINVECTORDB | TERRAINELEVATION
  | TERRAINLANDCLASS | TERRAINWATERCLASS | TERRAINREGION | POPULATIONDENSITY
  | AUTOGENANNOTATION | TERRAININDEX | TERRAINTEXTURELOOKUP
  | TERRAINSEASONJAN | TERRAINSEASONFEB | TERRAINSEASONMAR | TERRAINSEASONAPR
  | TERRAINSEASONMAY | TERRAINSEASONJUN | TERRAINSEASONJUL | TERRAINSEASONAUG
  | TERRAINSEASONSEP | TERRAINSEASONOCT | TERRAINSEASONNOV | TERRAINSEASONDEC
  | TERRAINPHOTOJAN | TERRAINPHOTOFEB | TERRAINPHOTOMAR | TERRAINPHOTOAPR
  | TERRAINPHOTOMAY | TERRAINPHOTOJUN | TERRAINPHOTOJUL | TERRAINPHOTOAUG
  | TERRAINPHOTOSEP | TERRAINPHOTOOCT | TERRAINPHOTONOV | TERRAINPHOTODEC
  | TERRAINPHOTONIGHT | TACAN | TACANINDEX | FAKETYPES | ICAORUNWAY =>
      Some BGLSubSection_class
  end.

(** [subsection = subsection_class(); subsection.parse(...)]: calling the
    mapping's [None] raises [TypeError]; [ModelData()] takes its default
    [skip_invalid=True]. *)
Definition subsection_parse (c : option subsection_class) (bgl_file_data : list byte)
    (subsection_offset : Z) : result subsections.BGLSubSection :=
  match c with
  | None => Err TypeError
  | Some BGLSubSection_class => subsections.BGLSubSection_parse bgl_file_data subsection_offset
  | Some SceneryObject_class => subsections.SceneryObject_parse bgl_file_data subsection_offset
  | Some ModelData_class => subsections.ModelData_parse true bgl_file_data subsection_offset
  end.

(** [BGLSection] *)
Record BGLSection : Type := {
  section_type : BGLSectionType;
  subsection_size_value : Z;
  subsections_count : Z;
  sections_start_offset : Z;
  total_size : Z;
  subsections : list subsections.BGLSubSection
}.

Definition BGLSection_fmt : list fld := Eval vm_compute in fmt "@5L".

(** The [for i in range(0, self.subsections_count)] loop of
    [BGLSection.parse]. *)
Fixpoint BGLSection_subsections (c : option subsection_class) (todo : nat) (i : Z)
    (bgl_file_data : list byte) (sections_start_offset subsection_size_value : Z)
    : result (list subsections.BGLSubSection) :=
  match todo with
  | O => Ok []
  | S todo' =>
      let subsection_offset := sections_start_offset + i * subsection_size_value in
      subsection <- subsection_parse c bgl_file_data subsection_offset ;;
      rest <- BGLSection_subsections c todo' (i + 1) bgl_file_data
                sections_start_offset subsection_size_value ;;
      Ok (subsection :: rest)
  end.

(** [BGLSection.parse] *)
Definition BGLSection_parse (bgl_file_data : list byte) (file_offset : Z)
    : result BGLSection :=
  fields <- get_data BGLSection_fmt bgl_file_data file_offset ;;
  match fields with
  | [VInt section_type; VInt subsection_size_value; VInt subsections_count;
     VInt sections_start_offset; VInt total_size] =>
      match BGLSectionType_of section_type with
      | None => Err ValueError
      | Some section_type =>
          let subsection_size_value :=
            Z.shiftr (Z.lor (Z.land subsection_size_value 0x10000) 0x40000) 0x0E in
          let subsection_class := subsections_mapping section_type in
          subs <- BGLSection_subsections subsection_class (Z.to_nat subsections_count) 0
                    bgl_file_data sections_start_offset subsection_size_value ;;
          Ok {| section_type := section_type;
                subsection_size_value := subsection_size_value;
                subsections_count := subsections_count;
                sections_start_offset := sections_start_offset;
                total_size := total_size;
                subsections := subs |}
      end
  | _ => Err ValueError
  end.

(** [BGLFile] *)
Record BGLFile : Type := {
  file_header : BGLHeader;
  sections : list BGLSection
}.

(** The [for i in range(0, self.header.sections_count)] loop of
    [BGLFile.parse]: the section table starts right after the header. *)
Fixpoint BGLFile_sections (todo : nat) (i : Z) (bgl_file_data : list byte)
    : result (list BGLSection) :=
  match todo with
  | O => Ok []
  | S todo' =>
      let section_offset := calcsize BGLHeader_fmt + i * calcsize BGLSection_fmt in
      section <- BGLSection_parse bgl_file_data section_offset ;;
      rest <- BGLFile_sections todo' (i + 1) bgl_file_data ;;
      Ok (section :: rest)
  end.

(** [BGLFile.parse] *)
Definition BGLFile_parse (bgl_file_data : list byte) : result BGLFile :=
  h <- BGLHeader_parse bgl_file_data 0 ;;
  ss <- BGLFile_sections (Z.to_nat (sections_count h)) 0 bgl_file_data ;;
  Ok {| file_header := h; sections := ss |}.

(** [isinstance(record, LibraryObjectRecord)] *)
Definition is_LibraryObjectRecord (r : sceneryobject.SceneryObjectRecord) : bool :=
  match sceneryobject.body r with
  | sceneryobject.LibraryObjectRecord _ _ => true
  | _ => false
  end.

(** [BGLFile.get_placements]: the library object records of the scenery
    object sections.  A subsection of another class holds no record that is
    a [LibraryObjectRecord]. *)
Definition get_placements (f : BGLFile) : list sceneryobject.SceneryObjectRecord :=
  flat_map
    (fun section =>
       match section_type section with
       | SCENERYOBJECT =>
           flat_map
             (fun subsection =>
                match subsections.records subsection with
                | subsections.SceneryObjectRecords rs => filter is_LibraryObjectRecord rs
                | _ => []
                end)
             (subsections section)
       | _ => []
       end)
    (sections f).

(** The subsections of one model data section in [BGLFile.get_models];
    [None] is the [AssertionError] of [assert isinstance(subsection,
    ModelData)]. *)
Fixpoint get_models_of (subs : list subsections.BGLSubSection)
    : option (list modeldata.ModelDataRecord) :=
  match subs with
  | [] => Some []
  | subsection :: subs' =>
      match subsections.records subsection with
      | subsections.ModelDataRecords _ rs =>
          option_map (app rs) (get_models_of subs')
      | _ => None
      end
  end.

(** [BGLFile.get_models], over the sections of the file. *)
Fixpoint get_models_sections (ss : list BGLSection)
    : option (list modeldata.ModelDataRecord) :=
  match ss with
  | [] => Some []
  | section :: ss' =>
      match section_type section with
      | MODELDATA =>
          match get_models_of (subsections section) with
          | Some rs => option_map (app rs) (get_models_sections ss')
          | None => None
          end
      | _ => get_models_sections ss'
      end
  end.

Definition get_models (f : BGLFile) : option (list modeldata.ModelDataRecord) :=
  get_models_sections (sections f).

End WithValues.
End classes.

(** ** fs_parse/mdl/constants.py: the three [IntEnum]s the data chunk uses *)
Module mdl_constants.

Definition BlendType_has (v : Z) : bool := (1 <=? v) && (v <=? 10).
Definition AlphaTestFunction_has (v : Z) : bool := (1 <=? v) && (v <=? 8).
Definition AnimationTransformationType_has (v : Z) : bool := (1 <=? v) && (v <=? 2).

End mdl_constants.

(** ** fs_parse/mdl/classes.py *)
Module mdl_classes.

(** [RIFFSectionHeader] *)
Record RIFFSectionHeader : Type := {
  type_id : string;
  data_size : Z
}.

Definition RIFFSectionHeader_fmt : list fld := Eval vm_compute in fmt "4sL".

(** [RIFFSectionHeader.parse] *)
Definition RIFFSectionHeader_parse (mdl_file_data : list byte) (file_offset : Z)
    : result RIFFSectionHeader :=
  fields <- get_data RIFFSectionHeader_fmt mdl_file_data file_offset ;;
  match fields with
  | [VBytes type_id; VInt data_size] =>
      type_id <- decode_utf8 type_id ;;
      Ok {| type_id := type_id; data_size := data_size |}
  | _ => Err ValueError
  end.

End mdl_classes.

(** ** fs_parse/mdl/mdld_classes.py *)
Module mdld_classes.
Import mdl_classes.

(** The keys of [MDLDSection.section_types]; lower-cased they are the
    attributes of the section object. *)
Inductive tag : Type :=
| TEXT | MATE | INDE | VERB | TRAN | AMAP | SCEN | SGAL | SGVL | SGJC | SGBR
| LODT | ANIB | PLAL | REFL | ATTO | VISL | MREC | MREI.

Definition tag_name (t : tag) : string :=
  match t with
  | TEXT => "TEXT" | MATE => "MATE" | INDE => "INDE" | VERB => "VERB"
  | TRAN => "TRAN" | AMAP => "AMAP" | SCEN => "SCEN" | SGAL => "SGAL"
  | SGVL => "SGVL" | SGJC => "SGJC" | SGBR => "SGBR" | LODT => "LODT"
  | ANIB => "ANIB" | PLAL => "PLAL" | REFL => "REFL" | ATTO => "ATTO"
  | VISL => "VISL" | MREC => "MREC" | MREI => "MREI"
  end.

Definition all_tags : list tag :=
  [TEXT; MATE; INDE; VERB; TRAN; AMAP; SCEN; SGAL; SGVL; SGJC; SGBR;
   LODT; ANIB; PLAL; REFL; ATTO; VISL; MREC; MREI].

(** [header.type_id in self.section_types], with the key found. *)
Definition section_types (type_id : string) : option tag :=
  find (fun t => String.eqb type_id (tag_name t)) all_tags.

(** [MDLDSection.metadata_only_exclude] *)
Definition metadata_only_exclude : list string := ["INDE"; "VERB"; "TRAN"; "ANIB"]%string.

(** [MaterialItem]: the thirty unpacked fields and the three coerced enums. *)
Record MaterialItem : Type := {
  material_fields : list val;
  source_blend : Z;
  destination_blend : Z;
  alpha_test_function : Z
}.

Definition MaterialItem_fmt : list fld := Eval vm_compute in fmt "9L16f3L2f".

Definition int_field (fields : list val) (n : nat) : result Z :=
  match nth_error fields n with
  | Some (VInt z) => Ok z
  | _ => Err ValueError
  end.

(** [MaterialItem.parse] *)
Definition MaterialItem_parse (mdl_file_data : list byte) (file_offset : Z)
    : result MaterialItem :=
  fields <- get_data MaterialItem_fmt mdl_file_data file_offset ;;
  source_blend <- int_field fields 25 ;;
  destination_blend <- int_field fields 26 ;;
  alpha_test_function <- int_field fields 27 ;;
  source_blend <- IntEnum mdl_constants.BlendType_has source_blend ;;
  destination_blend <- IntEnum mdl_constants.BlendType_has destination_blend ;;
  alpha_test_function <- IntEnum mdl_constants.AlphaTestFunction_has alpha_test_function ;;
  Ok {| material_fields := fields; source_blend := source_blend;
        destination_blend := destination_blend;
        alpha_test_function := alpha_test_function |}.

(** [AnimationItem] *)
Record AnimationItem : Type := {
  transformation_type : Z;
  tran_section : Z
}.

Definition AnimationItem_fmt : list fld := Eval vm_compute in fmt "2L".

(** [AnimationItem.parse] *)
Definition AnimationItem_parse (mdl_file_data : list byte) (file_offset : Z)
    : result AnimationItem :=
  fields <- get_data AnimationItem_fmt mdl_file_data file_offset ;;
  match fields with
  | [VInt transformation_type; VInt tran_section] =>
      transformation_type <-
        IntEnum mdl_constants.AnimationTransformationType_has transformation_type ;;
      Ok {| transformation_type := transformation_type; tran_section := tran_section |}
  | _ => Err ValueError
  end.

(** What a section object stores besides its header. *)
Inductive storage : Type :=
| texture_names (l : list string)
| material_items (l : list MaterialItem)
| triangles (l : list (list val))
| matrices (l : list (list val))
| animation_items (l : list AnimationItem)
| nothing.

Record MDLSection : Type := {
  header : RIFFSectionHeader;
  stored : storage
}.

(** [self.section_types[header.type_id](header)]: what [__init__] sets. *)
Definition new_section (t : tag) (header : RIFFSectionHeader) : MDLSection :=
  {| header := header;
     stored := match t with
               | TEXT => texture_names []
               | MATE => material_items []
               | INDE => triangles []
               | TRAN => matrices []
               | AMAP => animation_items []
               | _ => nothing
               end |}.

(** The loop shared by the section parsers:
    [while current_offset < file_offset + self.header.data_size], each round
    decoding one item of [stride] bytes and appending it. *)
Definition items_loop {A : Type} (parse_item : list byte -> Z -> result A) (stride : Z)
    (header : RIFFSectionHeader) (mdl_file_data : list byte) (file_offset : Z)
    : result (list A) :=
  '(_, items) <-
    while (Z.to_nat (data_size header))
      (fun '(current_offset, _) => current_offset <? file_offset + data_size header)
      (fun '(current_offset, items) =>
         item <- parse_item mdl_file_data current_offset ;;
         Ok (current_offset + stride, items ++ [item]))
      (file_offset, []) ;;
  Ok items.

Definition texture_size : Z := 64.

Definition texture_name_parse (mdl_file_data : list byte) (current_offset : Z)
    : result string :=
  fields <- unpack [fs texture_size]
              (slice mdl_file_data current_offset (current_offset + texture_size)) ;;
  match fields with
  | [VBytes texture_name] => utils.stringz_2_ascii texture_name
  | _ => Err ValueError
  end.

Definition triangle_parse (mdl_file_data : list byte) (current_offset : Z)
    : result (list val) :=
  let triangle_fmt := fmt "3H" in
  let triangle_size := calcsize triangle_fmt in
  unpack triangle_fmt (slice mdl_file_data current_offset (current_offset + triangle_size)).

Definition matrix_parse (mdl_file_data : list byte) (current_offset : Z)
    : result (list val) :=
  let matrix_fmt := fmt "16f" in
  let matrix_size := calcsize matrix_fmt in
  unpack matrix_fmt (slice mdl_file_data current_offset (current_offset + matrix_size)).

(** [section.parse(mdl_file_data, current_offset)] for a section created by
    [new_section]: the five decoders with a body, and [pass] for the rest. *)
Definition section_parse (t : tag) (section : MDLSection) (mdl_file_data : list byte)
    (file_offset : Z) : result MDLSection :=
  let h := header section in
  match t with
  | TEXT =>
      l <- items_loop texture_name_parse texture_size h mdl_file_data file_offset ;;
      Ok {| header := h; stored := texture_names l |}
  | MATE =>
      l <- items_loop MaterialItem_parse (calcsize MaterialItem_fmt) h mdl_file_data file_offset ;;
      Ok {| header := h; stored := material_items l |}
  | INDE =>
      l <- items_loop triangle_parse (calcsize (fmt "3H")) h mdl_file_data file_offset ;;
      Ok {| header := h; stored := triangles l |}
  | TRAN =>
      l <- items_loop matrix_parse (calcsize (fmt "16f")) h mdl_file_data file_offset ;;
      Ok {| header := h; stored := matrices l |}
  | AMAP =>
      l <- items_loop AnimationItem_parse (calcsize AnimationItem_fmt) h mdl_file_data file_offset ;;
      Ok {| header := h; stored := animation_items l |}
  | _ => Ok section
  end.

(** The attributes of an [MDLDSection] object that hold its sections, all
    [None] after [__init__]. *)
Definition MDLDSection : Type := tag -> option MDLSection.

Definition MDLDSection_init : MDLDSection := fun _ => None.

Definition tag_eqb (a b : tag) : bool := String.eqb (tag_name a) (tag_name b).

(** [setattr(self, section_name, section)] *)
Definition setattr (self : MDLDSection) (t : tag) (section : MDLSection) : MDLDSection :=
  fun t' => if tag_eqb t' t then Some section else self t'.

(** One round of the loop of [MDLDSection.parse]. *)
Definition MDLDSection_round (metadata_only : bool) (mdl_file_data : list byte)
    (st : Z * MDLDSection) : result (Z * MDLDSection) :=
  let '(current_offset, self) := st in
  header <- RIFFSectionHeader_parse mdl_file_data current_offset ;;
  let current_offset := current_offset + 8 in
  match section_types (type_id header) with
  | Some t =>
      let section := new_section t header in
      section <-
        (if negb metadata_only
            || negb (existsb (String.eqb (type_id header)) metadata_only_exclude)
         then section_parse t section mdl_file_data current_offset
         else Ok section) ;;
      Ok (current_offset + data_size header, setattr self t section)
  | None => Err (Exception (Unknown_section (type_id header) current_offset))
  end.

(** [MDLDSection(header, metadata_only).parse(mdl_file_data, file_offset)] *)
Definition MDLDSection_parse (header : RIFFSectionHeader) (metadata_only : bool)
    (mdl_file_data : list byte) (file_offset : Z) : result MDLDSection :=
  '(_, self) <-
    while (Z.to_nat (data_size header))
      (fun '(current_offset, _) => current_offset <? file_offset + data_size header)
      (MDLDSection_round metadata_only mdl_file_data)
      (file_offset, MDLDSection_init) ;;
  Ok self.

End mdld_classes.

(** ** fs_parse/mdl/header_classes.py and fs_parse/mdl/main_classes.py *)
Module main_classes.
Import mdl_classes.

(** What the top level of the MDL decoder can raise: an exception of the
    decoders below, [UnsupportedMDLVersionException] (a [BaseException]),
    or the [Exception] of [StringZ.size], raised when the stored string is
    empty. *)
Inductive raised : Type :=
| Raised (e : exn)
| UnsupportedMDLVersionException (version_string : string)
| You_must_call_parse_before_accessing_its_size.

Inductive outcome (A : Type) : Type :=
| Return (a : A)
| Raise (r : raised).
Arguments Return {A} a.
Arguments Raise {A} r.

Definition lift {A : Type} (c : result A) : outcome A :=
  match c with
  | Ok a => Return a
  | Err e => Raise (Raised e)
  end.

Definition obind {A B : Type} (c : outcome A) (k : A -> outcome B) : outcome B :=
  match c with
  | Return a => k a
  | Raise r => Raise r
  end.

(** [while cond: body], as [Py.while], for code that raises [raised]. *)
Fixpoint owhile {S : Type} (rounds : nat) (cond : S -> bool) (body : S -> outcome S)
    (s : S) : outcome S :=
  match rounds with
  | O => Return s
  | Datatypes.S n =>
      if cond s then
        match body s with
        | Return s' => owhile n cond body s'
        | Raise r => Raise r
        end
      else Return s
  end.

(** The keys of [RIFFSection.section_types]. *)
Inductive tag : Type :=
| MDLH | MDLG | MDLN | SMAP | PARA | CRAS | BBOX | RADI.

Definition tag_name (t : tag) : string :=
  match t with
  | MDLH => "MDLH" | MDLG => "MDLG" | MDLN => "MDLN" | SMAP => "SMAP"
  | PARA => "PARA" | CRAS => "CRAS" | BBOX => "BBOX" | RADI => "RADI"
  end.

Definition all_tags : list tag := [MDLH; MDLG; MDLN; SMAP; PARA; CRAS; BBOX; RADI].

Definition section_types (type_id : string) : option tag :=
  find (fun t => String.eqb type_id (tag_name t)) all_tags.

(** What a section of the top level stores besides its header. *)
Inductive storage : Type :=
| mdlh (magic_number model_version : Z)
| mdlg (uuid : list byte)
| mdln (name : string)
| smap (raw_data : list byte)
| para (params_block_data : list byte)
| cras (fixed : list val) (cells : list Z)
| bbox (fields : list val)
| radi (radius : Z).

Record MDLSection : Type := {
  header : RIFFSectionHeader;
  stored : storage
}.

(** [StringZ.parse] followed by the [dv.size] of [get_data]: the string up
    to the first zero byte of [buffer[offset:]], and its length plus one;
    [size] raises when the string is empty. *)
Definition StringZ_parse (buffer : list byte) (offset : Z) : outcome (Z * string) :=
  obind (lift (utils.read_stringz (slice_from buffer offset))) (fun data =>
  match data with
  | EmptyString => Raise You_must_call_parse_before_accessing_its_size
  | _ => Return (Z.of_nat (String.length data) + 1, data)
  end).

(** The [for i in range(0, self.nodes_count)] loop of [CRASSection.parse]. *)
Fixpoint cras_cells (todo : nat) (i : Z) (mdl_file_data : list byte) (current_offset : Z)
    : result (list Z) :=
  match todo with
  | O => Ok []
  | S todo' =>
      let cell_offset := current_offset + i * 4 in
      fields <- unpack (fmt "l") (slice mdl_file_data cell_offset (cell_offset + 4)) ;;
      match fields with
      | [VInt cell_value] =>
          rest <- cras_cells todo' (i + 1) mdl_file_data current_offset ;;
          Ok (cell_value :: rest)
      | _ => Err ValueError
      end
  end.

(** [section.parse(mdl_file_data, file_offset)] for the eight classes of
    the top level. *)
Definition section_parse (t : tag) (h : RIFFSectionHeader) (mdl_file_data : list byte)
    (file_offset : Z) : outcome MDLSection :=
  match t with
  | MDLH =>
      lift (fields <- get_data (fmt "Lf") mdl_file_data file_offset ;;
            match fields with
            | [VInt magic_number; VFloat model_version] =>
                Ok {| header := h; stored := mdlh magic_number model_version |}
            | _ => Err ValueError
            end)
  | MDLG =>
      lift (fields <- get_data (fmt "16s") mdl_file_data file_offset ;;
            match fields with
            | [VBytes guid] =>
                u <- UUID_bytes_le guid ;;
                Ok {| header := h; stored := mdlg u |}
            | _ => Err ValueError
            end)
  | MDLN =>
      obind (StringZ_parse mdl_file_data file_offset) (fun '(name_len, name) =>
      Return {| header := h; stored := mdln name |})
  | SMAP =>
      Return {| header := h;
                stored := smap (slice mdl_file_data file_offset
                                  (file_offset + data_size h)) |}
  | PARA =>
      Return {| header := h;
                stored := para (slice mdl_file_data file_offset
                                  (file_offset + data_size h)) |}
  | CRAS =>
      lift (fields <- get_data (fmt "2L6fL") mdl_file_data file_offset ;;
            match nth_error fields 8 with
            | Some (VInt nodes_count) =>
                let current_offset := file_offset + calcsize (fmt "2L6fL") in
                cells <- cras_cells (Z.to_nat nodes_count) 0 mdl_file_data current_offset ;;
                Ok {| header := h; stored := cras fields cells |}
            | _ => Err ValueError
            end)
  | BBOX =>
      lift (fields <- get_data (fmt "6f") mdl_file_data file_offset ;;
            Ok {| header := h; stored := bbox fields |})
  | RADI =>
      lift (fields <- get_data (fmt "f") mdl_file_data file_offset ;;
            match fields with
            | [VFloat radius] => Ok {| header := h; stored := radi radius |}
            | _ => Err ValueError
            end)
  end.

(** The attributes of a [RIFFSection] object that hold its sections. *)
Record RIFFSection : Type := {
  version_string : string;
  attrs : tag -> option MDLSection;
  mdld : option mdld_classes.MDLDSection
}.

Definition tag_eqb (a b : tag) : bool := String.eqb (tag_name a) (tag_name b).

Definition setattr (self : RIFFSection) (t : tag) (section : MDLSection) : RIFFSection :=
  {| version_string := version_string self;
     attrs := fun t' => if tag_eqb t' t then Some section else attrs self t';
     mdld := mdld self |}.

(** One round of the loop of [RIFFSection.parse]. *)
Definition RIFFSection_round (metadata_only : bool) (mdl_file_data : list byte)
    (st : Z * RIFFSection) : outcome (Z * RIFFSection) :=
  let '(current_offset, self) := st in
  obind (lift (RIFFSectionHeader_parse mdl_file_data current_offset)) (fun header =>
  let current_offset := current_offset + 8 in
  match section_types (type_id header) with
  | Some t =>
      obind (section_parse t header mdl_file_data current_offset) (fun section =>
      Return (current_offset + data_size header, setattr self t section))
  | None =>
      if String.eqb (type_id header) "MDLD" then
        obind (lift (mdld_classes.MDLDSection_parse header metadata_only
                       mdl_file_data current_offset)) (fun section =>
        Return (current_offset + data_size header,
                {| version_string := version_string self;
                   attrs := attrs self;
                   mdld := Some section |}))
      else
        Raise (Raised (Exception (Unknown_section (type_id header) current_offset)))
  end).

(** [RIFFSection(header, metadata_only).parse(mdl_file_data, file_offset)] *)
Definition RIFFSection_parse (header : RIFFSectionHeader) (metadata_only : bool)
    (mdl_file_data : list byte) (file_offset : Z) : outcome RIFFSection :=
  obind (lift (get_data (fmt "4s") mdl_file_data file_offset)) (fun fields =>
  match fields with
  | [VBytes version_string] =>
      obind (lift (decode_utf8 version_string)) (fun version_string =>
      if negb (String.eqb version_string "MDLX") then
        Raise (UnsupportedMDLVersionException version_string)
      else
        obind
          (owhile (Z.to_nat (data_size header))
             (fun '(current_offset, _) => current_offset <? file_offset + data_size header)
             (RIFFSection_round metadata_only mdl_file_data)
             (file_offset + 4,
              {| version_string := version_string;
                 attrs := fun _ => None;
                 mdld := None |}))
          (fun '(_, self) => Return self))
  | _ => Raise (Raised ValueError)
  end).

(** [MDLFile(metadata_only=...).parse(mdl_file_data)]: the outer header at
    offset 0, then the RIFF section behind its 8 bytes. *)
Definition MDLFile_parse (metadata_only : bool) (mdl_file_data : list byte)
    : outcome RIFFSection :=
  obind (lift (RIFFSectionHeader_parse mdl_file_data 0)) (fun header =>
  RIFFSection_parse header metadata_only mdl_file_data
    (calcsize RIFFSectionHeader_fmt)).

(** [MDLFile.get_texture_names] *)
Definition get_texture_names (riff_section : RIFFSection) : list string :=
  match mdld riff_section with
  | Some m =>
      match m mdld_classes.TEXT with
      | Some text =>
          match mdld_classes.stored text with
          | mdld_classes.texture_names l => l
          | _ => []
          end
      | None => []
      end
  | None => []
  end.

End main_classes.

(** * The numbers that half and single precision bit patterns stand for *)
Module ieee.

(** A finite binary16 pattern as [(sign, m, k)], standing for
    [(-1)^sign * m * 2^k]. *)
Definition half_finite (x : Z) : Z * Z * Z :=
  let s := Z.land (Z.shiftr x 15) 1 in
  let e := Z.land (Z.shiftr x 10) 0x1f in
  let f := Z.land x 0x3ff in
  if e =? 0 then (s, f, -24) else (s, f + 1024, e - 25).

(** A finite binary32 pattern as [(sign, m, k)]. *)
Definition single_finite (y : Z) : Z * Z * Z :=
  let s := Z.land (Z.shiftr y 31) 1 in
  let e := Z.land (Z.shiftr y 23) 0xff in
  let f := Z.land y 0x7fffff in
  if e =? 0 then (s, f, -149) else (s, f + 2 ^ 23, e - 150).

(** The exponent fields, all ones for infinities and NaNs. *)
Definition half_exponent (x : Z) : Z := Z.land (Z.shiftr x 10) 0x1f.
Definition single_exponent (y : Z) : Z := Z.land (Z.shiftr y 23) 0xff.

(** What [half_float_2_float] must do at one input: keep the number when it
    is finite, and keep the class (infinity or NaN) and the sign else. *)
Definition expands_correctly (x y : Z) : bool :=
  (0 <=? y) && (y <? 2 ^ 32) &&
  if half_exponent x <? 31 then
    let '(s, m, k) := half_finite x in
    let '(s', m', k') := single_finite y in
    (single_exponent y <? 255) && (s =? s')
    && (m * 2 ^ (k + 149) =? m' * 2 ^ (k' + 149))
  else
    (single_exponent y =? 255)
    && (Z.land (Z.shiftr y 31) 1 =? Z.land (Z.shiftr x 15) 1)
    && (Z.land y 0x7fffff =? Z.shiftl (Z.land x 0x3ff) 13).

(** [P] at the [n] integers from [x] on. *)
Fixpoint all_from (n : nat) (x : Z) (P : Z -> bool) : bool :=
  match n with
  | O => true
  | S n' => P x && all_from n' (x + 1) P
  end.

End ieee.

(** * The metadata-only view of a decoded data chunk *)
Module views.
Import mdl_classes mdld_classes.

(** Whether a tag is one of the four that metadata-only mode leaves
    unparsed. *)
Definition excluded (t : tag) : bool :=
  existsb (String.eqb (tag_name t)) metadata_only_exclude.

(** A fully decoded data chunk with the storage of the excluded sections
    put back to what [__init__] sets. *)
Definition metadata_view (full : MDLDSection) : MDLDSection :=
  fun t =>
    if excluded t then option_map (fun s => new_section t (header s)) (full t)
    else full t.

(** What a metadata-only decode of a file has in common with the full
    decode: the version, the sections of the top level, and the data chunk
    up to [metadata_view]. *)
Definition file_view (full meta : main_classes.RIFFSection) : Prop :=
  main_classes.version_string meta = main_classes.version_string full
  /\ (forall t, main_classes.attrs meta t = main_classes.attrs full t)
  /\ match main_classes.mdld full, main_classes.mdld meta with
     | Some f, Some m => forall t, m t = metadata_view f t
     | None, None => True
     | _, _ => False
     end.

End views.

(** * Sample inputs used by the examples *)
Module samples.

(** A sample assignment for the parameters of [constants]. *)
Definition values : Values := {|
  BGLSectionType_of := fun v =>
    if v =? 0x00 then Some NONE
    else if v =? 0x01 then Some COPYRIGHT
    else if v =? 0x25 then Some SCENERYOBJECT
    else if v =? 0x2b then Some MODELDATA
    else None;
  ImageComplexity_has := fun v => (0 <=? v) && (v <=? 5);
  BeaconType_has := fun v => (1 <=? v) && (v <=? 4);
  TaxiwaySignJustification_has := fun v => (1 <=? v) && (v <=? 3);
  taxiway_sign_position := fun _ _ _ _ => Ok (0, 0)
|}.

(** A header of 56 zero bytes: both magic numbers are 0. *)
Definition zero_header : list byte := repeat x00 56.

(** A header with both magic numbers in place and a timestamp of
    [2^64 - 1]. *)
Definition late_header : list byte :=
  [x01; x02; x92; x19] ++ [x38; x00; x00; x00] ++ repeat xff 8
  ++ [x03; x18; x05; x08] ++ repeat x00 36.

(** A model record (uuid 0) that declares the byte range [100, 150) inside
    a container of 24 bytes. *)
Definition model_out_of_range : list byte :=
  repeat x00 16 ++ [x64; x00; x00; x00] ++ [x32; x00; x00; x00].

(** A section entry of type 0 that declares one subsection. *)
Definition none_section_with_one_subsection : list byte :=
  repeat x00 8 ++ [x01; x00; x00; x00] ++ repeat x00 8.

(** An FS9 library object placement (id [0x02], size 48): the header of 28
    bytes and the object info block of 20 bytes. *)
Definition fs9_placement : list byte :=
  [x02; x00; x30; x00] ++ repeat x00 24 ++ repeat x00 20.

(** An FS9 attached object of 54 bytes: the fixed part (id [0x1000], start
    delimiter size 4, payload type [0x02], data size 46, name offset 44), a
    library object payload, the name ["A"] and the closing delimiter
    [(0x1001, 4)]. *)
Definition fs9_attached_fixed : list byte :=
  [x00; x10; x04; x00; x02; x00; x2e; x00; x2c; x00] ++ repeat x00 18.

Definition fs9_attached : list byte :=
  fs9_attached_fixed ++ repeat x00 20 ++ [x41; x00] ++ [x01; x10; x04; x00].

(** The same attached object closed by [(0x1000, 4)]. *)
Definition fs9_attached_closed_by_0x1000 : list byte :=
  fs9_attached_fixed ++ repeat x00 20 ++ [x41; x00] ++ [x00; x10; x04; x00].

(** A scenery object subsection of two records: the header (two records,
    the first at offset 16), the FS9 placement with its attached object
    (48 + 54 bytes) and an FS9 generic building of 28 bytes. *)
Definition two_record_stream : list byte :=
  ([x00; x00; x00; x00] ++ [x02; x00; x00; x00] ++ [x10; x00; x00; x00]
   ++ [x82; x00; x00; x00])
  ++ fs9_placement ++ fs9_attached
  ++ ([x01; x00; x1c; x00] ++ repeat x00 24).

(** A data chunk of 38 bytes: an [INDE] chunk with one triangle (1, 2, 3),
    then a [TEXT] chunk with no name and an [AMAP] chunk with one item. *)
Definition inde_text_amap : list byte :=
  ([x49; x4e; x44; x45] ++ [x06; x00; x00; x00]
   ++ [x01; x00; x02; x00; x03; x00])
  ++ ([x54; x45; x58; x54] ++ [x00; x00; x00; x00])
  ++ ([x41; x4d; x41; x50] ++ [x08; x00; x00; x00]
      ++ [x01; x00; x00; x00; x07; x00; x00; x00]).

Definition inde_text_amap_header : mdl_classes.RIFFSectionHeader :=
  {| mdl_classes.type_id := "MDLD"; mdl_classes.data_size := 38 |}.

(** A whole file of 286 bytes: the header (two sections), the section
    table (a scenery object section and a model data section, one
    subsection each), the two subsection headers, the two scenery records
    of [two_record_stream] at offset 128, a model record at offset 258 and
    its payload of 4 bytes at offset 282. *)
Definition small_file : list byte :=
  ([x01; x02; x92; x19] ++ [x38; x00; x00; x00] ++ repeat x00 8
   ++ [x03; x18; x05; x08] ++ [x02; x00; x00; x00] ++ repeat x00 32)
  ++ ([x25; x00; x00; x00] ++ repeat x00 4 ++ [x01; x00; x00; x00]
      ++ [x60; x00; x00; x00] ++ repeat x00 4)
  ++ ([x2b; x00; x00; x00] ++ repeat x00 4 ++ [x01; x00; x00; x00]
      ++ [x70; x00; x00; x00] ++ repeat x00 4)
  ++ (repeat x00 4 ++ [x02; x00; x00; x00] ++ [x80; x00; x00; x00] ++ repeat x00 4)
  ++ (repeat x00 4 ++ [x01; x00; x00; x00] ++ [x02; x01; x00; x00] ++ repeat x00 4)
  ++ (fs9_placement ++ fs9_attached ++ ([x01; x00; x1c; x00] ++ repeat x00 24))
  ++ (repeat x11 16 ++ [x1a; x01; x00; x00] ++ [x04; x00; x00; x00])
  ++ [x4d; x44; x4c; x58].

(** An FS9 taxiway sign record with one sign labelled ["A"]: the header
    (id [0x05]), the count, the 12 fixed bytes of the sign (justification
    1) and the label. *)
Definition fs9_taxiway_sign : list byte :=
  ([x05; x00; x2e; x00] ++ repeat x00 24) ++ [x01; x00; x00; x00]
  ++ (repeat x00 8 ++ [x00; x00] ++ [x01; x01]) ++ [x41; x00].

(** An FS9 effect record (id [0x04]) whose name slot of 80 bytes holds no
    zero byte. *)
Definition fs9_effect_unterminated : list byte :=
  ([x04; x00; x6c; x00] ++ repeat x00 24) ++ repeat x41 80.

(** An MDL file of 118 bytes: the outer header, the version ["MDLX"], a
    [RADI] chunk, and an [MDLD] chunk that holds an [INDE] chunk with one
    triangle and a [TEXT] chunk with the name ["A.BMP"]. *)
Definition small_mdl : list byte :=
  ([x52; x49; x46; x46] ++ [x6e; x00; x00; x00])
  ++ [x4d; x44; x4c; x58]
  ++ ([x52; x41; x44; x49] ++ [x04; x00; x00; x00] ++ [x00; x00; x80; x3f])
  ++ ([x4d; x44; x4c; x44] ++ [x56; x00; x00; x00]
      ++ ([x49; x4e; x44; x45] ++ [x06; x00; x00; x00]
          ++ [x01; x00; x02; x00; x03; x00])
      ++ ([x54; x45; x58; x54] ++ [x40; x00; x00; x00]
          ++ [x41; x2e; x42; x4d; x50] ++ repeat x00 59)).

End samples.

(** * Facts about the primitives *)

Lemma len_nonneg {A : Type} (l : list A) : 0 <= len l.
Proof. unfold len. lia. Qed.

Lemma len_app {A : Type} (l1 l2 : list A) : len (l1 ++ l2) = len l1 + len l2.
Proof. unfold len. rewrite length_app. lia. Qed.

Lemma len_cons {A : Type} (x : A) (l : list A) : len (x :: l) = len l + 1.
Proof. unfold len. cbn [List.length]. lia. Qed.

Lemma adjust_index_inside (n i : Z) : 0 <= i <= n -> adjust_index n i = i.
Proof.
  intros H. unfold adjust_index.
  destruct (Z.ltb_spec i 0); lia.
Qed.

Lemma adjust_index_beyond (n i : Z) : 0 <= n <= i -> adjust_index n i = n.
Proof.
  intros H. unfold adjust_index.
  destruct (Z.ltb_spec i 0); lia.
Qed.

(** The length of a slice with bounds that are not negative. *)
Lemma len_slice {A : Type} (l : list A) (a b : Z) :
  0 <= a <= b ->
  len (slice l a b) = Z.min b (len l) - Z.min a (len l).
Proof.
  intros H. pose proof (len_nonneg l) as Hn.
  unfold slice, adjust_index.
  destruct (Z.ltb_spec a 0); [lia|].
  destruct (Z.ltb_spec b 0); [lia|].
  unfold len in *. rewrite length_firstn, length_skipn. lia.
Qed.

Lemma len_slice_inside {A : Type} (l : list A) (a b : Z) :
  0 <= a <= b -> b <= len l -> len (slice l a b) = b - a.
Proof. intros H Hb. rewrite len_slice by lia. lia. Qed.

Lemma len_slice_short {A : Type} (l : list A) (a b : Z) :
  0 <= a < b -> len l < b -> len (slice l a b) < b - a.
Proof.
  intros H Hb. pose proof (len_nonneg l). rewrite len_slice by lia. lia.
Qed.

(** A slice at the very end of the buffer is empty. *)
Lemma slice_at_end {A : Type} (l : list A) (a b : Z) :
  len l <= a <= b -> slice l a b = [].
Proof.
  intros H. pose proof (len_nonneg l) as Hn.
  assert (Hl : len (slice l a b) = 0) by (rewrite len_slice by lia; lia).
  unfold len in Hl. destruct (slice l a b); [reflexivity|cbn in Hl; lia].
Qed.

(** A slice of a slice, when the outer one lies inside the buffer. *)
Lemma slice_slice {A : Type} (d : list A) (o e a b : Z) :
  0 <= o -> 0 <= a <= b -> o + b <= e -> e <= len d ->
  slice (slice d o e) a b = slice d (o + a) (o + b).
Proof.
  intros Ho Hab Hbe He.
  assert (Hin : len (slice d o e) = e - o) by (apply len_slice_inside; lia).
  unfold slice at 1. rewrite Hin.
  rewrite !adjust_index_inside by lia.
  unfold slice. rewrite !adjust_index_inside by lia.
  rewrite skipn_firstn_comm, firstn_firstn, skipn_skipn.
  f_equal; [lia|]. f_equal. lia.
Qed.

Lemma byte_val_range (b : byte) : 0 <= byte_val b < 256.
Proof.
  unfold byte_val. pose proof (Byte.to_N_bounded b). lia.
Qed.

Lemma le_uint_range (bs : list byte) : 0 <= le_uint bs < 256 ^ len bs.
Proof.
  induction bs as [|b bs IH].
  - cbn. lia.
  - rewrite len_cons. cbn [le_uint].
    pose proof (byte_val_range b). pose proof (len_nonneg bs).
    rewrite Z.pow_add_r by lia. lia.
Qed.

(** [get_data] succeeds exactly when the format fits behind the offset. *)
Lemma get_data_inside (fs : list fld) (buffer : list byte) (offset : Z) :
  0 <= offset -> 0 <= calcsize fs -> offset + calcsize fs <= len buffer ->
  get_data fs buffer offset
  = Ok (unpack_from 0 fs (slice buffer offset (offset + calcsize fs))).
Proof.
  intros Ho Hc Hl. unfold get_data, unpack.
  rewrite len_slice_inside by lia.
  replace (offset + calcsize fs - offset) with (calcsize fs) by lia.
  now rewrite Z.eqb_refl.
Qed.

Lemma get_data_short (fs : list fld) (buffer : list byte) (offset : Z) :
  0 <= offset -> 0 < calcsize fs -> len buffer < offset + calcsize fs ->
  get_data fs buffer offset = Err struct_error.
Proof.
  intros Ho Hc Hl. unfold get_data, unpack.
  pose proof (len_slice_short buffer offset (offset + calcsize fs)) as H.
  destruct (Z.eqb_spec (len (slice buffer offset (offset + calcsize fs))) (calcsize fs));
    [lia|reflexivity].
Qed.

Lemma unpack_ok_len (fs : list fld) (data : list byte) (vs : list val) :
  unpack fs data = Ok vs -> len data = calcsize fs /\ vs = unpack_from 0 fs data.
Proof.
  unfold unpack. destruct (Z.eqb_spec (len data) (calcsize fs)); [|discriminate].
  intros [= <-]. auto.
Qed.

(** Inversion of a [bind]. *)
Lemma bind_ok {A B : Type} (c : result A) (k : A -> result B) (b : B) :
  Py.bind c k = Ok b -> exists a, c = Ok a /\ k a = Ok b.
Proof. destruct c; cbn; [eauto|discriminate]. Qed.

(** The bound of [while] is never the reason to stop when a measure that
    is positive as long as the condition holds decreases in every round. *)
Lemma while_rounds {S : Type} (mu : S -> Z) (cond : S -> bool) (body : S -> result S) :
  (forall s, cond s = true -> 0 < mu s) ->
  (forall s s', cond s = true -> body s = Ok s' -> mu s' < mu s) ->
  forall (n m : nat) (s : S),
    mu s <= Z.of_nat n -> mu s <= Z.of_nat m ->
    while n cond body s = while m cond body s.
Proof.
  intros Hpos Hdec. induction n as [|n IH]; intros m s Hn Hm.
  - destruct m; cbn; [reflexivity|].
    destruct (cond s) eqn:Hc; [|reflexivity].
    specialize (Hpos s Hc). lia.
  - destruct m; cbn.
    + destruct (cond s) eqn:Hc; [|reflexivity].
      specialize (Hpos s Hc). lia.
    + destruct (cond s) eqn:Hc; [|reflexivity].
      destruct (body s) as [s'|e] eqn:Hb; [|reflexivity].
      specialize (Hdec s s' Hc Hb). apply IH; lia.
Qed.

(** The sizes [struct.calcsize] gives for the formats of the decoder. *)
Example calcsize_of_the_formats :
  map calcsize
    [sceneryobject.SceneryObjectHeader_fmt; sceneryobject.FSXSceneryObjectHeader_extra_fmt;
     sceneryobject.LibraryObject_fmt; sceneryobject.Beacon_fmt;
     sceneryobject.FSXAttachedObjectData_fmt; sceneryobject.FS9AttachedObjectData_fmt;
     sceneryobject.TaxiwaySignDataItem_fmt; sceneryobject.FSXWindSock_fmt;
     sceneryobject.FSXEffectPlacement_fmt; sceneryobject.FSXTaxiwaySign_fmt;
     sceneryobject.ExtrusionBridgeRecord_fmt; modeldata.ModelDataRecord_fmt;
     subsections.BGLStandardSubSectionHeader_fmt; subsections.BGLTerrainSubSectionHeader_fmt;
     classes.BGLHeader_fmt; classes.BGLSection_fmt;
     mdl_classes.RIFFSectionHeader_fmt; mdld_classes.MaterialItem_fmt;
     mdld_classes.AnimationItem_fmt]
  = [28; 16; 20; 4; 48; 28; 12; 18; 80; 4; 68; 24; 16; 20; 56; 20; 8; 120; 8].
Proof. reflexivity. Qed.

(** The bound on the rounds of an item loop is never what ends it. *)
Lemma items_loop_rounds {A : Type} (parse_item : list byte -> Z -> result A)
    (stride : Z) (data : list byte) (stop : Z) (n : nat) (st : Z * list A) :
  0 < stride ->
  stop - fst st <= Z.of_nat n ->
  while n (fun '(current_offset, _) => current_offset <? stop)
    (fun '(current_offset, items) =>
       item <- parse_item data current_offset ;;
       Ok (current_offset + stride, items ++ [item])) st
  = while (Z.to_nat (stop - fst st))
      (fun '(current_offset, _) => current_offset <? stop)
      (fun '(current_offset, items) =>
         item <- parse_item data current_offset ;;
         Ok (current_offset + stride, items ++ [item])) st.
Proof.
  intros Hs Hn.
  apply (while_rounds (fun st => stop - fst st)).
  - intros [cur items] Hc. apply Z.ltb_lt in Hc. cbn [fst]. lia.
  - intros [cur items] [cur' items'] _ Hb.
    destruct (parse_item data cur); [|discriminate Hb].
    cbn [Py.bind] in Hb. injection Hb as <- _. cbn [fst]. lia.
  - exact Hn.
  - lia.
Qed.

(** * fs_parse/utils.py: strings and half floats *)

Lemma read_stringz_word_aligned_loop_prefix (pre rest : list byte) :
  (forall b, In b pre -> byte_val b <> 0) ->
  forall (i : Z) (acc : list byte),
    utils.read_stringz_word_aligned_loop (pre ++ rest) i false acc
    = utils.read_stringz_word_aligned_loop rest (i + len pre) false (acc ++ pre).
Proof.
  induction pre as [|b pre IH]; intros Hnz i acc.
  - cbn. rewrite Z.add_0_r, app_nil_r. reflexivity.
  - cbn [app utils.read_stringz_word_aligned_loop].
    destruct (Z.eqb_spec (byte_val b) 0) as [E|_].
    + exfalso. apply (Hnz b); [now left|exact E].
    + rewrite andb_false_r, IH by (intros b' Hb'; apply Hnz; now right).
      rewrite len_cons, <- app_assoc. cbn [app].
      replace (i + 1 + len pre) with (i + (len pre + 1)) by lia. reflexivity.
Qed.

Lemma firstn_len_app {A : Type} (l1 l2 : list A) :
  firstn (Z.to_nat (len l1)) (l1 ++ l2) = l1.
Proof.
  unfold len. rewrite Nat2Z.id, firstn_app, Nat.sub_diag, firstn_all. cbn.
  apply app_nil_r.
Qed.

Lemma is_nul_byte_val (b : byte) : is_nul b = (byte_val b =? 0).
Proof. destruct b; reflexivity. Qed.

Lemma lstrip_nul_nonzero (l : list byte) :
  (forall b, In b l -> byte_val b <> 0) -> lstrip_nul l = l.
Proof.
  destruct l as [|b l]; intros H; [reflexivity|].
  cbn. rewrite is_nul_byte_val.
  destruct (Z.eqb_spec (byte_val b) 0) as [E|_]; [|reflexivity].
  exfalso. apply (H b); [now left|exact E].
Qed.

Lemma strip_nul_terminated (pre : list byte) :
  (forall b, In b pre -> byte_val b <> 0) -> strip_nul (pre ++ [x00]) = pre.
Proof.
  intros H. unfold strip_nul.
  assert (Hl : lstrip_nul (pre ++ [x00]) = match pre with [] => [] | _ => pre ++ [x00] end).
  { destruct pre as [|b pre]; [reflexivity|].
    cbn. rewrite is_nul_byte_val.
    destruct (Z.eqb_spec (byte_val b) 0) as [E|_]; [|reflexivity].
    exfalso. apply (H b); [now left|exact E]. }
  rewrite Hl. destruct pre as [|b pre]; [reflexivity|].
  rewrite rev_app_distr. cbn [rev app lstrip_nul].
  change (is_nul x00) with true. cbn iota.
  rewrite lstrip_nul_nonzero.
  - change (rev pre ++ [b]) with (rev (b :: pre)) at 1.
    change (rev pre ++ [b]) with (rev (b :: pre)). apply rev_involutive.
  - intros b' Hb'. apply H. apply in_rev. exact Hb'.
Qed.

Lemma strip_nul_terminated_padded (pre : list byte) :
  (forall b, In b pre -> byte_val b <> 0) -> strip_nul (pre ++ [x00; x00]) = pre.
Proof.
  intros H. unfold strip_nul.
  destruct pre as [|b pre]; [reflexivity|].
  assert (Hl : lstrip_nul ((b :: pre) ++ [x00; x00]) = (b :: pre) ++ [x00; x00]).
  { cbn. rewrite is_nul_byte_val.
    destruct (Z.eqb_spec (byte_val b) 0) as [E|_]; [|reflexivity].
    exfalso. apply (H b); [now left|exact E]. }
  rewrite Hl, rev_app_distr. cbn [rev app lstrip_nul].
  change (is_nul x00) with true. cbn iota.
  rewrite lstrip_nul_nonzero.
  - change (rev pre ++ [b]) with (rev (b :: pre)). apply rev_involutive.
  - intros b' Hb'. apply H. apply in_rev. exact Hb'.
Qed.

(** C7 (as amended).  When the first zero byte of the buffer sits at index
    [len pre], the text before it is ASCII and, after an even index, the
    next byte is there and is a zero padding byte, the bytes up to the next
    even count are consumed (the terminator and the padding byte), the
    count is even and the text is the bytes before the first zero byte.  In
    particular [b"AB\x00\x00"], also followed by more bytes, gives
    [(4, "AB")], and [b"A\x00"] gives [(2, "A")]. *)
Theorem C7_read_stringz_word_aligned (pre rest : list byte) :
  (forall b, In b pre -> byte_val b <> 0) ->
  forallb is_ascii pre = true ->
  (len pre mod 2 = 0 -> exists rest', rest = x00 :: rest') ->
  utils.read_stringz_word_aligned (pre ++ x00 :: rest)
  = Ok (len pre + 1 + (len pre + 1) mod 2, string_of_list_byte pre)
  /\ (len pre + 1 + (len pre + 1) mod 2) mod 2 = 0
  /\ utils.read_stringz_word_aligned [x41; x42; x00; x00] = Ok (4, "AB"%string)
  /\ (forall more : list byte,
        utils.read_stringz_word_aligned ([x41; x42; x00; x00] ++ more) = Ok (4, "AB"%string))
  /\ utils.read_stringz_word_aligned [x41; x00] = Ok (2, "A"%string).
Proof.
  intros Hnz Hascii Hpad.
  split; [|split; [|split; [reflexivity|split; [intros more; reflexivity|reflexivity]]]].
  2:{ Z.div_mod_to_equations. lia. }
  unfold utils.read_stringz_word_aligned.
  rewrite read_stringz_word_aligned_loop_prefix by exact Hnz.
  cbn [utils.read_stringz_word_aligned_loop app].
  change (byte_val x00 =? 0) with true. cbn [andb]. rewrite andb_true_r.
  pose proof (Z.mod_pos_bound (len pre) 2 ltac:(lia)) as Hp.
  pose proof (len_nonneg pre) as Hn0.
  destruct (Z.eqb_spec ((0 + len pre) mod 2) 1) as [Hodd|Heven].
  - (* the terminator has an odd index *)
    assert (Hz : (len pre + 1) mod 2 = 0).
    { rewrite Z.add_0_l in Hodd. Z.div_mod_to_equations. lia. }
    rewrite Hz, Z.add_0_r. cbn [Py.bind].
    unfold utils.stringz_2_ascii, decode_ascii.
    rewrite forallb_app, Hascii. cbn [forallb andb]. change (is_ascii x00) with true.
    cbn [andb Py.bind]. rewrite strip_nul_terminated by exact Hnz.
    rewrite len_app. reflexivity.
  - (* the terminator has an even index: the padding byte follows *)
    assert (Hz : (len pre + 1) mod 2 = 1).
    { rewrite Z.add_0_l in Heven. Z.div_mod_to_equations. lia. }
    rewrite Hz.
    destruct Hpad as (rest' & ->).
    { rewrite Z.add_0_l in Heven. Z.div_mod_to_equations. lia. }
    cbn [utils.read_stringz_word_aligned_loop].
    replace ((0 + len pre + 1) mod 2 =? 1) with true
      by (symmetry; apply Z.eqb_eq; rewrite Z.add_0_l; exact Hz).
    change (byte_val x00 =? 0) with true. cbn [andb Py.bind].
    rewrite <- app_assoc. cbn [app].
    unfold utils.stringz_2_ascii, decode_ascii.
    rewrite forallb_app, Hascii. cbn [forallb andb]. change (is_ascii x00) with true.
    cbn [andb Py.bind]. rewrite strip_nul_terminated_padded by exact Hnz.
    rewrite len_app. change (len [x00; x00]) with 2.
    replace (len pre + 1 + 1) with (len pre + 2) by lia. reflexivity.
Qed.

(** C7, witness: [b"AB\x00\x00"]. *)
Lemma C7_read_stringz_word_aligned_witness :
  utils.read_stringz_word_aligned ([x41; x42] ++ x00 :: [x00])
  = Ok (4, "AB"%string).
Proof.
  refine (proj1 (C7_read_stringz_word_aligned [x41; x42] [x00] _ _ _)).
  - intros b [<-|[<-|[]]]; vm_compute; discriminate.
  - reflexivity.
  - intros _. exists []. reflexivity.
Defined.

(** C7, as stated, fails: a buffer that holds a zero byte, at an even
    index, and ends there raises [IndexError], because the padding byte is
    indexed. *)
Lemma C7_read_stringz_word_aligned_counterexample :
  In x00 [x41; x42; x00]
  /\ utils.read_stringz_word_aligned [x41; x42; x00] = Err IndexError.
Proof.
  split; [cbn; tauto|reflexivity].
Qed.

Lemma normalize_fst_indep (n : nat) :
  forall f e e', fst (utils.normalize n f e) = fst (utils.normalize n f e').
Proof.
  induction n as [|n IH]; intros f e e'; cbn; [reflexivity|].
  destruct (Z.land f 1024 =? 0); [apply IH|reflexivity].
Qed.

(** Ten rounds bring the leading bit of a subnormal fraction to bit 10. *)
Lemma normalize_reaches_bit (f e : Z) :
  0 < f < 1024 -> Z.land (fst (utils.normalize 10 f e)) 0x400 <> 0.
Proof.
  intros Hf. rewrite (normalize_fst_indep 10 f e 0).
  assert (H : forallb (fun k => negb (Z.land (fst (utils.normalize 10 (Z.of_nat k) 0)) 0x400 =? 0))
                (seq 1 1023) = true) by (vm_compute; reflexivity).
  rewrite forallb_forall in H.
  specialize (H (Z.to_nat f)). rewrite Z2Nat.id in H by lia.
  apply Z.eqb_neq, negb_true_iff, H, in_seq. lia.
Qed.

(** C6 (as amended).  [half_float_2_float] returns the bit pattern of the
    single-precision expansion as an integer: [0x3F800000] for [0x3C00],
    [0] for [0x0000], [0x7F800000] for [0x7C00] and [0xFF800000] for
    [0xFC00]. *)
Theorem C6_half_float_bit_patterns :
  utils.half_float_2_float 0x3C00 = 0x3F800000
  /\ utils.half_float_2_float 0x0000 = 0
  /\ utils.half_float_2_float 0x7C00 = 0x7F800000
  /\ utils.half_float_2_float 0xFC00 = 0xFF800000.
Proof. repeat split; reflexivity. Qed.

(** C6, as stated, fails: for [0x3C00] the returned number is the integer
    1065353216, not 1, and for [0x7C00] and [0xFC00] it is a finite
    positive integer. *)
Lemma C6_half_float_counterexample :
  utils.half_float_2_float 0x3C00 = 1065353216
  /\ utils.half_float_2_float 0x3C00 <> 1
  /\ utils.half_float_2_float 0x7C00 = 2139095040
  /\ 0 < utils.half_float_2_float 0xFC00.
Proof. repeat split; try reflexivity. vm_compute. discriminate. Qed.

(** * fs_parse/bgl/classes.py: the file header *)

Lemma round_half_even_range (n d : Z) :
  0 <= n -> 0 < d ->
  0 <= pyfloat.round_half_even n d <= n / d + 1.
Proof.
  intros Hn Hd. unfold pyfloat.round_half_even.
  pose proof (Z.div_pos n d Hn Hd).
  destruct (2 * (n mod d) <? d); [lia|].
  destruct (d <? 2 * (n mod d)); [lia|].
  destruct (Z.even (n / d)); lia.
Qed.

(** [int(a / b)] of an unsigned 64-bit [a] by a literal [b >= 8] does not
    raise and stays close to the exact quotient. *)
Lemma int_truediv_range (a b : Z) :
  0 <= a < 2 ^ 64 -> 3 <= Z.log2 b ->
  exists r, pyfloat.int_truediv a b = Ok r /\ 0 <= r <= a / b + 256.
Proof.
  intros Ha Hb.
  assert (Hb0 : 0 < b).
  { destruct (Z.lt_ge_cases 0 b) as [|Hle]; [assumption|].
    rewrite Z.log2_nonpos in Hb by lia. lia. }
  unfold pyfloat.int_truediv.
  destruct (Z.eqb_spec b 0) as [|_]; [lia|].
  destruct (Z.eqb_spec a 0) as [->|Ha0].
  { exists 0. split; [reflexivity|]. rewrite Z.div_0_l by lia. lia. }
  rewrite (Z.abs_eq a), (Z.abs_eq b) by lia.
  rewrite (Z.sgn_pos a), (Z.sgn_pos b) by lia.
  assert (Hla : Z.log2 a < 64) by (apply Z.log2_lt_pow2; lia).
  pose proof (Z.div_pos a b ltac:(lia) Hb0) as Hq0.
  assert (Hq : a / b <= a) by (apply Z.div_le_upper_bound; nia).
  set (k := Z.log2 a - Z.log2 b).
  destruct (pyfloat.scale a b k) as [n0 d0].
  set (l := if d0 <=? n0 then k else k - 1).
  assert (Hl : l <= 60) by (subst l k; destruct (d0 <=? n0); lia).
  set (e := Z.max (l - 52) (-1074)).
  assert (He : e <= 8) by lia.
  destruct (pyfloat.scale a b e) as [n d] eqn:Hs.
  unfold pyfloat.scale in Hs.
  destruct (Z.leb_spec 0 e) as [He0|He0]; injection Hs as <- <-.
  - assert (Hp : 0 < 2 ^ e) by (apply Z.pow_pos_nonneg; lia).
    assert (Hp8 : 2 ^ e <= 256) by (change 256 with (2 ^ 8); apply Z.pow_le_mono_r; lia).
    pose proof (round_half_even_range a (b * 2 ^ e) ltac:(lia) ltac:(nia)) as Hm.
    set (m := pyfloat.round_half_even a (b * 2 ^ e)) in *.
    assert (Hdiv : 2 ^ e * (a / (b * 2 ^ e)) <= a / b).
    { rewrite <- Z.div_div by lia. apply Z.mul_div_le. lia. }
    assert (Hr : 0 <= m * 2 ^ e <= a / b + 256) by nia.
    destruct (Z.ltb_spec (m * 2 ^ e) (2 ^ 1024)) as [_|Hbig].
    + exists (1 * 1 * (m * 2 ^ e)). split; [reflexivity|lia].
    + exfalso. assert (2 ^ 64 + 256 < 2 ^ 1024) by (vm_compute; reflexivity). lia.
  - assert (Hp : 0 < 2 ^ (- e)) by (apply Z.pow_pos_nonneg; lia).
    pose proof (round_half_even_range (a * 2 ^ (- e)) b ltac:(nia) Hb0) as Hm.
    set (m := pyfloat.round_half_even (a * 2 ^ (- e)) b) in *.
    assert (Hc : a * 2 ^ (- e) / b / 2 ^ (- e) = a / b).
    { rewrite Z.div_div by lia. apply Z.div_mul_cancel_r; lia. }
    exists (1 * 1 * (m / 2 ^ (- e))). split; [reflexivity|].
    pose proof (Z.div_pos m (2 ^ (- e)) ltac:(lia) Hp).
    assert (m / 2 ^ (- e) <= (a * 2 ^ (- e) / b + 1 * 2 ^ (- e)) / 2 ^ (- e))
      by (apply Z.div_le_mono; nia).
    rewrite Z.div_add in * by lia. lia.
Qed.

(** The timestamp of the header never makes the decoder raise. *)
Lemma filetime_of_total (t : Z) :
  0 <= t < 2 ^ 64 -> exists r, classes.filetime_of t = Ok r.
Proof.
  intros Ht. unfold classes.filetime_of.
  destruct (int_truediv_range t 10 Ht ltac:(vm_compute; discriminate))
    as (us & -> & Hus).
  cbn [Py.bind].
  assert (Hus' : 0 <= us < 2 ^ 61).
  { assert (t / 10 <= 18446744073709551616 / 10)
      by (apply Z.div_le_mono; change (2 ^ 64) with 18446744073709551616 in Ht; lia).
    change (18446744073709551616 / 10) with 1844674407370955161 in *.
    change (2 ^ 61) with 2305843009213693952. lia. }
  change (2 ^ 61) with 2305843009213693952 in Hus'.
  assert (Htd : forall x, 0 <= x < 2305843009213693952 -> datetime.timedelta x = Ok x).
  { intros x Hx. unfold datetime.timedelta.
    destruct (Z.leb_spec (Z.abs (x / datetime.us_per_day)) 999999999) as [_|Hbad];
      [reflexivity|].
    exfalso. change datetime.us_per_day with 86400000000 in Hbad.
    assert (0 <= x / 86400000000 <= 999999999); [|lia].
    split; [apply Z.div_pos; lia|].
    apply Z.div_le_upper_bound; lia. }
  rewrite Htd by exact Hus'. cbn [Py.bind].
  unfold datetime.add at 1.
  destruct ((1 <=? _) && (_ <=? datetime.MAXORDINAL)); [eexists; reflexivity|].
  assert (Hus64 : 0 <= us < 2 ^ 64)
    by (change (2 ^ 64) with 18446744073709551616; lia).
  destruct (int_truediv_range us 1000 Hus64 ltac:(vm_compute; discriminate))
    as (ns & -> & Hns).
  cbn [Py.bind].
  assert (Hns' : 0 <= ns < 2400000000000000).
  { assert (us / 1000 <= 2305843009213693952 / 1000) by (apply Z.div_le_mono; lia).
    change (2305843009213693952 / 1000) with 2305843009213693 in *. lia. }
  rewrite Htd by lia. cbn [Py.bind].
  unfold datetime.add.
  change (datetime.january_1st 1970) with 62135596800000000.
  change datetime.us_per_day with 86400000000.
  change datetime.MAXORDINAL with 3652059.
  assert (0 <= (62135596800000000 + ns) / 86400000000 <= 3652058).
  { split; [apply Z.div_pos; lia|apply Z.div_le_upper_bound; lia]. }
  destruct (Z.leb_spec 1 ((62135596800000000 + ns) / 86400000000 + 1)); [|lia].
  destruct (Z.leb_spec ((62135596800000000 + ns) / 86400000000 + 1) 3652059); [|lia].
  cbn [andb]. eexists. reflexivity.
Qed.

(** The fields of the header as [struct.unpack] lays them out. *)
Lemma unpack_BGLHeader (d : list byte) :
  exists qmid_slots,
    unpack_from 0 classes.BGLHeader_fmt d
    = VInt (le_uint (slice d 0 4)) :: VInt (le_uint (slice d 4 8))
        :: VInt (le_uint (slice d 8 16)) :: VInt (le_uint (slice d 16 20))
        :: VInt (le_uint (slice d 20 24)) :: qmid_slots.
Proof. eexists. reflexivity. Qed.

(** With 56 bytes at the offset the header decodes, whatever they are. *)
Lemma BGLHeader_parse_inside (data : list byte) (off : Z) :
  0 <= off -> off + 56 <= len data ->
  exists h, classes.BGLHeader_parse data off = Ok h
    /\ classes.magic_number_1 h = le_uint (slice data off (off + 4))
    /\ classes.magic_number_2 h = le_uint (slice data (off + 16) (off + 20)).
Proof.
  intros Hoff Hlen. unfold classes.BGLHeader_parse.
  assert (Hc : calcsize classes.BGLHeader_fmt = 56) by reflexivity.
  rewrite get_data_inside by lia. rewrite Hc. cbn [Py.bind].
  destruct (unpack_BGLHeader (slice data off (off + 56))) as (qmid & ->).
  assert (Ht : 0 <= le_uint (slice (slice data off (off + 56)) 8 16) < 2 ^ 64).
  { pose proof (le_uint_range (slice (slice data off (off + 56)) 8 16)) as Hr.
    rewrite (slice_slice data off (off + 56) 8 16) in * by lia.
    rewrite len_slice_inside in Hr by lia.
    replace (off + 16 - (off + 8)) with 8 in Hr by lia.
    change (256 ^ 8) with (2 ^ 64) in Hr. exact Hr. }
  destruct (filetime_of_total _ Ht) as (ft & ->). cbn [Py.bind].
  eexists. split; [reflexivity|]. cbn [classes.magic_number_1 classes.magic_number_2].
  rewrite !slice_slice by lia. rewrite Z.add_0_r. auto.
Qed.

(** C2 (as amended).  Header decoding compares neither magic number with
    anything: whenever 56 bytes are available at the offset it succeeds, and
    the two magic fields are the little-endian numbers found at bytes 0..3
    and 16..19 of the header, whatever they are. *)
Theorem C2_header_magic_not_checked (data : list byte) (off : Z) :
  0 <= off -> off + 56 <= len data ->
  exists h, classes.BGLHeader_parse data off = Ok h
    /\ classes.magic_number_1 h = le_uint (slice data off (off + 4))
    /\ classes.magic_number_2 h = le_uint (slice data (off + 16) (off + 20)).
Proof. exact (BGLHeader_parse_inside data off). Qed.

(** C2, witness: 56 zero bytes decode. *)
Lemma C2_header_magic_not_checked_witness :
  exists h, classes.BGLHeader_parse samples.zero_header 0 = Ok h
    /\ classes.magic_number_1 h = le_uint (slice samples.zero_header 0 (0 + 4))
    /\ classes.magic_number_2 h = le_uint (slice samples.zero_header (0 + 16) (0 + 20)).
Proof.
  apply (C2_header_magic_not_checked samples.zero_header 0).
  - lia.
  - vm_compute. discriminate.
Defined.

(** C2, as stated, fails: a header whose two magic numbers are 0 decodes. *)
Lemma C2_header_magic_counterexample :
  exists h, classes.BGLHeader_parse samples.zero_header 0 = Ok h
    /\ classes.magic_number_1 h <> 0x19920201
    /\ classes.magic_number_2 h <> 0x08051803.
Proof.
  eexists. split; [vm_compute; reflexivity|].
  split; vm_compute; discriminate.
Qed.

(** C5, at the failing input.  With a timestamp of [2^64 - 1] the addition
    to 1601-01-01 overflows and the header still decodes, but the date is
    1970-01-01 plus 1844674407370955 microseconds, a ten-thousandth of the
    raw value, where the raw value read as nanoseconds would give
    18446744073709551 microseconds. *)
Theorem C5_filetime_fallback_divides_by_10000 :
  datetime.add (datetime.january_1st 1601) 1844674407370955264 = Err OverflowError
  /\ pyfloat.int_truediv (2 ^ 64 - 1) 10 = Ok 1844674407370955264
  /\ (exists h, classes.BGLHeader_parse samples.late_header 0 = Ok h
        /\ classes.magic_number_1 h = 0x19920201
        /\ classes.magic_number_2 h = 0x08051803
        /\ classes.filetime h = datetime.january_1st 1970 + 1844674407370955
        /\ classes.filetime h <> datetime.january_1st 1970 + (2 ^ 64 - 1) / 1000)
  /\ (2 ^ 64 - 1) / 1000 = 18446744073709551.
Proof.
  split; [vm_compute; reflexivity|].
  split; [vm_compute; reflexivity|].
  split; [|vm_compute; reflexivity].
  eexists. split; [vm_compute; reflexivity|].
  repeat split; try (vm_compute; reflexivity).
  vm_compute. discriminate.
Qed.

(** The fallback itself never raises: header decoding succeeds for every
    raw timestamp. *)
Lemma header_decodes_for_any_timestamp (data : list byte) (off : Z) :
  0 <= off -> off + 56 <= len data ->
  is_ok (classes.BGLHeader_parse data off) = true.
Proof.
  intros Hoff Hlen.
  destruct (BGLHeader_parse_inside data off Hoff Hlen) as (h & -> & _).
  reflexivity.
Qed.

(** * fs_parse/bgl/records/modeldata.py and the policy of [ModelData.parse] *)

Lemma UUID_bytes_le_ok (b : list byte) :
  len b = 16 -> exists u, UUID_bytes_le b = Ok u.
Proof.
  intros H. unfold UUID_bytes_le. rewrite H. cbn [Z.eqb Pos.eqb]. eauto.
Qed.

Lemma unpack_ModelDataRecord (d : list byte) :
  unpack_from 0 modeldata.ModelDataRecord_fmt d
  = [VBytes (slice d 0 16); VInt (le_uint (slice d 16 20));
     VInt (le_uint (slice d 20 24))].
Proof. reflexivity. Qed.

(** C4 (as amended).  A model record decodes whenever its 24 fixed bytes lie
    in the buffer: the declared range is not checked, and [mdl_data] is the
    slice of the buffer at that range, cut at the end of the buffer.  A
    record whose 24 fixed bytes do not fit raises [struct.error]; then
    [skip_invalid] decides between skipping that record and continuing with
    the next, and aborting the subsection with the error. *)
Theorem C4_modeldata_range_not_checked (data : list byte) (off : Z) :
  0 <= off ->
  (off + 24 <= len data ->
     exists r, modeldata.ModelDataRecord_parse data off = Ok r
       /\ modeldata.mdl_file_offset r = le_uint (slice data (off + 16) (off + 20))
       /\ modeldata.mdl_file_length r = le_uint (slice data (off + 20) (off + 24))
       /\ modeldata.mdl_data r
          = slice data (modeldata.mdl_file_offset r)
              (modeldata.mdl_file_offset r + modeldata.mdl_file_length r))
  /\ (len data < off + 24 ->
      modeldata.ModelDataRecord_parse data off = Err struct_error
      /\ forall (todo : nat) (i first : Z),
           first + i * 24 = off ->
           subsections.ModelData_records true (S todo) i data first
           = subsections.ModelData_records true todo (i + 1) data first
           /\ subsections.ModelData_records false (S todo) i data first
              = Err struct_error).
Proof.
  intros Hoff.
  assert (Hc : calcsize modeldata.ModelDataRecord_fmt = 24) by reflexivity.
  split.
  - intros Hlen. unfold modeldata.ModelDataRecord_parse.
    rewrite get_data_inside by lia. rewrite Hc, unpack_ModelDataRecord.
    cbn [Py.bind].
    destruct (UUID_bytes_le_ok (slice (slice data off (off + 24)) 0 16)) as (u & ->).
    { rewrite slice_slice, len_slice_inside by lia. lia. }
    cbn [Py.bind]. eexists. split; [reflexivity|].
    cbn [modeldata.mdl_file_offset modeldata.mdl_file_length modeldata.mdl_data].
    rewrite !slice_slice by lia. auto.
  - intros Hlen.
    assert (Hfail : modeldata.ModelDataRecord_parse data off = Err struct_error).
    { unfold modeldata.ModelDataRecord_parse.
      rewrite get_data_short by lia. reflexivity. }
    split; [exact Hfail|].
    intros todo i first Hi.
    cbn [subsections.ModelData_records]. rewrite Hc, Hi, Hfail. auto.
Qed.

(** C4, witness: a record in a buffer of 24 bytes that declares the range
    [100, 150). *)
Lemma C4_modeldata_range_not_checked_witness :
  exists r, modeldata.ModelDataRecord_parse samples.model_out_of_range 0 = Ok r
    /\ modeldata.mdl_file_offset r
       = le_uint (slice samples.model_out_of_range (0 + 16) (0 + 20))
    /\ modeldata.mdl_file_length r
       = le_uint (slice samples.model_out_of_range (0 + 20) (0 + 24))
    /\ modeldata.mdl_data r
       = slice samples.model_out_of_range (modeldata.mdl_file_offset r)
           (modeldata.mdl_file_offset r + modeldata.mdl_file_length r).
Proof.
  apply (C4_modeldata_range_not_checked samples.model_out_of_range 0).
  - lia.
  - vm_compute. discriminate.
Defined.

(** C4, as stated, fails: the record that declares the range [100, 150) in
    a container of 24 bytes decodes, with an empty payload. *)
Lemma C4_modeldata_counterexample :
  len samples.model_out_of_range < 100 + 50
  /\ exists r, modeldata.ModelDataRecord_parse samples.model_out_of_range 0 = Ok r
       /\ modeldata.mdl_file_offset r = 100
       /\ modeldata.mdl_file_length r = 50
       /\ modeldata.mdl_data r = [].
Proof.
  split; [vm_compute; reflexivity|].
  eexists. split; [vm_compute; reflexivity|].
  repeat split.
Qed.

(** * fs_parse/bgl/classes.py: sections *)

(** C9, at the failing input.  For a section entry whose type the mapping
    sends to [None], decoding yields no subsection when the declared count
    is 0, but raises [TypeError] as soon as the count is positive: the loop
    calls the mapping's [None]. *)
Theorem C9_section_without_decoder (V : Values) (data : list byte) (off : Z)
    (ty raw count start total : Z) (t : BGLSectionType) :
  get_data classes.BGLSection_fmt data off
  = Ok [VInt ty; VInt raw; VInt count; VInt start; VInt total] ->
  BGLSectionType_of ty = Some t ->
  classes.subsections_mapping t = None ->
  (0 < count -> classes.BGLSection_parse data off = Err TypeError)
  /\ (count <= 0 ->
      exists s, classes.BGLSection_parse data off = Ok s
        /\ classes.section_type s = t
        /\ classes.subsections s = []).
Proof.
  intros Hget Hty Hmap. unfold classes.BGLSection_parse.
  rewrite Hget. cbn [Py.bind]. rewrite Hty, Hmap. split; intros Hc.
  - destruct (Z.to_nat count) as [|n] eqn:Hn; [lia|]. reflexivity.
  - replace (Z.to_nat count) with 0%nat by lia.
    cbn [classes.BGLSection_subsections Py.bind].
    eexists. split; [reflexivity|]. split; reflexivity.
Qed.

(** C9, witness: a section entry of type 0 with one declared subsection. *)
Lemma C9_section_without_decoder_witness :
  classes.BGLSection_parse (V := samples.values)
    samples.none_section_with_one_subsection 0 = Err TypeError.
Proof.
  refine (proj1 (C9_section_without_decoder samples.values
                   samples.none_section_with_one_subsection 0 0 0 1 0 0 NONE _ _ _) _).
  - vm_compute. reflexivity.
  - reflexivity.
  - reflexivity.
  - lia.
Defined.

(** * fs_parse/bgl/records/sceneryobject.py *)

Lemma unpack_LibraryObject (d : list byte) :
  unpack_from 0 sceneryobject.LibraryObject_fmt d
  = [VBytes (slice d 0 16); VFloat (le_uint (slice d 16 20))].
Proof. reflexivity. Qed.

Lemma header_total_size_range (fam : sceneryobject.family) :
  28 <= sceneryobject.header_total_size fam <= 44.
Proof. destruct fam; vm_compute; split; discriminate. Qed.

(** The object info block decodes whenever its 20 bytes are in the buffer. *)
Lemma LibraryObject_parse_inside (data : list byte) (off : Z) :
  0 <= off -> off + 20 <= len data ->
  exists obj, sceneryobject.LibraryObject_parse data off = Ok obj.
Proof.
  intros Hoff Hlen. unfold sceneryobject.LibraryObject_parse.
  assert (Hc : calcsize sceneryobject.LibraryObject_fmt = 20) by reflexivity.
  rewrite get_data_inside by lia. rewrite Hc, unpack_LibraryObject.
  cbn [Py.bind].
  destruct (UUID_bytes_le_ok (slice (slice data off (off + 20)) 0 16)) as (u & ->).
  { rewrite slice_slice, len_slice_inside by lia. lia. }
  cbn [Py.bind]. eauto.
Qed.

(** C10.  A library object placement whose header decodes and whose object
    info block ends exactly at the end of the buffer decodes, with no
    attached object. *)
Theorem C10_placement_at_end_of_buffer (V : Values) (fam : sceneryobject.family)
    (data : list byte) (off : Z) (h : sceneryobject.SceneryObjectHeader) :
  0 <= off ->
  sceneryobject.header_parse fam data off = Ok h ->
  len data = off + sceneryobject.header_total_size fam + 20 ->
  exists obj_info,
    sceneryobject.LibraryObjectRecord_parse fam data off
    = Ok {| sceneryobject.fam := fam;
            sceneryobject.header := h;
            sceneryobject.data_offset := off + sceneryobject.header_total_size fam;
            sceneryobject.body := sceneryobject.LibraryObjectRecord obj_info None |}.
Proof.
  intros Hoff Hh Hlen. pose proof (header_total_size_range fam) as Hts.
  unfold sceneryobject.LibraryObjectRecord_parse, sceneryobject.SceneryObjectRecord_parse.
  rewrite Hh. cbn [Py.bind].
  assert (Hc : calcsize sceneryobject.LibraryObject_fmt = 20) by reflexivity.
  rewrite get_data_inside by lia. cbn [Py.bind].
  destruct (LibraryObject_parse_inside data (off + sceneryobject.header_total_size fam))
    as (obj & ->); [lia|lia|].
  cbn [Py.bind]. rewrite Hc.
  rewrite slice_at_end by lia. cbn [Py.bind].
  exists obj. reflexivity.
Qed.

(** C10, witness: an FS9 placement of 48 bytes in a buffer of 48 bytes. *)
Lemma C10_placement_at_end_of_buffer_witness :
  exists h obj_info,
    sceneryobject.LibraryObjectRecord_parse (V := samples.values)
      sceneryobject.FS9 samples.fs9_placement 0
    = Ok {| sceneryobject.fam := sceneryobject.FS9;
            sceneryobject.header := h;
            sceneryobject.data_offset := 0 + sceneryobject.header_total_size sceneryobject.FS9;
            sceneryobject.body := sceneryobject.LibraryObjectRecord obj_info None |}.
Proof.
  eexists.
  apply (C10_placement_at_end_of_buffer samples.values sceneryobject.FS9
           samples.fs9_placement 0).
  - lia.
  - vm_compute. reflexivity.
  - vm_compute. reflexivity.
Defined.

Lemma unpack_FS9AttachedObjectData (d : list byte) :
  unpack_from 0 sceneryobject.FS9AttachedObjectData_fmt d
  = [VInt (le_uint (slice d 0 2)); VInt (le_uint (slice d 2 4));
     VInt (le_uint (slice d 4 6)); VInt (le_uint (slice d 6 8));
     VInt (le_uint (slice d 8 10)); VInt (le_uint (slice d 10 12));
     VInt (le_uint (slice d 12 14)); VInt (le_uint (slice d 14 16));
     VFloat (le_uint (slice d 16 20)); VFloat (le_uint (slice d 20 24));
     VFloat (le_uint (slice d 24 28))].
Proof. reflexivity. Qed.

Lemma unpack_FSXAttachedObjectData (d : list byte) :
  unpack_from 0 sceneryobject.FSXAttachedObjectData_fmt d
  = [VInt (le_uint (slice d 0 2)); VInt (le_uint (slice d 2 4));
     VInt (le_uint (slice d 4 6)); VInt (le_uint (slice d 6 8));
     VInt (le_uint (slice d 8 10)); VInt (le_uint (slice d 10 12));
     VInt (le_uint (slice d 12 14)); VInt (le_uint (slice d 14 16));
     VFloat (le_uint (slice d 16 20)); VFloat (le_uint (slice d 20 24));
     VFloat (le_uint (slice d 24 28)); VBytes (slice d 28 44);
     VInt (le_uint (slice d 44 46)); VInt (le_uint (slice d 46 48))].
Proof. reflexivity. Qed.

Lemma get_data_ok (fs : list fld) (buffer : list byte) (offset : Z) (vs : list val) :
  get_data fs buffer offset = Ok vs ->
  len (slice buffer offset (offset + calcsize fs)) = calcsize fs
  /\ vs = unpack_from 0 fs (slice buffer offset (offset + calcsize fs)).
Proof. unfold get_data. apply unpack_ok_len. Qed.

(** What the two attached object decoders do once the fixed part, the
    payload, the attach point name and the four bytes of the closing
    delimiter have been read. *)
Lemma AttachedObjectData_parse_delimiter (V : Values) (fam : sceneryobject.family)
    (data : list byte) (off : Z) (fields : list val) (sds oti ads rel : Z)
    (payload : sceneryobject.attached_payload) (name : Z * string) (id sz : Z) :
  get_data
    match fam with
    | sceneryobject.FS9 => sceneryobject.FS9AttachedObjectData_fmt
    | sceneryobject.FSX => sceneryobject.FSXAttachedObjectData_fmt
    end data off = Ok fields ->
  nth_error fields 1 = Some (VInt sds) ->
  nth_error fields 2 = Some (VInt oti) ->
  nth_error fields 3 = Some (VInt ads) ->
  nth_error fields 4 = Some (VInt rel) ->
  sceneryobject.attached_payload_parse data
    (off + calcsize match fam with
                    | sceneryobject.FS9 => sceneryobject.FS9AttachedObjectData_fmt
                    | sceneryobject.FSX => sceneryobject.FSXAttachedObjectData_fmt
                    end) oti = Ok payload ->
  utils.read_stringz_word_aligned (slice_from data (off + sds + rel)) = Ok name ->
  sceneryobject.closing_delimiter data (off + sds + ads) = Ok (id, sz) ->
  (id = match fam with sceneryobject.FS9 => 0x1001 | sceneryobject.FSX => 0x1003 end ->
   exists a, sceneryobject.attached_object_class_parse fam data off = Ok a
     /\ sceneryobject.closing_delimiter_id a = id
     /\ sceneryobject.closing_delimiter_size a = sz
     /\ sceneryobject.start_delimiter_size a = sds
     /\ sceneryobject.attached_object_data_size a = ads)
  /\ (id <> match fam with sceneryobject.FS9 => 0x1001 | sceneryobject.FSX => 0x1003 end ->
      sceneryobject.attached_object_class_parse fam data off
      = Err (Exception (attachedObject_closing_delimiter_id_is id))).
Proof.
  intros Hget H1 H2 H3 H4 Hpay Hname Hclose.
  destruct fam; cbn [sceneryobject.attached_object_class_parse] in *.
  - destruct (get_data_ok _ _ _ _ Hget) as (Hlen & Hf).
    rewrite unpack_FS9AttachedObjectData in Hf. subst fields.
    cbn [nth_error] in H1, H2, H3, H4.
    injection H1 as H1. injection H2 as H2. injection H3 as H3. injection H4 as H4.
    unfold sceneryobject.FS9AttachedObjectData_parse.
    rewrite Hget. cbn [Py.bind].
    rewrite H1, H2, H3, H4, Hpay. cbn [Py.bind].
    rewrite Hname. destruct name as [raw nm]. cbn [Py.bind].
    rewrite Hclose. cbn [Py.bind].
    split; intros Hid.
    + subst id. cbn [Z.eqb Pos.eqb negb].
      eexists. split; [reflexivity|]. repeat split.
    + destruct (Z.eqb_spec id 4097) as [E|_]; [contradiction|]. reflexivity.
  - destruct (get_data_ok _ _ _ _ Hget) as (Hlen & Hf).
    rewrite unpack_FSXAttachedObjectData in Hf. subst fields.
    cbn [nth_error] in H1, H2, H3, H4.
    injection H1 as H1. injection H2 as H2. injection H3 as H3. injection H4 as H4.
    unfold sceneryobject.FSXAttachedObjectData_parse.
    rewrite Hget. cbn [Py.bind].
    assert (Hc : calcsize sceneryobject.FSXAttachedObjectData_fmt = 48) by reflexivity.
    rewrite Hc in *.
    destruct (UUID_bytes_le_ok (slice (slice data off (off + 48)) 28 44)) as (u & ->).
    { pose proof (len_slice (slice data off (off + 48)) 28 44 ltac:(lia)) as Hl.
      rewrite Hlen in Hl. rewrite Hl. reflexivity. }
    cbn [Py.bind].
    rewrite H1, H2, H3, H4, Hpay. cbn [Py.bind].
    rewrite Hname. destruct name as [raw nm]. cbn [Py.bind].
    rewrite Hclose. cbn [Py.bind].
    split; intros Hid.
    + subst id. cbn [Z.eqb Pos.eqb negb].
      eexists. split; [reflexivity|]. repeat split.
    + destruct (Z.eqb_spec id 4099) as [E|_]; [contradiction|]. reflexivity.
Qed.

Lemma unpack_2H (d : list byte) :
  unpack_from 0 (fmt "@2H") d
  = [VInt (le_uint (slice d 0 2)); VInt (le_uint (slice d 2 4))].
Proof. reflexivity. Qed.

Lemma le_uint_nonneg (bs : list byte) : 0 <= le_uint bs.
Proof. apply le_uint_range. Qed.

Lemma closing_delimiter_ok (data : list byte) (o id sz : Z) :
  sceneryobject.closing_delimiter data o = Ok (id, sz) -> 0 <= id /\ 0 <= sz.
Proof.
  unfold sceneryobject.closing_delimiter. intros H.
  destruct (unpack _ _) as [fields|] eqn:E; [|discriminate].
  apply unpack_ok_len in E as (_ & ->). rewrite unpack_2H in H.
  cbn [Py.bind] in H. injection H as <- <-.
  split; apply le_uint_nonneg.
Qed.

(** What is known of an attached object that was decoded. *)
Lemma AttachedObjectData_parse_ok (V : Values) (fam : sceneryobject.family)
    (data : list byte) (off : Z) (a : sceneryobject.AttachedObjectData) :
  sceneryobject.attached_object_class_parse fam data off = Ok a ->
  sceneryobject.closing_delimiter_id a
  = match fam with sceneryobject.FS9 => 0x1001 | sceneryobject.FSX => 0x1003 end
  /\ sceneryobject.closing_delimiter data
       (off + sceneryobject.start_delimiter_size a
        + sceneryobject.attached_object_data_size a)
     = Ok (sceneryobject.closing_delimiter_id a, sceneryobject.closing_delimiter_size a)
  /\ 0 <= sceneryobject.start_delimiter_size a
  /\ 0 <= sceneryobject.attached_object_data_size a
  /\ 0 <= sceneryobject.closing_delimiter_size a.
Proof.
  intros H.
  destruct fam; cbn [sceneryobject.attached_object_class_parse] in H.
  - unfold sceneryobject.FS9AttachedObjectData_parse in H.
    destruct (get_data _ _ _) as [fields|] eqn:Hget; [|discriminate].
    destruct (get_data_ok _ _ _ _ Hget) as (_ & ->).
    rewrite unpack_FS9AttachedObjectData in H. cbn [Py.bind] in H.
    destruct (sceneryobject.attached_payload_parse _ _ _) as [p|]; [|discriminate].
    cbn [Py.bind] in H.
    destruct (utils.read_stringz_word_aligned _) as [[raw nm]|]; [|discriminate].
    cbn [Py.bind] in H.
    destruct (sceneryobject.closing_delimiter _ _) as [[id sz]|] eqn:Hc; [|discriminate].
    cbn [Py.bind] in H.
    destruct (Z.eqb_spec id 0x1001) as [->|]; [|discriminate].
    cbn [negb] in H. injection H as <-.
    cbn [sceneryobject.closing_delimiter_id sceneryobject.closing_delimiter_size
         sceneryobject.start_delimiter_size sceneryobject.attached_object_data_size].
    split; [reflexivity|]. split; [exact Hc|].
    split; [apply le_uint_nonneg|]. split; [apply le_uint_nonneg|].
    apply (closing_delimiter_ok _ _ _ _ Hc).
  - unfold sceneryobject.FSXAttachedObjectData_parse in H.
    destruct (get_data _ _ _) as [fields|] eqn:Hget; [|discriminate].
    destruct (get_data_ok _ _ _ _ Hget) as (_ & ->).
    rewrite unpack_FSXAttachedObjectData in H. cbn [Py.bind] in H.
    destruct (UUID_bytes_le _) as [u|]; [|discriminate].
    cbn [Py.bind] in H.
    destruct (sceneryobject.attached_payload_parse _ _ _) as [p|]; [|discriminate].
    cbn [Py.bind] in H.
    destruct (utils.read_stringz_word_aligned _) as [[raw nm]|]; [|discriminate].
    cbn [Py.bind] in H.
    destruct (sceneryobject.closing_delimiter _ _) as [[id sz]|] eqn:Hc; [|discriminate].
    cbn [Py.bind] in H.
    destruct (Z.eqb_spec id 0x1003) as [->|]; [|discriminate].
    cbn [negb] in H. injection H as <-.
    cbn [sceneryobject.closing_delimiter_id sceneryobject.closing_delimiter_size
         sceneryobject.start_delimiter_size sceneryobject.attached_object_data_size].
    split; [reflexivity|]. split; [exact Hc|].
    split; [apply le_uint_nonneg|]. split; [apply le_uint_nonneg|].
    apply (closing_delimiter_ok _ _ _ _ Hc).
Qed.

(** C1 (as amended).  Once the fixed part, the payload and the attach point
    name of an attached object have been read, and four bytes are available
    at the attached-object start plus the start delimiter size plus the
    declared attached size, the decoder succeeds exactly when the id read
    there is [0x1001] (FS9 family) or [0x1003] (FSX family), and otherwise
    raises the plain [Exception] that reports the id; every attached object
    that was decoded has that closing id. *)
Theorem C1_closing_delimiter_constant (V : Values) (fam : sceneryobject.family)
    (data : list byte) (off : Z) (fields : list val) (sds oti ads rel : Z)
    (payload : sceneryobject.attached_payload) (name : Z * string) (id sz : Z) :
  get_data
    match fam with
    | sceneryobject.FS9 => sceneryobject.FS9AttachedObjectData_fmt
    | sceneryobject.FSX => sceneryobject.FSXAttachedObjectData_fmt
    end data off = Ok fields ->
  nth_error fields 1 = Some (VInt sds) ->
  nth_error fields 2 = Some (VInt oti) ->
  nth_error fields 3 = Some (VInt ads) ->
  nth_error fields 4 = Some (VInt rel) ->
  sceneryobject.attached_payload_parse data
    (off + calcsize match fam with
                    | sceneryobject.FS9 => sceneryobject.FS9AttachedObjectData_fmt
                    | sceneryobject.FSX => sceneryobject.FSXAttachedObjectData_fmt
                    end) oti = Ok payload ->
  utils.read_stringz_word_aligned (slice_from data (off + sds + rel)) = Ok name ->
  sceneryobject.closing_delimiter data (off + sds + ads) = Ok (id, sz) ->
  (id = match fam with sceneryobject.FS9 => 0x1001 | sceneryobject.FSX => 0x1003 end ->
   exists a, sceneryobject.attached_object_class_parse fam data off = Ok a
     /\ sceneryobject.closing_delimiter_id a = id
     /\ sceneryobject.closing_delimiter_size a = sz
     /\ sceneryobject.start_delimiter_size a = sds
     /\ sceneryobject.attached_object_data_size a = ads)
  /\ (id <> match fam with sceneryobject.FS9 => 0x1001 | sceneryobject.FSX => 0x1003 end ->
      sceneryobject.attached_object_class_parse fam data off
      = Err (Exception (attachedObject_closing_delimiter_id_is id)))
  /\ (forall a, sceneryobject.attached_object_class_parse fam data off = Ok a ->
      sceneryobject.closing_delimiter_id a
      = match fam with sceneryobject.FS9 => 0x1001 | sceneryobject.FSX => 0x1003 end).
Proof.
  intros Hget H1 H2 H3 H4 Hpay Hname Hclose.
  destruct (AttachedObjectData_parse_delimiter V fam data off fields sds oti ads rel
              payload name id sz Hget H1 H2 H3 H4 Hpay Hname Hclose) as [Hyes Hno].
  split; [exact Hyes|]. split; [exact Hno|].
  intros a Ha. apply (AttachedObjectData_parse_ok V fam data off a Ha).
Qed.

(** C1, witness: the FS9 attached object closed by [(0x1000, 4)] is
    rejected. *)
Lemma C1_closing_delimiter_constant_witness :
  sceneryobject.attached_object_class_parse (V := samples.values) sceneryobject.FS9
    samples.fs9_attached_closed_by_0x1000 0
  = Err (Exception (attachedObject_closing_delimiter_id_is 0x1000)).
Proof.
  refine (proj1 (proj2
    (C1_closing_delimiter_constant samples.values sceneryobject.FS9
       samples.fs9_attached_closed_by_0x1000 0
       (unpack_from 0 sceneryobject.FS9AttachedObjectData_fmt samples.fs9_attached_fixed)
       4 2 46 44
       (sceneryobject.AttachedLibraryObject
          {| sceneryobject.name := repeat x00 16; sceneryobject.scale := 0 |})
       (2, "A"%string) 0x1000 4 _ _ _ _ _ _ _ _)) _).
  all: try (vm_compute; reflexivity).
  vm_compute. discriminate.
Defined.

(** C1, as stated, fails: an FS9 attached object closed by [0x1001] decodes
    although [0x1001] is not [0x1000], and one closed by [0x1000] is
    rejected. *)
Lemma C1_closing_delimiter_counterexample :
  (exists a,
      sceneryobject.FS9AttachedObjectData_parse (V := samples.values) samples.fs9_attached 0
      = Ok a
      /\ sceneryobject.closing_delimiter_id a = 0x1001
      /\ sceneryobject.closing_delimiter_id a <> 0x1000)
  /\ sceneryobject.FS9AttachedObjectData_parse (V := samples.values)
       samples.fs9_attached_closed_by_0x1000 0
     = Err (Exception (attachedObject_closing_delimiter_id_is 0x1000)).
Proof.
  split; [|vm_compute; reflexivity].
  eexists. split; [vm_compute; reflexivity|].
  split; [reflexivity|]. vm_compute. discriminate.
Qed.

(** * fs_parse/bgl/subsections.py: the scenery object stream *)

Lemma unpack_SceneryObjectHeader (d : list byte) :
  unpack_from 0 sceneryobject.SceneryObjectHeader_fmt d
  = [VInt (le_uint (slice d 0 2)); VInt (le_uint (slice d 2 4));
     VInt (le_uint (slice d 4 8)); VInt (le_uint (slice d 8 12));
     VInt (le_sint 32 (slice d 12 16)); VInt (le_uint (slice d 16 18));
     VInt (le_uint (slice d 18 20)); VInt (le_uint (slice d 20 22));
     VInt (le_uint (slice d 22 24)); VInt (le_uint (slice d 24 26));
     VInt (le_uint (slice d 26 28))].
Proof. reflexivity. Qed.

Lemma slice_full_inside {A : Type} (l : list A) (a n : Z) :
  0 <= a -> 0 < n -> len (slice l a (a + n)) = n -> a + n <= len l.
Proof.
  intros Ha Hn H. rewrite len_slice in H by lia. lia.
Qed.

(** Inversion of the decoders: one [bind], [match] or [if] at a time. *)
Ltac invert_parse H :=
  repeat
    match type of H with
    | Py.bind ?c _ = Ok _ =>
        destruct c eqn:?; cbn [Py.bind] in H; [|discriminate H]
    | match ?x with _ => _ end = Ok _ =>
        destruct x eqn:?; try discriminate H
    end.

(** What is known of a header that was decoded at an offset. *)
Lemma header_parse_ok (V : Values) (fam : sceneryobject.family) (data : list byte)
    (off : Z) (h : sceneryobject.SceneryObjectHeader) :
  0 <= off ->
  sceneryobject.header_parse fam data off = Ok h ->
  sceneryobject.offset h = off
  /\ sceneryobject.id h = le_uint (slice data off (off + 2))
  /\ sceneryobject.size h = le_uint (slice data (off + 2) (off + 4))
  /\ off + 28 <= len data.
Proof.
  intros Hoff H.
  assert (Hbase : forall h0, sceneryobject.SceneryObjectHeader_parse data off = Ok h0 ->
            sceneryobject.offset h0 = off
            /\ sceneryobject.id h0 = le_uint (slice data off (off + 2))
            /\ sceneryobject.size h0 = le_uint (slice data (off + 2) (off + 4))
            /\ off + 28 <= len data).
  { intros h0 H0. unfold sceneryobject.SceneryObjectHeader_parse in H0.
    destruct (get_data _ _ _) as [fields|] eqn:Hget; [|discriminate].
    destruct (get_data_ok _ _ _ _ Hget) as (Hlen & ->).
    change (calcsize sceneryobject.SceneryObjectHeader_fmt) with 28 in *.
    pose proof (slice_full_inside data off 28 Hoff ltac:(lia) Hlen) as Hin.
    rewrite unpack_SceneryObjectHeader in H0. cbn [Py.bind] in H0.
    destruct (IntEnum _ _) as [ic|]; [|discriminate].
    cbn [Py.bind] in H0. injection H0 as <-.
    cbn [sceneryobject.offset sceneryobject.id sceneryobject.size].
    rewrite !slice_slice by lia. rewrite Z.add_0_r. auto. }
  destruct fam; cbn [sceneryobject.header_parse] in H.
  - apply Hbase, H.
  - unfold sceneryobject.FSXSceneryObjectHeader_parse in H.
    destruct (sceneryobject.SceneryObjectHeader_parse data off) as [h0|] eqn:H0;
      [|discriminate].
    cbn [Py.bind] in H. invert_parse H. injection H as <-.
    cbn [sceneryobject.offset sceneryobject.id sceneryobject.size].
    apply Hbase. reflexivity.
Qed.

Lemma peek_record_inside (V : Values) (data : list byte) (off : Z) :
  0 <= off -> off + 4 <= len data ->
  subsections.peek_record data off
  = Ok (le_uint (slice data off (off + 2)), le_uint (slice data (off + 2) (off + 4))).
Proof.
  intros Hoff Hlen. unfold subsections.peek_record, unpack.
  rewrite len_slice_inside by lia.
  replace (off + 4 - off) with 4 by lia.
  change (4 =? calcsize (fmt "@2H")) with true. cbn [Py.bind].
  rewrite unpack_2H. rewrite !slice_slice by lia. rewrite Z.add_0_r. reflexivity.
Qed.

(** Every record class decodes the header of its family at the offset it is
    given, and reports at least the [size] field of that header. *)
Lemma record_parse_ok (V : Values) (decoded_id : Z)
    (parse : list byte -> Z -> result sceneryobject.SceneryObjectRecord)
    (data : list byte) (off : Z) (r : sceneryobject.SceneryObjectRecord) :
  sceneryobject.SCENERYOBJECTS_IDS decoded_id = Some parse ->
  parse data off = Ok r ->
  sceneryobject.header_parse (sceneryobject.fam r) data off = Ok (sceneryobject.header r)
  /\ sceneryobject.size (sceneryobject.header r) <= sceneryobject.total_size r.
Proof.
  intros Hreg H.
  assert (Hplain : forall fam' h d b,
            sceneryobject.header_parse fam' data off = Ok h ->
            (forall o a, b <> sceneryobject.LibraryObjectRecord o (Some a)) ->
            let r' := {| sceneryobject.fam := fam'; sceneryobject.header := h;
                         sceneryobject.data_offset := d; sceneryobject.body := b |} in
            sceneryobject.header_parse (sceneryobject.fam r') data off
            = Ok (sceneryobject.header r')
            /\ sceneryobject.size (sceneryobject.header r') <= sceneryobject.total_size r').
  { intros fam' h d b Hh Hb r'. split; [exact Hh|].
    unfold sceneryobject.total_size. subst r'. cbn.
    destruct b as [o [a|]| | | | | |]; try lia.
    exfalso. exact (Hb o a eq_refl). }
  unfold sceneryobject.SCENERYOBJECTS_IDS in Hreg.
  repeat match type of Hreg with
         | (if ?b then _ else _) = Some _ => destruct b
         end;
    try discriminate Hreg; injection Hreg as <-.
  all: unfold sceneryobject.PlaceHolderRecord_parse,
         sceneryobject.LibraryObjectRecord_parse, sceneryobject.WindSock_parse,
         sceneryobject.EffectPlacement_parse, sceneryobject.TaxiwaySign_parse,
         sceneryobject.BeaconRecord_parse, sceneryobject.ExtrusionBridgeRecord_parse,
         sceneryobject.SceneryObjectRecord_parse in H.
  all: destruct (sceneryobject.header_parse _ data off) as [h|] eqn:Hh;
         [|discriminate H]; cbn [Py.bind] in H.
  (* the two library object classes *)
  2, 9:
    destruct (get_data _ _ _) as [gd|]; [|discriminate H]; cbn [Py.bind] in H;
    destruct (sceneryobject.LibraryObject_parse _ _) as [obj|]; [|discriminate H];
    cbn [Py.bind] in H;
    match type of H with
    | Py.bind ?c _ = Ok _ => destruct c as [att|] eqn:Hatt; [|discriminate H]
    end;
    cbn [Py.bind] in H; injection H as <-;
    (split; [exact Hh|]);
    unfold sceneryobject.total_size; cbn;
    destruct att as [ao|]; [|lia];
    invert_parse Hatt; try discriminate Hatt; injection Hatt as ->;
    match goal with
    | Ha : sceneryobject.attached_object_class_parse _ _ _ = Ok ao |- _ =>
        apply AttachedObjectData_parse_ok in Ha;
        unfold sceneryobject.AttachedObjectData_total_size; lia
    end.
  all: invert_parse H; injection H as <-;
       apply Hplain; [exact Hh|intros; discriminate].
Qed.

(** The loop of [SceneryObject.parse]: the records it yields start where
    the previous one said it ends. *)
Lemma SceneryObject_records_chain (V : Values) (data : list byte) :
  forall (todo i : nat) (cur : Z) (rs : list sceneryobject.SceneryObjectRecord),
    0 <= cur ->
    subsections.SceneryObject_records todo i data cur = Ok rs ->
    List.length rs = todo
    /\ (forall r, nth_error rs 0 = Some r ->
          sceneryobject.offset (sceneryobject.header r) = cur)
    /\ (forall k r r', nth_error rs k = Some r -> nth_error rs (S k) = Some r' ->
          sceneryobject.offset (sceneryobject.header r')
          = sceneryobject.offset (sceneryobject.header r) + sceneryobject.total_size r)
    /\ (forall r, In r rs ->
          subsections.peek_record data (sceneryobject.offset (sceneryobject.header r))
          = Ok (sceneryobject.id (sceneryobject.header r),
                sceneryobject.size (sceneryobject.header r))).
Proof.
  induction todo as [|todo IH]; intros i cur rs Hcur H.
  - cbn in H. injection H as <-. split; [reflexivity|].
    split; [intros r Hr; discriminate Hr|].
    split; [intros k r r' Hr; destruct k; discriminate Hr|].
    intros r [].
  - cbn [subsections.SceneryObject_records] in H.
    destruct (subsections.peek_record data cur) as [[decoded_id record_size]|] eqn:Hpeek;
      [|discriminate H].
    cbn [Py.bind] in H.
    destruct (sceneryobject.SCENERYOBJECTS_IDS decoded_id) as [parse|] eqn:Hreg;
      [|discriminate H].
    destruct (parse data cur) as [r0|] eqn:Hparse; [|discriminate H].
    cbn [Py.bind] in H.
    destruct (subsections.SceneryObject_records todo (S i) data
                (cur + sceneryobject.total_size r0)) as [rest|] eqn:Hrest;
      [|discriminate H].
    cbn [Py.bind] in H. injection H as <-.
    destruct (record_parse_ok V decoded_id parse data cur r0 Hreg Hparse) as (Hh & Hsz).
    destruct (header_parse_ok V _ data cur _ Hcur Hh) as (Hoff & Hid & Hsize & Hin).
    assert (Hnn : 0 <= sceneryobject.size (sceneryobject.header r0))
      by (rewrite Hsize; apply le_uint_nonneg).
    destruct (IH (S i) (cur + sceneryobject.total_size r0) rest ltac:(lia) Hrest)
      as (Hlen & Hfirst & Hnext & Hpk).
    split; [cbn; congruence|].
    split; [intros r Hr; cbn in Hr; injection Hr as <-; exact Hoff|].
    split.
    + intros k r r' Hr Hr'. destruct k as [|k].
      * cbn in Hr, Hr'. injection Hr as <-. rewrite Hoff. apply Hfirst, Hr'.
      * cbn in Hr, Hr'. apply (Hnext k r r' Hr Hr').
    + intros r [<-|Hr]; [|apply Hpk, Hr].
      rewrite Hoff, Hid, Hsize. apply peek_record_inside; [exact V|lia|lia].
Qed.

(** C3.  In a decoded scenery object subsection there are as many records
    as the header declares, the first was decoded at the first record
    offset, and each next record was decoded at the offset of the previous
    one plus its [total_size]: the [size] field of its header (the one the
    loop peeks at in the first four bytes), plus the total size of the
    attached object when a library object placement has one. *)
Theorem C3_stream_advances_by_total_size (V : Values) (data : list byte) (off : Z)
    (h : subsections.BGLSubSectionHeader)
    (rs : list sceneryobject.SceneryObjectRecord) :
  0 <= off ->
  subsections.SceneryObject_parse data off
  = Ok {| subsections.header := h; subsections.records := subsections.SceneryObjectRecords rs |} ->
  List.length rs = Z.to_nat (subsections.records_number h)
  /\ (forall r, nth_error rs 0 = Some r ->
        sceneryobject.offset (sceneryobject.header r)
        = subsections.first_record_file_offset h)
  /\ (forall k r r', nth_error rs k = Some r -> nth_error rs (S k) = Some r' ->
        sceneryobject.offset (sceneryobject.header r')
        = sceneryobject.offset (sceneryobject.header r) + sceneryobject.total_size r)
  /\ (forall r, In r rs ->
        subsections.peek_record data (sceneryobject.offset (sceneryobject.header r))
        = Ok (sceneryobject.id (sceneryobject.header r),
              sceneryobject.size (sceneryobject.header r))
        /\ sceneryobject.total_size r
           = sceneryobject.size (sceneryobject.header r)
             + match sceneryobject.body r with
               | sceneryobject.LibraryObjectRecord _ (Some a) =>
                   sceneryobject.start_delimiter_size a
                   + sceneryobject.attached_object_data_size a
                   + sceneryobject.closing_delimiter_size a
               | _ => 0
               end).
Proof.
  intros Hoff H. unfold subsections.SceneryObject_parse in H.
  destruct (subsections.BGLStandardSubSectionHeader_parse data off) as [h0|] eqn:Hh;
    [|discriminate H].
  cbn [Py.bind] in H.
  destruct (subsections.SceneryObject_records _ _ _ _) as [rs0|] eqn:Hrs; [|discriminate H].
  cbn [Py.bind] in H. injection H as <- <-.
  assert (Hfirst : 0 <= subsections.first_record_file_offset h0).
  { unfold subsections.BGLStandardSubSectionHeader_parse in Hh.
    destruct (get_data _ _ _) as [fields|] eqn:Hget; [|discriminate Hh].
    destruct (get_data_ok _ _ _ _ Hget) as (_ & ->).
    cbn [Py.bind] in Hh.
    change (unpack_from 0 subsections.BGLStandardSubSectionHeader_fmt
              (slice data off (off + calcsize subsections.BGLStandardSubSectionHeader_fmt)))
      with [VInt (le_uint (slice (slice data off (off + 16)) 0 4));
            VInt (le_uint (slice (slice data off (off + 16)) 4 8));
            VInt (le_uint (slice (slice data off (off + 16)) 8 12));
            VInt (le_uint (slice (slice data off (off + 16)) 12 16))] in Hh.
    injection Hh as <-. cbn. apply le_uint_nonneg. }
  destruct (SceneryObject_records_chain V data _ _ _ _ Hfirst Hrs)
    as (Hlen & H0 & Hnext & Hpk).
  split; [exact Hlen|]. split; [exact H0|]. split; [exact Hnext|].
  intros r Hr. split; [apply Hpk, Hr|].
  unfold sceneryobject.total_size, sceneryobject.AttachedObjectData_total_size.
  destruct (sceneryobject.body r) as [o [a|]| | | | | |]; lia.
Qed.

(** C3, witness: a placement of declared size 48 with an attached object of
    54 bytes, then a second record: the second record was decoded 102 bytes
    after the first. *)
Lemma C3_stream_advances_by_total_size_witness :
  exists h r1 r2,
    subsections.SceneryObject_parse (V := samples.values) samples.two_record_stream 0
    = Ok {| subsections.header := h;
            subsections.records := subsections.SceneryObjectRecords [r1; r2] |}
    /\ sceneryobject.size (sceneryobject.header r1) = 48
    /\ sceneryobject.total_size r1 = 102
    /\ sceneryobject.offset (sceneryobject.header r2)
       = sceneryobject.offset (sceneryobject.header r1) + sceneryobject.total_size r1.
Proof.
  do 3 eexists.
  assert (Hp : subsections.SceneryObject_parse (V := samples.values)
                 samples.two_record_stream 0 = Ok _) by (vm_compute; reflexivity).
  split; [exact Hp|]. split; [reflexivity|]. split; [reflexivity|].
  destruct (C3_stream_advances_by_total_size samples.values samples.two_record_stream 0
              _ _ ltac:(lia) Hp) as (_ & _ & Hnext & _).
  apply (Hnext 0%nat); reflexivity.
Defined.

(** * fs_parse/mdl/mdld_classes.py: metadata-only decoding *)

Lemma unpack_RIFFSectionHeader (d : list byte) :
  unpack_from 0 mdl_classes.RIFFSectionHeader_fmt d
  = [VBytes (slice d 0 4); VInt (le_uint (slice d 4 8))].
Proof. reflexivity. Qed.

Lemma RIFFSectionHeader_parse_ok (data : list byte) (off : Z)
    (h : mdl_classes.RIFFSectionHeader) :
  mdl_classes.RIFFSectionHeader_parse data off = Ok h -> 0 <= mdl_classes.data_size h.
Proof.
  unfold mdl_classes.RIFFSectionHeader_parse. intros H.
  destruct (get_data _ _ _) as [fields|] eqn:Hget; [|discriminate H].
  destruct (get_data_ok _ _ _ _ Hget) as (_ & ->).
  rewrite unpack_RIFFSectionHeader in H. cbn [Py.bind] in H.
  destruct (decode_utf8 _) as [ty|]; [|discriminate H].
  cbn [Py.bind] in H. injection H as <-. cbn. apply le_uint_nonneg.
Qed.

Lemma section_types_name (type_id : string) (t : mdld_classes.tag) :
  mdld_classes.section_types type_id = Some t -> type_id = mdld_classes.tag_name t.
Proof.
  unfold mdld_classes.section_types. intros H.
  apply find_some in H as (_ & H). apply String.eqb_eq, H.
Qed.

Lemma tag_eqb_eq (a b : mdld_classes.tag) :
  mdld_classes.tag_eqb a b = true -> a = b.
Proof. destruct a, b; solve [reflexivity | intros H; discriminate H]. Qed.

Lemma section_parse_header (t : mdld_classes.tag) (section s : mdld_classes.MDLSection)
    (data : list byte) (off : Z) :
  mdld_classes.section_parse t section data off = Ok s ->
  mdld_classes.header s = mdld_classes.header section.
Proof.
  unfold mdld_classes.section_parse. intros H.
  destruct t; invert_parse H; injection H as <-; reflexivity.
Qed.

(** A round of the data chunk loop moves on by the 8 bytes of the chunk
    header and the declared length of the chunk, in either mode. *)
Lemma MDLDSection_round_offset (metadata_only : bool) (data : list byte) (cur cur' : Z)
    (self self' : mdld_classes.MDLDSection) :
  mdld_classes.MDLDSection_round metadata_only data (cur, self) = Ok (cur', self') ->
  exists h, mdl_classes.RIFFSectionHeader_parse data cur = Ok h
    /\ cur' = cur + 8 + mdl_classes.data_size h.
Proof.
  unfold mdld_classes.MDLDSection_round. intros H.
  destruct (mdl_classes.RIFFSectionHeader_parse data cur) as [h|]; [|discriminate H].
  cbn [Py.bind] in H. exists h. split; [reflexivity|].
  destruct (mdld_classes.section_types _) as [t|]; [|discriminate H].
  match type of H with
  | Py.bind ?c _ = Ok _ => destruct c as [sec|]; [|discriminate H]
  end.
  cbn [Py.bind] in H. injection H as <- _. reflexivity.
Qed.

(** The bound on the rounds of the data chunk loop is never what ends it. *)
Lemma MDLDSection_parse_rounds (metadata_only : bool) (data : list byte) (off size : Z)
    (n : nat) (st : Z * mdld_classes.MDLDSection) :
  off + size - fst st <= Z.of_nat n ->
  while n (fun '(current_offset, _) => current_offset <? off + size)
    (mdld_classes.MDLDSection_round metadata_only data) st
  = while (Z.to_nat (off + size - fst st))
      (fun '(current_offset, _) => current_offset <? off + size)
      (mdld_classes.MDLDSection_round metadata_only data) st.
Proof.
  intros Hn.
  apply (while_rounds (fun st => off + size - fst st)).
  - intros [cur self] Hc. apply Z.ltb_lt in Hc. cbn [fst]. lia.
  - intros [cur self] [cur' self'] _ Hb.
    apply MDLDSection_round_offset in Hb as (h & Hh & ->).
    apply RIFFSectionHeader_parse_ok in Hh. cbn [fst]. lia.
  - exact Hn.
  - lia.
Qed.

(** One round in metadata-only mode follows the round of the full decode. *)
Lemma MDLDSection_round_view (data : list byte) (cur cur' : Z)
    (full full' meta : mdld_classes.MDLDSection) :
  (forall t, meta t = views.metadata_view full t) ->
  mdld_classes.MDLDSection_round false data (cur, full) = Ok (cur', full') ->
  exists meta', mdld_classes.MDLDSection_round true data (cur, meta) = Ok (cur', meta')
    /\ forall t, meta' t = views.metadata_view full' t.
Proof.
  intros Hview H. unfold mdld_classes.MDLDSection_round in *.
  destruct (mdl_classes.RIFFSectionHeader_parse data cur) as [h|]; [|discriminate H].
  cbn [Py.bind] in *.
  destruct (mdld_classes.section_types _) as [t|] eqn:Ht; [|discriminate H].
  pose proof (section_types_name _ _ Ht) as Hname.
  cbn [negb orb] in *.
  destruct (mdld_classes.section_parse t _ data (cur + 8)) as [sec|] eqn:Hsec;
    [|discriminate H].
  cbn [Py.bind] in H. injection H as <- <-.
  pose proof (section_parse_header _ _ _ _ _ Hsec) as Hhead. cbn in Hhead.
  rewrite Hname. fold (views.excluded t).
  destruct (views.excluded t) eqn:Hex; cbn [negb Py.bind].
  - eexists. split; [reflexivity|]. intros t'.
    unfold views.metadata_view, mdld_classes.setattr.
    destruct (mdld_classes.tag_eqb t' t) eqn:E.
    + apply tag_eqb_eq in E. subst t'. rewrite Hex. cbn. now rewrite Hhead.
    + rewrite Hview. reflexivity.
  - eexists. split; [reflexivity|]. intros t'.
    unfold views.metadata_view, mdld_classes.setattr.
    destruct (mdld_classes.tag_eqb t' t) eqn:E.
    + apply tag_eqb_eq in E. subst t'. now rewrite Hex.
    + rewrite Hview. reflexivity.
Qed.

Lemma MDLDSection_while_view (data : list byte) (stop : Z) :
  forall (n : nat) (cur cur' : Z) (full full' meta : mdld_classes.MDLDSection),
    (forall t, meta t = views.metadata_view full t) ->
    while n (fun '(current_offset, _) => current_offset <? stop)
      (mdld_classes.MDLDSection_round false data) (cur, full) = Ok (cur', full') ->
    exists meta',
      while n (fun '(current_offset, _) => current_offset <? stop)
        (mdld_classes.MDLDSection_round true data) (cur, meta) = Ok (cur', meta')
      /\ forall t, meta' t = views.metadata_view full' t.
Proof.
  induction n as [|n IH]; intros cur cur' full full' meta Hview H.
  - cbn in *. injection H as <- <-. eauto.
  - cbn [while] in *. destruct (cur <? stop); [|injection H as <- <-; eauto].
    destruct (mdld_classes.MDLDSection_round false data (cur, full))
      as [[c1 f1]|] eqn:Hr; [|discriminate H].
    destruct (MDLDSection_round_view data cur c1 full f1 meta Hview Hr)
      as (m1 & -> & Hv1).
    apply (IH c1 cur' f1 full' m1 Hv1 H).
Qed.

(** A round that succeeds in the full decode succeeds in metadata-only mode
    and leaves the loop at the same offset, whatever the object holds. *)
Lemma MDLDSection_round_same_offset (data : list byte) (cur cur' : Z)
    (self self' meta : mdld_classes.MDLDSection) :
  mdld_classes.MDLDSection_round false data (cur, self) = Ok (cur', self') ->
  exists h meta',
    mdl_classes.RIFFSectionHeader_parse data cur = Ok h
    /\ cur' = cur + 8 + mdl_classes.data_size h
    /\ mdld_classes.MDLDSection_round true data (cur, meta) = Ok (cur', meta').
Proof.
  intros H. unfold mdld_classes.MDLDSection_round in *.
  destruct (mdl_classes.RIFFSectionHeader_parse data cur) as [h|]; [|discriminate H].
  cbn [Py.bind] in *. exists h.
  destruct (mdld_classes.section_types _) as [t|]; [|discriminate H].
  cbn [negb orb] in *.
  destruct (mdld_classes.section_parse t _ data (cur + 8)) as [sec|]; [|discriminate H].
  cbn [Py.bind] in H. injection H as <- _.
  destruct (negb _); cbn [Py.bind]; eexists; split; try reflexivity; split; reflexivity.
Qed.

(** In metadata-only mode a chunk with one of the four excluded tags is
    passed over without looking at its payload. *)
Lemma MDLDSection_round_excluded (data : list byte) (cur : Z)
    (self : mdld_classes.MDLDSection) (h : mdl_classes.RIFFSectionHeader)
    (t : mdld_classes.tag) :
  mdl_classes.RIFFSectionHeader_parse data cur = Ok h ->
  mdld_classes.section_types (mdl_classes.type_id h) = Some t ->
  views.excluded t = true ->
  mdld_classes.MDLDSection_round true data (cur, self)
  = Ok (cur + 8 + mdl_classes.data_size h,
        mdld_classes.setattr self t (mdld_classes.new_section t h)).
Proof.
  intros Hh Ht Hex. unfold mdld_classes.MDLDSection_round.
  rewrite Hh. cbn [Py.bind]. rewrite Ht.
  rewrite (section_types_name _ _ Ht). fold (views.excluded t). rewrite Hex.
  reflexivity.
Qed.

(** C8.  When the full decode of a data chunk succeeds, the metadata-only
    decode of the same bytes succeeds too and yields the same sections,
    except that the sections with tags INDE, VERB, TRAN and ANIB keep the
    empty storage they were created with; round by round both decodes stand
    at the same offset, and metadata-only mode passes over an excluded
    chunk by its 8 header bytes plus its declared length without reading
    its payload. *)
Theorem C8_metadata_only_follows_full_decode (header : mdl_classes.RIFFSectionHeader)
    (data : list byte) (off : Z) (full : mdld_classes.MDLDSection) :
  mdld_classes.MDLDSection_parse header false data off = Ok full ->
  (exists meta,
      mdld_classes.MDLDSection_parse header true data off = Ok meta
      /\ (forall t, meta t = views.metadata_view full t)
      /\ (forall t s, views.excluded t = false -> (meta t = Some s <-> full t = Some s))
      /\ (forall s, meta mdld_classes.INDE = Some s ->
            mdld_classes.stored s = mdld_classes.triangles [])
      /\ (forall s, meta mdld_classes.TRAN = Some s ->
            mdld_classes.stored s = mdld_classes.matrices []))
  /\ (forall cur cur' self self' meta,
        mdld_classes.MDLDSection_round false data (cur, self) = Ok (cur', self') ->
        exists h meta',
          mdl_classes.RIFFSectionHeader_parse data cur = Ok h
          /\ cur' = cur + 8 + mdl_classes.data_size h
          /\ mdld_classes.MDLDSection_round true data (cur, meta) = Ok (cur', meta'))
  /\ (forall cur self h t,
        mdl_classes.RIFFSectionHeader_parse data cur = Ok h ->
        mdld_classes.section_types (mdl_classes.type_id h) = Some t ->
        views.excluded t = true ->
        mdld_classes.MDLDSection_round true data (cur, self)
        = Ok (cur + 8 + mdl_classes.data_size h,
              mdld_classes.setattr self t (mdld_classes.new_section t h))).
Proof.
  intros H.
  split; [|split;
           [intros cur cur' self self' meta;
            apply MDLDSection_round_same_offset
           |intros cur self h t; apply MDLDSection_round_excluded]].
  unfold mdld_classes.MDLDSection_parse in *.
  match type of H with
  | Py.bind ?c _ = Ok _ => destruct c as [[cur' full']|] eqn:Hw; [|discriminate H]
  end.
  cbn [Py.bind] in H. injection H as <-.
  assert (Hinit : forall t, mdld_classes.MDLDSection_init t
                            = views.metadata_view mdld_classes.MDLDSection_init t).
  { intros t. unfold views.metadata_view. destruct (views.excluded t); reflexivity. }
  destruct (MDLDSection_while_view data _ _ _ _ mdld_classes.MDLDSection_init full'
              mdld_classes.MDLDSection_init Hinit Hw) as (meta & -> & Hview).
  cbn [Py.bind]. exists meta. split; [reflexivity|]. split; [exact Hview|].
  split; [|split].
  - intros t s Hex. rewrite Hview. unfold views.metadata_view. rewrite Hex. reflexivity.
  - intros s Hs. rewrite Hview in Hs. unfold views.metadata_view in Hs. cbn in Hs.
    destruct (full' mdld_classes.INDE); [|discriminate Hs].
    cbn in Hs. injection Hs as <-. reflexivity.
  - intros s Hs. rewrite Hview in Hs. unfold views.metadata_view in Hs. cbn in Hs.
    destruct (full' mdld_classes.TRAN); [|discriminate Hs].
    cbn in Hs. injection Hs as <-. reflexivity.
Qed.

(** C8, witness: a data chunk with a triangle chunk, a texture chunk and an
    animation map.  The full decode stores the triangle, the metadata-only
    decode does not, and both decode the animation map behind it. *)
Lemma C8_metadata_only_follows_full_decode_witness :
  exists full meta,
    mdld_classes.MDLDSection_parse samples.inde_text_amap_header false
      samples.inde_text_amap 0 = Ok full
    /\ mdld_classes.MDLDSection_parse samples.inde_text_amap_header true
         samples.inde_text_amap 0 = Ok meta
    /\ option_map mdld_classes.stored (full mdld_classes.INDE)
       = Some (mdld_classes.triangles [[VInt 1; VInt 2; VInt 3]])
    /\ (forall s, meta mdld_classes.INDE = Some s ->
          mdld_classes.stored s = mdld_classes.triangles [])
    /\ option_map mdld_classes.stored (meta mdld_classes.AMAP)
       = Some (mdld_classes.animation_items
                 [{| mdld_classes.transformation_type := 1;
                     mdld_classes.tran_section := 7 |}]).
Proof.
  assert (Hfull : exists full,
             mdld_classes.MDLDSection_parse samples.inde_text_amap_header false
               samples.inde_text_amap 0 = Ok full
             /\ option_map mdld_classes.stored (full mdld_classes.INDE)
                = Some (mdld_classes.triangles [[VInt 1; VInt 2; VInt 3]])
             /\ option_map mdld_classes.stored (full mdld_classes.AMAP)
                = Some (mdld_classes.animation_items
                          [{| mdld_classes.transformation_type := 1;
                              mdld_classes.tran_section := 7 |}])).
  { eexists. split; [vm_compute; reflexivity|]. split; vm_compute; reflexivity. }
  destruct Hfull as (full & Hf & Hinde & Hamap).
  destruct (C8_metadata_only_follows_full_decode samples.inde_text_amap_header
              samples.inde_text_amap 0 full Hf)
    as ((meta & Hm & Hview & _ & Hmi & _) & _).
  exists full, meta. split; [exact Hf|]. split; [exact Hm|].
  split; [exact Hinde|]. split; [exact Hmi|].
  rewrite Hview. exact Hamap.
Defined.

(** * Further properties of fs_parse/utils.py *)

Lemma read_stringz_loop_prefix (pre rest acc : list byte) :
  (forall b, In b pre -> byte_val b <> 0) ->
  utils.read_stringz_loop (pre ++ rest) acc = utils.read_stringz_loop rest (acc ++ pre).
Proof.
  revert acc. induction pre as [|b pre IH]; intros acc H.
  - cbn. now rewrite app_nil_r.
  - cbn [app utils.read_stringz_loop].
    destruct (Z.eqb_spec (byte_val b) 0) as [E|_].
    + exfalso. apply (H b); [now left|exact E].
    + rewrite IH by (intros b' Hb'; apply H; now right).
      rewrite <- app_assoc. reflexivity.
Qed.

(** [read_stringz] on a buffer with a terminator. *)
Lemma read_stringz_terminated (pre rest : list byte) :
  (forall b, In b pre -> byte_val b <> 0) ->
  forallb is_ascii pre = true ->
  utils.read_stringz (pre ++ x00 :: rest) = Ok (string_of_list_byte pre).
Proof.
  intros Hnz Hascii. unfold utils.read_stringz.
  rewrite read_stringz_loop_prefix by exact Hnz.
  cbn [utils.read_stringz_loop app]. change (byte_val x00 =? 0) with true.
  cbn [Py.bind]. unfold utils.stringz_2_ascii, decode_ascii.
  rewrite forallb_app, Hascii. cbn [forallb andb]. change (is_ascii x00) with true.
  cbn [andb Py.bind]. rewrite strip_nul_terminated by exact Hnz. reflexivity.
Qed.

(** X1.  [read_stringz] returns the text before the first zero byte,
    whatever follows it, when that text is ASCII. *)
Theorem X1_read_stringz_text_before_the_terminator (pre rest : list byte) :
  (forall b, In b pre -> byte_val b <> 0) ->
  forallb is_ascii pre = true ->
  utils.read_stringz (pre ++ x00 :: rest) = Ok (string_of_list_byte pre).
Proof. exact (read_stringz_terminated pre rest). Qed.

(** X1, witness: [b"AB\x00rest"]. *)
Lemma X1_read_stringz_text_before_the_terminator_witness :
  utils.read_stringz ([x41; x42] ++ x00 :: [x72; x65; x73; x74]) = Ok "AB"%string.
Proof.
  apply (X1_read_stringz_text_before_the_terminator [x41; x42] [x72; x65; x73; x74]).
  - intros b [<-|[<-|[]]]; vm_compute; discriminate.
  - reflexivity.
Defined.

(** X2.  On a buffer without a zero byte (the empty buffer too) both string
    readers raise [IndexError]. *)
Theorem X2_string_readers_need_a_terminator (buffer : list byte) :
  (forall b, In b buffer -> byte_val b <> 0) ->
  utils.read_stringz buffer = Err IndexError
  /\ utils.read_stringz_word_aligned buffer = Err IndexError.
Proof.
  intros H. split.
  - unfold utils.read_stringz.
    rewrite <- (app_nil_r buffer), read_stringz_loop_prefix by exact H. reflexivity.
  - unfold utils.read_stringz_word_aligned.
    rewrite <- (app_nil_r buffer), read_stringz_word_aligned_loop_prefix by exact H.
    reflexivity.
Qed.

(** X2, witness: [b"AB"]. *)
Lemma X2_string_readers_need_a_terminator_witness :
  utils.read_stringz [x41; x42] = Err IndexError
  /\ utils.read_stringz_word_aligned [x41; x42] = Err IndexError.
Proof.
  apply (X2_string_readers_need_a_terminator [x41; x42]).
  intros b [<-|[<-|[]]]; vm_compute; discriminate.
Defined.

Lemma read_stringz_word_aligned_loop_ok (rest : list byte) :
  forall (i : Z) (terminating : bool) (acc res : list byte),
    utils.read_stringz_word_aligned_loop rest i terminating acc = Ok res ->
    exists k : nat,
      res = acc ++ firstn k rest
      /\ (1 <= k <= List.length rest)%nat
      /\ (i + Z.of_nat k) mod 2 = 0
      /\ (terminating = true \/ exists b, In b (firstn k rest) /\ byte_val b = 0).
Proof.
  induction rest as [|b rest IH]; intros i terminating acc res H; [discriminate H|].
  cbn [utils.read_stringz_word_aligned_loop] in H.
  destruct ((i mod 2 =? 1) && (if byte_val b =? 0 then true else terminating)) eqn:Hc.
  - injection H as <-. exists 1%nat. cbn [firstn].
    apply andb_true_iff in Hc as (Hi & Ht). apply Z.eqb_eq in Hi.
    split; [reflexivity|]. split; [cbn; lia|].
    split; [Z.div_mod_to_equations; lia|].
    destruct (Z.eqb_spec (byte_val b) 0) as [E|_]; [|now left].
    right. exists b. split; [now left|exact E].
  - apply IH in H as (k & -> & Hk & Hpar & Hz).
    exists (S k). cbn [firstn]. rewrite <- app_assoc.
    split; [reflexivity|]. split; [cbn; lia|].
    split; [replace (i + Z.of_nat (S k)) with (i + 1 + Z.of_nat k) by lia; exact Hpar|].
    destruct Hz as [Ht|(b' & Hb' & E)].
    + destruct (Z.eqb_spec (byte_val b) 0) as [E|_].
      * right. exists b. split; [now left|exact E].
      * now left.
    + right. exists b'. split; [now right|exact E].
Qed.

(** What is known of a word-aligned string that was read. *)
Lemma read_stringz_word_aligned_ok (buffer : list byte) (n : Z) (text : string) :
  utils.read_stringz_word_aligned buffer = Ok (n, text) ->
  n mod 2 = 0 /\ 2 <= n <= len buffer
  /\ (exists b, In b (firstn (Z.to_nat n) buffer) /\ byte_val b = 0)
  /\ text = string_of_list_byte (strip_nul (firstn (Z.to_nat n) buffer)).
Proof.
  unfold utils.read_stringz_word_aligned. intros H.
  destruct (utils.read_stringz_word_aligned_loop buffer 0 false []) as [res|] eqn:Hl;
    [|discriminate H].
  cbn [Py.bind] in H.
  apply read_stringz_word_aligned_loop_ok in Hl as (k & -> & Hk & Hpar & Hz).
  cbn [app] in H. unfold utils.stringz_2_ascii, decode_ascii in H.
  destruct (forallb is_ascii (firstn k buffer)); [|discriminate H].
  cbn [Py.bind] in H. injection H as <- <-.
  assert (Hlen : len (firstn k buffer) = Z.of_nat k).
  { unfold len. rewrite length_firstn. lia. }
  rewrite Hlen, Nat2Z.id. rewrite Z.add_0_l in Hpar.
  split; [exact Hpar|]. split.
  - unfold len. split; [Z.div_mod_to_equations; lia|lia].
  - split; [|reflexivity].
    destruct Hz as [Hf|Hz]; [discriminate Hf|exact Hz].
Qed.

(** X3.  Whenever [read_stringz_word_aligned] returns, the count is even,
    at least 2 and at most the length of the buffer, the bytes it covers
    hold a zero byte, and the text is those bytes with the NULs at both
    ends stripped. *)
Theorem X3_read_stringz_word_aligned_count (buffer : list byte) (n : Z) (text : string) :
  utils.read_stringz_word_aligned buffer = Ok (n, text) ->
  n mod 2 = 0 /\ 2 <= n <= len buffer
  /\ (exists b, In b (firstn (Z.to_nat n) buffer) /\ byte_val b = 0)
  /\ text = string_of_list_byte (strip_nul (firstn (Z.to_nat n) buffer)).
Proof. exact (read_stringz_word_aligned_ok buffer n text). Qed.

(** X3, witness: [b"A\x00BC"]. *)
Lemma X3_read_stringz_word_aligned_count_witness :
  2 mod 2 = 0 /\ 2 <= 2 <= len [x41; x00; x42; x43]
  /\ (exists b, In b (firstn (Z.to_nat 2) [x41; x00; x42; x43]) /\ byte_val b = 0)
  /\ "A"%string
     = string_of_list_byte (strip_nul (firstn (Z.to_nat 2) [x41; x00; x42; x43])).
Proof.
  apply (X3_read_stringz_word_aligned_count [x41; x00; x42; x43] 2 "A"%string).
  reflexivity.
Defined.

Lemma all_from_spec (P : Z -> bool) (n : nat) :
  forall x, ieee.all_from n x P = true ->
  forall y, x <= y < x + Z.of_nat n -> P y = true.
Proof.
  induction n as [|n IH]; intros x H y Hy; [lia|].
  cbn [ieee.all_from] in H. apply andb_true_iff in H as (Hx & Hrest).
  destruct (Z.eq_dec y x) as [->|Hne]; [exact Hx|].
  apply (IH (x + 1) Hrest). lia.
Qed.

(** X4.  For every 16-bit input [half_float_2_float] yields a 32-bit
    pattern that stands for the same number: a finite half (normal,
    subnormal or zero) becomes the finite single with the same sign and
    value, and an infinity or NaN becomes an infinity or NaN with the same
    sign and the fraction shifted left by 13. *)
Theorem X4_half_float_keeps_the_number (x : Z) :
  0 <= x < 2 ^ 16 ->
  ieee.expands_correctly x (utils.half_float_2_float x) = true.
Proof.
  intros Hx.
  assert (H : ieee.all_from (Z.to_nat 65536) 0
                (fun x => ieee.expands_correctly x (utils.half_float_2_float x)) = true)
    by (vm_compute; reflexivity).
  apply (all_from_spec _ _ 0 H).
  rewrite Z2Nat.id by lia. change (2 ^ 16) with 65536 in Hx. lia.
Qed.

(** X4, witness: the smallest subnormal half, [0x0001], is [2^-24]. *)
Lemma X4_half_float_keeps_the_number_witness :
  ieee.expands_correctly 1 (utils.half_float_2_float 1) = true
  /\ ieee.single_finite (utils.half_float_2_float 1) = (0, 2 ^ 23, -24 - 23).
Proof.
  split; [|reflexivity].
  apply (X4_half_float_keeps_the_number 1). split; [lia|reflexivity].
Defined.

Lemma land_pow2_eqb (v k : Z) :
  0 <= k -> (Z.land v (2 ^ k) =? 0) = negb (Z.testbit v k).
Proof.
  intros Hk.
  assert (H : Z.land v (2 ^ k) = if Z.testbit v k then 2 ^ k else 0).
  { apply Z.bits_inj'. intros n Hn.
    rewrite Z.land_spec, Z.pow2_bits_eqb by lia.
    destruct (Z.eqb_spec k n) as [->|Hne].
    - destruct (Z.testbit v n); cbn.
      + rewrite Z.pow2_bits_eqb, Z.eqb_refl by lia. reflexivity.
      + now rewrite Z.bits_0.
    - rewrite andb_false_r.
      destruct (Z.testbit v k).
      + rewrite Z.pow2_bits_eqb by lia. symmetry. now apply Z.eqb_neq.
      + now rewrite Z.bits_0. }
  rewrite H. destruct (Z.testbit v k); [|reflexivity].
  apply Z.eqb_neq. pose proof (Z.pow_pos_nonneg 2 k ltac:(lia) Hk). lia.
Qed.

(** X5.  The seven flags of [parse_flags] are bits 0 to 6 of the value, for
    every integer; higher bits are ignored. *)
Theorem X5_parse_flags_are_the_low_bits (value : Z) :
  utils.parse_flags value = map (Z.testbit value) [0; 1; 2; 3; 4; 5; 6]
  /\ forall high, utils.parse_flags (value + 128 * high) = utils.parse_flags value.
Proof.
  assert (H : forall v, utils.parse_flags v = map (Z.testbit v) [0; 1; 2; 3; 4; 5; 6]).
  { intros v. unfold utils.parse_flags. cbn [map].
    change (Z.land v 1) with (Z.land v (2 ^ 0)).
    change (Z.land v 2) with (Z.land v (2 ^ 1)).
    change (Z.land v 4) with (Z.land v (2 ^ 2)).
    change (Z.land v 8) with (Z.land v (2 ^ 3)).
    change (Z.land v 16) with (Z.land v (2 ^ 4)).
    change (Z.land v 32) with (Z.land v (2 ^ 5)).
    change (Z.land v 64) with (Z.land v (2 ^ 6)).
    rewrite !land_pow2_eqb by lia. rewrite !negb_involutive. reflexivity. }
  split; [apply H|].
  intros high. rewrite !H. cbn [map].
  assert (Hb : forall k, 0 <= k < 7 ->
                 Z.testbit (value + 128 * high) k = Z.testbit value k).
  { intros k Hk.
    rewrite <- (Z.mod_pow2_bits_low (value + 128 * high) 7 k) by lia.
    rewrite <- (Z.mod_pow2_bits_low value 7 k) by lia.
    change (2 ^ 7) with 128. f_equal.
    rewrite Z.mul_comm. apply Z.mod_add. lia. }
  rewrite !Hb by lia. reflexivity.
Qed.

Lemma shiftl_1 (bit : Z) : 0 <= bit -> Z.shiftl 1 bit = 2 ^ bit.
Proof. intros H. rewrite Z.shiftl_mul_pow2 by lia. lia. Qed.

(** X6.  For a bit number that is not negative, [set_bit] sets that bit and
    [clear_bit] clears it, both leaving every other bit alone; clearing a
    bit that was just set gives the value back when the bit was clear
    before. *)
Theorem X6_set_bit_then_clear_bit (value bit : Z) :
  0 <= bit ->
  exists s c,
    utils.set_bit value bit = Ok s
    /\ utils.clear_bit s bit = Ok c
    /\ Z.testbit s bit = true
    /\ Z.testbit c bit = false
    /\ (forall n, 0 <= n -> n <> bit ->
          Z.testbit s n = Z.testbit value n /\ Z.testbit c n = Z.testbit value n)
    /\ (Z.testbit value bit = false -> c = value).
Proof.
  intros Hb. unfold utils.set_bit, utils.clear_bit.
  destruct (Z.ltb_spec bit 0) as [|_]; [lia|].
  rewrite shiftl_1 by exact Hb.
  do 2 eexists. split; [reflexivity|]. split; [reflexivity|].
  assert (Hs : forall n, 0 <= n ->
            Z.testbit (Z.lor value (2 ^ bit)) n = Z.testbit value n || (bit =? n)).
  { intros n Hn. rewrite Z.lor_spec, Z.pow2_bits_eqb by lia. reflexivity. }
  assert (Hc : forall n, 0 <= n ->
            Z.testbit (Z.land (Z.lor value (2 ^ bit)) (Z.lnot (2 ^ bit))) n
            = (Z.testbit value n || (bit =? n)) && negb (bit =? n)).
  { intros n Hn. rewrite Z.land_spec, Z.lnot_spec, Hs, Z.pow2_bits_eqb by lia.
    reflexivity. }
  split; [rewrite Hs, Z.eqb_refl by lia; apply orb_true_r|].
  split; [rewrite Hc, Z.eqb_refl by lia; apply andb_false_r|].
  split.
  - intros n Hn Hne. rewrite Hs, Hc by lia.
    destruct (Z.eqb_spec bit n) as [E|_]; [lia|].
    rewrite orb_false_r, andb_true_r. auto.
  - intros Hv. apply Z.bits_inj'. intros n Hn. rewrite Hc by lia.
    destruct (Z.eqb_spec bit n) as [<-|_].
    + rewrite Hv. reflexivity.
    + rewrite orb_false_r, andb_true_r. reflexivity.
Qed.

(** X6, witness: bit 3 of 5. *)
Lemma X6_set_bit_then_clear_bit_witness :
  exists s c,
    utils.set_bit 5 3 = Ok s
    /\ utils.clear_bit s 3 = Ok c
    /\ Z.testbit s 3 = true
    /\ Z.testbit c 3 = false
    /\ (forall n, 0 <= n -> n <> 3 ->
          Z.testbit s n = Z.testbit 5 n /\ Z.testbit c n = Z.testbit 5 n)
    /\ (Z.testbit 5 3 = false -> c = 5).
Proof. apply (X6_set_bit_then_clear_bit 5 3). lia. Defined.

Lemma dict_get_set (K V : Type) (eqb : V -> V -> bool) :
  (forall a b, eqb a b = true <-> a = b) ->
  forall (result : list (V * list K)) (v v' : V) (l : list K),
    utils.dict_get K V eqb (utils.dict_set K V eqb result v l) v'
    = if eqb v v' then Some l else utils.dict_get K V eqb result v'.
Proof.
  intros Heq result v v' l. induction result as [|[w lw] result IH].
  - cbn. reflexivity.
  - cbn [utils.dict_set]. destruct (eqb w v) eqn:Ewv.
    + apply Heq in Ewv. subst w. cbn [utils.dict_get].
      destruct (eqb v v'); reflexivity.
    + cbn [utils.dict_get]. destruct (eqb w v') eqn:Ewv'.
      * apply Heq in Ewv'. subst w.
        destruct (eqb v v') eqn:E2; [|reflexivity].
        apply Heq in E2. subst v'.
        rewrite (proj2 (Heq v v) eq_refl) in Ewv. discriminate Ewv.
      * exact IH.
Qed.

(** X7.  In the result of [invert_dict], the entry of a value lists, in
    insertion order, exactly the keys that the argument maps to that value,
    and a value that no key maps to has no entry. *)
Theorem X7_invert_dict_groups_the_keys (K V : Type) (eqb : V -> V -> bool)
    (d : list (K * V)) (v : V) :
  (forall a b, eqb a b = true <-> a = b) ->
  utils.dict_get K V eqb (utils.invert_dict K V eqb d) v
  = match map fst (filter (fun kv => eqb (snd kv) v) d) with
    | [] => None
    | l => Some l
    end.
Proof.
  intros Heq. induction d as [|[k v0] d IH] using rev_ind.
  - reflexivity.
  - unfold utils.invert_dict in *. rewrite fold_left_app. cbn [fold_left].
    rewrite dict_get_set by exact Heq.
    rewrite filter_app, map_app. cbn [filter snd].
    destruct (eqb v0 v) eqn:E.
    + apply Heq in E. subst v0. rewrite IH. cbn [map fst].
      destruct (map fst (filter (fun kv => eqb (snd kv) v) d)) as [|x l]; reflexivity.
    + cbn [map]. rewrite app_nil_r. exact IH.
Qed.

(** X7, witness: [{1: 10, 2: 20, 3: 10}] has the keys 1 and 3 under 10. *)
Lemma X7_invert_dict_groups_the_keys_witness :
  utils.dict_get Z Z Z.eqb (utils.invert_dict Z Z Z.eqb [(1, 10); (2, 20); (3, 10)]) 10
  = Some [1; 3].
Proof.
  apply (X7_invert_dict_groups_the_keys Z Z Z.eqb [(1, 10); (2, 20); (3, 10)] 10).
  exact Z.eqb_eq.
Defined.

(** * Further properties of fs_parse/bgl/classes.py *)

Lemma land_pow2 (v k : Z) :
  0 <= k -> Z.land v (2 ^ k) = if Z.testbit v k then 2 ^ k else 0.
Proof.
  intros Hk. apply Z.bits_inj'. intros n Hn.
  rewrite Z.land_spec, Z.pow2_bits_eqb by lia.
  destruct (Z.eqb_spec k n) as [->|Hne].
  - destruct (Z.testbit v n); cbn.
    + rewrite Z.pow2_bits_eqb, Z.eqb_refl by lia. reflexivity.
    + now rewrite Z.bits_0.
  - rewrite andb_false_r.
    destruct (Z.testbit v k).
    + rewrite Z.pow2_bits_eqb by lia. symmetry. now apply Z.eqb_neq.
    + now rewrite Z.bits_0.
Qed.

Lemma unpack_BGLSection (d : list byte) :
  unpack_from 0 classes.BGLSection_fmt d
  = [VInt (le_uint (slice d 0 4)); VInt (le_uint (slice d 4 8));
     VInt (le_uint (slice d 8 12)); VInt (le_uint (slice d 12 16));
     VInt (le_uint (slice d 16 20))].
Proof. reflexivity. Qed.

Lemma unpack_BGLStandardSubSectionHeader (d : list byte) :
  unpack_from 0 subsections.BGLStandardSubSectionHeader_fmt d
  = [VInt (le_uint (slice d 0 4)); VInt (le_uint (slice d 4 8));
     VInt (le_uint (slice d 8 12)); VInt (le_uint (slice d 12 16))].
Proof. reflexivity. Qed.

(** What is known of a subsection header that was decoded. *)
Lemma BGLStandardSubSectionHeader_parse_ok (data : list byte) (off : Z)
    (h : subsections.BGLSubSectionHeader) :
  0 <= off ->
  subsections.BGLStandardSubSectionHeader_parse data off = Ok h ->
  off + 16 <= len data
  /\ 0 <= subsections.records_number h
  /\ 0 <= subsections.first_record_file_offset h.
Proof.
  intros Hoff H. unfold subsections.BGLStandardSubSectionHeader_parse in H.
  destruct (get_data _ _ _) as [fields|] eqn:Hget; [|discriminate H].
  destruct (get_data_ok _ _ _ _ Hget) as (Hlen & ->).
  change (calcsize subsections.BGLStandardSubSectionHeader_fmt) with 16 in *.
  rewrite unpack_BGLStandardSubSectionHeader in H. cbn [Py.bind] in H.
  injection H as <-. cbn.
  split; [apply (slice_full_inside data off 16); lia|].
  split; apply le_uint_nonneg.
Qed.

(** Every subsection class decodes the 16 bytes of the standard header. *)
Lemma subsection_parse_inside (V : Values) (c : option classes.subsection_class)
    (data : list byte) (o : Z) (sub : subsections.BGLSubSection) :
  0 <= o -> classes.subsection_parse c data o = Ok sub -> o + 16 <= len data.
Proof.
  intros Ho H. destruct c as [[| |]|]; cbn [classes.subsection_parse] in H;
    [| | |discriminate H].
  all: unfold subsections.BGLSubSection_parse, subsections.SceneryObject_parse,
         subsections.ModelData_parse in H.
  all: destruct (subsections.BGLStandardSubSectionHeader_parse data o) as [h|] eqn:Hh;
         [|discriminate H].
  all: apply (BGLStandardSubSectionHeader_parse_ok data o h Ho Hh).
Qed.

Lemma BGLSection_subsections_ok (V : Values) (c : option classes.subsection_class)
    (data : list byte) (start stride : Z) :
  0 <= start -> 0 <= stride ->
  forall (todo : nat) (i : Z) (subs : list subsections.BGLSubSection),
    0 <= i ->
    classes.BGLSection_subsections c todo i data start stride = Ok subs ->
    List.length subs = todo
    /\ forall j, i <= j < i + Z.of_nat todo -> start + j * stride + 16 <= len data.
Proof.
  intros Hs Hst. induction todo as [|todo IH]; intros i subs Hi H.
  - cbn in H. injection H as <-. split; [reflexivity|]. intros j Hj. lia.
  - cbn [classes.BGLSection_subsections] in H.
    destruct (classes.subsection_parse c data (start + i * stride)) as [sub|] eqn:Hsub;
      [|discriminate H].
    cbn [Py.bind] in H.
    destruct (classes.BGLSection_subsections c todo (i + 1) data start stride)
      as [rest|] eqn:Hrest; [|discriminate H].
    cbn [Py.bind] in H. injection H as <-.
    destruct (IH (i + 1) rest ltac:(lia) Hrest) as (Hlen & Hin).
    split; [cbn; congruence|].
    intros j Hj. destruct (Z.eq_dec j i) as [->|Hne].
    + apply (subsection_parse_inside V c data _ sub); [nia|exact Hsub].
    + apply Hin. lia.
Qed.

(** What is known of a section entry that was decoded. *)
Lemma BGLSection_parse_ok (V : Values) (data : list byte) (off : Z)
    (s : classes.BGLSection) :
  0 <= off ->
  classes.BGLSection_parse data off = Ok s ->
  off + 20 <= len data
  /\ (classes.subsection_size_value s = 16 \/ classes.subsection_size_value s = 20)
  /\ 0 <= classes.subsections_count s
  /\ List.length (classes.subsections s) = Z.to_nat (classes.subsections_count s)
  /\ (forall j, 0 <= j < classes.subsections_count s ->
        classes.sections_start_offset s + j * classes.subsection_size_value s + 16
        <= len data)
  /\ classes.BGLSection_subsections (classes.subsections_mapping (classes.section_type s))
       (Z.to_nat (classes.subsections_count s)) 0 data
       (classes.sections_start_offset s) (classes.subsection_size_value s)
     = Ok (classes.subsections s).
Proof.
  intros Hoff H. unfold classes.BGLSection_parse in H.
  destruct (get_data _ _ _) as [fields|] eqn:Hget; [|discriminate H].
  destruct (get_data_ok _ _ _ _ Hget) as (Hlen & ->).
  change (calcsize classes.BGLSection_fmt) with 20 in *.
  rewrite unpack_BGLSection in H. cbn [Py.bind] in H.
  destruct (BGLSectionType_of _) as [t|]; [|discriminate H].
  set (raw := le_uint (slice (slice data off (off + 20)) 4 8)) in *.
  set (count := le_uint (slice (slice data off (off + 20)) 8 12)) in *.
  set (start := le_uint (slice (slice data off (off + 20)) 12 16)) in *.
  assert (Hstride : Z.shiftr (Z.lor (Z.land raw 0x10000) 0x40000) 0x0E = 16
                    \/ Z.shiftr (Z.lor (Z.land raw 0x10000) 0x40000) 0x0E = 20).
  { change 0x10000 with (2 ^ 16). rewrite land_pow2 by lia.
    destruct (Z.testbit raw 16); [right|left]; reflexivity. }
  set (stride := Z.shiftr (Z.lor (Z.land raw 0x10000) 0x40000) 0x0E) in *.
  destruct (classes.BGLSection_subsections _ _ _ _ _ _) as [subs|] eqn:Hsubs;
    [|discriminate H].
  cbn [Py.bind] in H. injection H as <-.
  cbn [classes.subsection_size_value classes.subsections_count classes.subsections
       classes.sections_start_offset classes.section_type].
  assert (Hc : 0 <= count) by apply le_uint_nonneg.
  assert (Hs : 0 <= start) by apply le_uint_nonneg.
  destruct (BGLSection_subsections_ok V _ data start stride Hs ltac:(lia) _ 0 subs
              ltac:(lia) Hsubs) as (Hl & Hin).
  split; [apply (slice_full_inside data off 20); lia|].
  split; [exact Hstride|]. split; [exact Hc|]. split; [exact Hl|].
  split; [|exact Hsubs].
  intros j Hj. apply Hin. lia.
Qed.

(** X8.  In a decoded section entry the stride between subsections is 16
    or 20, whatever the raw field holds, the count is not negative and
    there are as many subsections as the entry declares. *)
Theorem X8_section_stride_and_count (V : Values) (data : list byte) (off : Z)
    (s : classes.BGLSection) :
  0 <= off ->
  classes.BGLSection_parse data off = Ok s ->
  (classes.subsection_size_value s = 16 \/ classes.subsection_size_value s = 20)
  /\ 0 <= classes.subsections_count s
  /\ List.length (classes.subsections s) = Z.to_nat (classes.subsections_count s).
Proof.
  intros Hoff H.
  destruct (BGLSection_parse_ok V data off s Hoff H) as (_ & Hst & Hc & Hl & _).
  auto.
Qed.

(** X9.  A section entry decodes only if its 20 bytes and the 16 header
    bytes of every declared subsection lie inside the buffer: nothing
    beyond the buffer is ever taken for a subsection header. *)
Theorem X9_section_subsections_inside_the_buffer (V : Values) (data : list byte)
    (off : Z) (s : classes.BGLSection) :
  0 <= off ->
  classes.BGLSection_parse data off = Ok s ->
  off + 20 <= len data
  /\ forall j, 0 <= j < classes.subsections_count s ->
       classes.sections_start_offset s + j * classes.subsection_size_value s + 16
       <= len data.
Proof.
  intros Hoff H.
  destruct (BGLSection_parse_ok V data off s Hoff H) as (Hin & _ & _ & _ & Hsubs & _).
  auto.
Qed.

(** X8, witness: the scenery object section of the sample file. *)
Lemma X8_section_stride_and_count_witness :
  exists s,
    classes.BGLSection_parse (V := samples.values) samples.small_file 56 = Ok s
    /\ (classes.subsection_size_value s = 16 \/ classes.subsection_size_value s = 20)
    /\ 0 <= classes.subsections_count s
    /\ List.length (classes.subsections s) = Z.to_nat (classes.subsections_count s).
Proof.
  eexists.
  assert (Hp : classes.BGLSection_parse (V := samples.values) samples.small_file 56 = Ok _)
    by (vm_compute; reflexivity).
  split; [exact Hp|].
  apply (X8_section_stride_and_count samples.values samples.small_file 56 _
           ltac:(lia) Hp).
Defined.

(** X9, witness: the model data section of the sample file. *)
Lemma X9_section_subsections_inside_the_buffer_witness :
  exists s,
    classes.BGLSection_parse (V := samples.values) samples.small_file 76 = Ok s
    /\ 76 + 20 <= len samples.small_file
    /\ forall j, 0 <= j < classes.subsections_count s ->
         classes.sections_start_offset s + j * classes.subsection_size_value s + 16
         <= len samples.small_file.
Proof.
  eexists.
  assert (Hp : classes.BGLSection_parse (V := samples.values) samples.small_file 76 = Ok _)
    by (vm_compute; reflexivity).
  split; [exact Hp|].
  apply (X9_section_subsections_inside_the_buffer samples.values samples.small_file 76 _
           ltac:(lia) Hp).
Defined.

Lemma BGLHeader_parse_ok (data : list byte) (off : Z) (h : classes.BGLHeader) :
  0 <= off ->
  classes.BGLHeader_parse data off = Ok h ->
  off + 56 <= len data /\ 0 <= classes.sections_count h.
Proof.
  intros Hoff H. unfold classes.BGLHeader_parse in H.
  destruct (get_data _ _ _) as [fields|] eqn:Hget; [|discriminate H].
  destruct (get_data_ok _ _ _ _ Hget) as (Hlen & ->).
  change (calcsize classes.BGLHeader_fmt) with 56 in *.
  destruct (unpack_BGLHeader (slice data off (off + 56))) as (qmid & Hu).
  rewrite Hu in H. cbn [Py.bind] in H.
  destruct (classes.filetime_of _) as [ft|]; [|discriminate H].
  cbn [Py.bind] in H. injection H as <-. cbn.
  split; [apply (slice_full_inside data off 56); lia|apply le_uint_nonneg].
Qed.

Lemma BGLFile_sections_ok (V : Values) (data : list byte) :
  forall (todo : nat) (i : Z) (ss : list classes.BGLSection),
    0 <= i ->
    classes.BGLFile_sections todo i data = Ok ss ->
    List.length ss = todo
    /\ (forall j, i <= j < i + Z.of_nat todo -> 56 + j * 20 + 20 <= len data)
    /\ (forall s, In s ss ->
          exists o, 0 <= o /\ classes.BGLSection_parse data o = Ok s).
Proof.
  induction todo as [|todo IH]; intros i ss Hi H.
  - cbn in H. injection H as <-. split; [reflexivity|].
    split; [intros j Hj; lia|intros s []].
  - cbn [classes.BGLFile_sections] in H.
    change (calcsize classes.BGLHeader_fmt) with 56 in H.
    change (calcsize classes.BGLSection_fmt) with 20 in H.
    destruct (classes.BGLSection_parse data (56 + i * 20)) as [s0|] eqn:Hs;
      [|discriminate H].
    cbn [Py.bind] in H.
    destruct (classes.BGLFile_sections todo (i + 1) data) as [rest|] eqn:Hrest;
      [|discriminate H].
    cbn [Py.bind] in H. injection H as <-.
    destruct (IH (i + 1) rest ltac:(lia) Hrest) as (Hl & Hin & Hp).
    destruct (BGLSection_parse_ok V data (56 + i * 20) s0 ltac:(lia) Hs) as (Hfit & _).
    split; [cbn; congruence|]. split.
    + intros j Hj. destruct (Z.eq_dec j i) as [->|Hne]; [lia|apply Hin; lia].
    + intros s [<-|Hs']; [exists (56 + i * 20); split; [lia|exact Hs]|apply Hp, Hs'].
Qed.

Lemma BGLFile_parse_ok (V : Values) (data : list byte) (f : classes.BGLFile) :
  classes.BGLFile_parse data = Ok f ->
  List.length (classes.sections f)
  = Z.to_nat (classes.sections_count (classes.file_header f))
  /\ 56 + 20 * classes.sections_count (classes.file_header f) <= len data
  /\ (forall s, In s (classes.sections f) ->
        exists o, 0 <= o /\ classes.BGLSection_parse data o = Ok s).
Proof.
  intros H. unfold classes.BGLFile_parse in H.
  destruct (classes.BGLHeader_parse data 0) as [h|] eqn:Hh; [|discriminate H].
  cbn [Py.bind] in H.
  destruct (classes.BGLFile_sections _ 0 data) as [ss|] eqn:Hss; [|discriminate H].
  cbn [Py.bind] in H. injection H as <-. cbn [classes.sections classes.file_header].
  destruct (BGLHeader_parse_ok data 0 h ltac:(lia) Hh) as (H56 & Hc).
  destruct (BGLFile_sections_ok V data _ 0 ss ltac:(lia) Hss) as (Hl & Hin & Hp).
  split; [exact Hl|]. split; [|exact Hp].
  destruct (Z.eq_dec (classes.sections_count h) 0) as [E|Hne]; [lia|].
  specialize (Hin (classes.sections_count h - 1)). lia.
Qed.

(** X10.  A file decodes only if the header and the whole section table
    that it declares lie inside the buffer, and then there are as many
    sections as the header declares. *)
Theorem X10_file_section_table (V : Values) (data : list byte) (f : classes.BGLFile) :
  classes.BGLFile_parse data = Ok f ->
  List.length (classes.sections f)
  = Z.to_nat (classes.sections_count (classes.file_header f))
  /\ 56 + 20 * classes.sections_count (classes.file_header f) <= len data.
Proof.
  intros H. destruct (BGLFile_parse_ok V data f H) as (Hl & Hfit & _). auto.
Qed.

(** X10, witness: the sample file. *)
Lemma X10_file_section_table_witness :
  exists f,
    classes.BGLFile_parse (V := samples.values) samples.small_file = Ok f
    /\ List.length (classes.sections f)
       = Z.to_nat (classes.sections_count (classes.file_header f))
    /\ 56 + 20 * classes.sections_count (classes.file_header f) <= len samples.small_file.
Proof.
  eexists.
  assert (Hp : classes.BGLFile_parse (V := samples.values) samples.small_file = Ok _)
    by (vm_compute; reflexivity).
  split; [exact Hp|].
  apply (X10_file_section_table samples.values samples.small_file _ Hp).
Defined.

Lemma get_models_of_ModelData (V : Values) (data : list byte) (start stride : Z) :
  forall (todo : nat) (i : Z) (subs : list subsections.BGLSubSection),
    classes.BGLSection_subsections (Some classes.ModelData_class) todo i data start stride
    = Ok subs ->
    exists l, classes.get_models_of subs = Some l.
Proof.
  induction todo as [|todo IH]; intros i subs H.
  - cbn in H. injection H as <-. cbn. eauto.
  - cbn [classes.BGLSection_subsections classes.subsection_parse] in H.
    destruct (subsections.ModelData_parse true data _) as [sub|] eqn:Hsub;
      [|discriminate H].
    cbn [Py.bind] in H.
    destruct (classes.BGLSection_subsections _ todo (i + 1) data start stride)
      as [rest|] eqn:Hrest; [|discriminate H].
    cbn [Py.bind] in H. injection H as <-.
    destruct (IH (i + 1) rest Hrest) as (l & Hl).
    unfold subsections.ModelData_parse in Hsub. invert_parse Hsub.
    injection Hsub as <-. cbn. rewrite Hl. cbn. eauto.
Qed.

(** X11.  On a file that was decoded, [get_models] never trips its
    [assert isinstance(subsection, ModelData)]: every subsection of a model
    data section is a [ModelData]. *)
Theorem X11_get_models_assertion_holds (V : Values) (data : list byte)
    (f : classes.BGLFile) :
  classes.BGLFile_parse data = Ok f ->
  exists models, classes.get_models f = Some models.
Proof.
  intros H. destruct (BGLFile_parse_ok V data f H) as (_ & _ & Hp).
  unfold classes.get_models.
  induction (classes.sections f) as [|s ss IH]; [cbn; eauto|].
  destruct IH as (l & Hl); [intros s' Hs'; apply Hp; now right|].
  cbn [classes.get_models_sections]. rewrite Hl.
  destruct (Hp s ltac:(now left)) as (o & Ho & Hs).
  destruct (BGLSection_parse_ok V data o s Ho Hs) as (_ & _ & _ & _ & _ & Hsubs).
  destruct (classes.section_type s) eqn:Ht; try (eexists; reflexivity).
  cbn [classes.subsections_mapping] in Hsubs.
  destruct (get_models_of_ModelData V data _ _ _ _ _ Hsubs) as (l' & ->).
  cbn. eauto.
Qed.

(** X11, witness: the sample file has one model, of 4 payload bytes. *)
Lemma X11_get_models_assertion_holds_witness :
  exists f models,
    classes.BGLFile_parse (V := samples.values) samples.small_file = Ok f
    /\ classes.get_models f = Some models
    /\ map modeldata.mdl_data models = [[x4d; x44; x4c; x58]].
Proof.
  assert (Hp : exists f,
             classes.BGLFile_parse (V := samples.values) samples.small_file = Ok f
             /\ option_map (map modeldata.mdl_data) (classes.get_models f)
                = Some [[x4d; x44; x4c; x58]]).
  { eexists. split; vm_compute; reflexivity. }
  destruct Hp as (f & Hf & Hm).
  destruct (X11_get_models_assertion_holds samples.values samples.small_file f Hf)
    as (models & Hg).
  exists f, models. split; [exact Hf|]. split; [exact Hg|].
  rewrite Hg in Hm. cbn in Hm. injection Hm as Hm. exact Hm.
Defined.

(** * Further properties of fs_parse/bgl/subsections.py *)

(** Which class a registered id decodes to. *)
Lemma record_parse_kind (V : Values) (decoded_id : Z)
    (parse : list byte -> Z -> result sceneryobject.SceneryObjectRecord)
    (data : list byte) (off : Z) (r : sceneryobject.SceneryObjectRecord) :
  sceneryobject.SCENERYOBJECTS_IDS decoded_id = Some parse ->
  parse data off = Ok r ->
  In decoded_id [1; 2; 3; 4; 5; 7; 8; 10; 11; 12; 13; 14; 16; 17; 18]
  /\ sceneryobject.fam r
     = (if decoded_id <? 0x0A then sceneryobject.FS9 else sceneryobject.FSX)
  /\ classes.is_LibraryObjectRecord r = ((decoded_id =? 0x02) || (decoded_id =? 0x0B)).
Proof.
  intros Hreg H. unfold sceneryobject.SCENERYOBJECTS_IDS in Hreg.
  repeat match type of Hreg with
         | (if ?a =? ?b then _ else _) = Some _ =>
             destruct (Z.eqb_spec a b) as [->|?]
         end;
    try discriminate Hreg; injection Hreg as <-.
  all: unfold sceneryobject.PlaceHolderRecord_parse,
         sceneryobject.LibraryObjectRecord_parse, sceneryobject.WindSock_parse,
         sceneryobject.EffectPlacement_parse, sceneryobject.TaxiwaySign_parse,
         sceneryobject.BeaconRecord_parse, sceneryobject.ExtrusionBridgeRecord_parse,
         sceneryobject.SceneryObjectRecord_parse in H.
  all: invert_parse H; injection H as <-.
  all: split; [vm_compute; tauto|split; reflexivity].
Qed.

(** Every record of the stream was decoded, at its offset, by the class
    registered under the id of its header. *)
Lemma SceneryObject_records_dispatch (V : Values) (data : list byte) :
  forall (todo i : nat) (cur : Z) (rs : list sceneryobject.SceneryObjectRecord),
    0 <= cur ->
    subsections.SceneryObject_records todo i data cur = Ok rs ->
    forall r, In r rs ->
      0 <= sceneryobject.offset (sceneryobject.header r)
      /\ sceneryobject.offset (sceneryobject.header r) + 28 <= len data
      /\ exists parse,
           sceneryobject.SCENERYOBJECTS_IDS (sceneryobject.id (sceneryobject.header r))
           = Some parse
           /\ parse data (sceneryobject.offset (sceneryobject.header r)) = Ok r.
Proof.
  induction todo as [|todo IH]; intros i cur rs Hcur H r Hr.
  - cbn in H. injection H as <-. destruct Hr.
  - cbn [subsections.SceneryObject_records] in H.
    destruct (subsections.peek_record data cur) as [[decoded_id record_size]|] eqn:Hpeek;
      [|discriminate H].
    cbn [Py.bind] in H.
    destruct (sceneryobject.SCENERYOBJECTS_IDS decoded_id) as [parse|] eqn:Hreg;
      [|discriminate H].
    destruct (parse data cur) as [r0|] eqn:Hparse; [|discriminate H].
    cbn [Py.bind] in H.
    destruct (subsections.SceneryObject_records todo (S i) data
                (cur + sceneryobject.total_size r0)) as [rest|] eqn:Hrest;
      [|discriminate H].
    cbn [Py.bind] in H. injection H as <-.
    destruct (record_parse_ok V decoded_id parse data cur r0 Hreg Hparse) as (Hh & Hsz).
    destruct (header_parse_ok V _ data cur _ Hcur Hh) as (Hoff & Hid & Hsize & Hin).
    assert (Hnn : 0 <= sceneryobject.size (sceneryobject.header r0))
      by (rewrite Hsize; apply le_uint_nonneg).
    destruct Hr as [<-|Hr].
    + rewrite Hoff. split; [exact Hcur|]. split; [exact Hin|].
      exists parse. split; [|exact Hparse].
      rewrite (peek_record_inside V data cur Hcur ltac:(lia)) in Hpeek.
      injection Hpeek as <- _. rewrite Hid. exact Hreg.
    + apply (IH (S i) (cur + sceneryobject.total_size r0) rest ltac:(lia) Hrest r Hr).
Qed.

(** X12.  Every record of a decoded scenery object subsection lies with its
    28 header bytes inside the buffer and has one of the fifteen registered
    ids in its header; ids below [0x0A] give records of the FS9 family and
    the others of the FSX family, and a record is a library object
    placement exactly when its id is [0x02] or [0x0B]. *)
Theorem X12_stream_records_match_their_ids (V : Values) (data : list byte) (off : Z)
    (h : subsections.BGLSubSectionHeader)
    (rs : list sceneryobject.SceneryObjectRecord) :
  0 <= off ->
  subsections.SceneryObject_parse data off
  = Ok {| subsections.header := h; subsections.records := subsections.SceneryObjectRecords rs |} ->
  forall r, In r rs ->
    sceneryobject.offset (sceneryobject.header r) + 28 <= len data
    /\ In (sceneryobject.id (sceneryobject.header r))
         [1; 2; 3; 4; 5; 7; 8; 10; 11; 12; 13; 14; 16; 17; 18]
    /\ sceneryobject.fam r
       = (if sceneryobject.id (sceneryobject.header r) <? 0x0A
          then sceneryobject.FS9 else sceneryobject.FSX)
    /\ classes.is_LibraryObjectRecord r
       = ((sceneryobject.id (sceneryobject.header r) =? 0x02)
          || (sceneryobject.id (sceneryobject.header r) =? 0x0B)).
Proof.
  intros Hoff H r Hr. unfold subsections.SceneryObject_parse in H.
  destruct (subsections.BGLStandardSubSectionHeader_parse data off) as [h0|] eqn:Hh;
    [|discriminate H].
  cbn [Py.bind] in H.
  destruct (subsections.SceneryObject_records _ _ _ _) as [rs0|] eqn:Hrs; [|discriminate H].
  cbn [Py.bind] in H. injection H as <- <-.
  destruct (BGLStandardSubSectionHeader_parse_ok data off h0 Hoff Hh) as (_ & _ & Hfirst).
  destruct (SceneryObject_records_dispatch V data _ _ _ _ Hfirst Hrs r Hr)
    as (_ & Hin & parse & Hreg & Hparse).
  split; [exact Hin|].
  apply (record_parse_kind V _ parse data _ r Hreg Hparse).
Qed.

(** X12, witness: the two records of the sample stream. *)
Lemma X12_stream_records_match_their_ids_witness :
  exists h r1 r2,
    subsections.SceneryObject_parse (V := samples.values) samples.two_record_stream 0
    = Ok {| subsections.header := h;
            subsections.records := subsections.SceneryObjectRecords [r1; r2] |}
    /\ sceneryobject.id (sceneryobject.header r1) = 2
    /\ classes.is_LibraryObjectRecord r1
       = ((sceneryobject.id (sceneryobject.header r1) =? 0x02)
          || (sceneryobject.id (sceneryobject.header r1) =? 0x0B))
    /\ sceneryobject.offset (sceneryobject.header r2) + 28 <= len samples.two_record_stream.
Proof.
  do 3 eexists.
  assert (Hp : subsections.SceneryObject_parse (V := samples.values)
                 samples.two_record_stream 0 = Ok _) by (vm_compute; reflexivity).
  split; [exact Hp|]. split; [reflexivity|].
  pose proof (X12_stream_records_match_their_ids samples.values
                samples.two_record_stream 0 _ _ ltac:(lia) Hp) as H.
  split.
  - apply (H _ (or_introl eq_refl)).
  - apply (H _ (or_intror (or_introl eq_refl))).
Defined.

(** X13.  When the two bytes at the start of the next record are none of
    the fifteen registered ids, the stream is not resynchronised: the loop
    raises the [Exception] that reports the id, the index of the record,
    the offset and the declared size. *)
Theorem X13_unknown_record_id_is_fatal (V : Values) (data : list byte) (cur : Z)
    (todo i : nat) :
  0 <= cur -> cur + 4 <= len data ->
  ~ In (le_uint (slice data cur (cur + 2)))
       [1; 2; 3; 4; 5; 7; 8; 10; 11; 12; 13; 14; 16; 17; 18] ->
  subsections.SceneryObject_records (S todo) i data cur
  = Err (Exception (UNKNOWN_scenery_object_type
                      (le_uint (slice data cur (cur + 2))) i cur
                      (le_uint (slice data (cur + 2) (cur + 4))))).
Proof.
  intros Hcur Hlen Hid. cbn [subsections.SceneryObject_records].
  rewrite (peek_record_inside V data cur Hcur Hlen). cbn [Py.bind].
  set (id := le_uint (slice data cur (cur + 2))) in *.
  assert (Hreg : sceneryobject.SCENERYOBJECTS_IDS id = None).
  { unfold sceneryobject.SCENERYOBJECTS_IDS.
    repeat match goal with
           | |- (if ?a =? ?b then _ else _) = None =>
               destruct (Z.eqb_spec a b) as [E|_];
               [exfalso; apply Hid; rewrite E; vm_compute; tauto|]
           end.
    reflexivity. }
  rewrite Hreg. reflexivity.
Qed.

(** X13, witness: a record that starts with the id [0x09]. *)
Lemma X13_unknown_record_id_is_fatal_witness :
  subsections.SceneryObject_records (V := samples.values) 1 0 [x09; x00; x1c; x00] 0
  = Err (Exception (UNKNOWN_scenery_object_type 9 0 0 28)).
Proof.
  apply (X13_unknown_record_id_is_fatal samples.values [x09; x00; x1c; x00] 0 0 0).
  - lia.
  - vm_compute. discriminate.
  - vm_compute. intuition discriminate.
Defined.

Lemma ModelData_records_true (data : list byte) (first : Z) :
  forall (todo : nat) (i : Z),
    exists rs, subsections.ModelData_records true todo i data first = Ok rs
      /\ (List.length rs <= todo)%nat.
Proof.
  induction todo as [|todo IH]; intros i.
  - exists []. split; [reflexivity|cbn; lia].
  - cbn [subsections.ModelData_records].
    destruct (IH (i + 1)) as (rs & Hrs & Hl). rewrite Hrs. cbn [Py.bind].
    destruct (modeldata.ModelDataRecord_parse data _) as [r|e].
    + exists (r :: rs). split; [reflexivity|cbn; lia].
    + exists rs. split; [reflexivity|lia].
Qed.

(** X14.  With [skip_invalid] set, a model data subsection whose header
    decodes always decodes: records that fail are left out, so the records
    list can be shorter than the declared number, never longer. *)
Theorem X14_model_data_best_effort (data : list byte) (off : Z)
    (h : subsections.BGLSubSectionHeader) :
  subsections.BGLStandardSubSectionHeader_parse data off = Ok h ->
  exists rs,
    subsections.ModelData_parse true data off
    = Ok {| subsections.header := h;
            subsections.records := subsections.ModelDataRecords true rs |}
    /\ (List.length rs <= Z.to_nat (subsections.records_number h))%nat.
Proof.
  intros Hh. unfold subsections.ModelData_parse. rewrite Hh. cbn [Py.bind].
  destruct (ModelData_records_true data (subsections.first_record_file_offset h)
              (Z.to_nat (subsections.records_number h)) 0) as (rs & -> & Hl).
  cbn [Py.bind]. eauto.
Qed.

(** X14, witness: a subsection header that declares 3 records at offset 16
    in a buffer that ends at offset 16. *)
Lemma X14_model_data_best_effort_witness :
  exists h rs,
    subsections.ModelData_parse true
      (repeat x00 4 ++ [x03; x00; x00; x00] ++ [x10; x00; x00; x00] ++ repeat x00 4) 0
    = Ok {| subsections.header := h;
            subsections.records := subsections.ModelDataRecords true rs |}
    /\ (List.length rs <= Z.to_nat (subsections.records_number h))%nat
    /\ subsections.records_number h = 3.
Proof.
  eexists.
  assert (Hh : subsections.BGLStandardSubSectionHeader_parse
                 (repeat x00 4 ++ [x03; x00; x00; x00] ++ [x10; x00; x00; x00]
                  ++ repeat x00 4) 0 = Ok _) by (vm_compute; reflexivity).
  destruct (X14_model_data_best_effort _ 0 _ Hh) as (rs & Hp & Hl).
  exists rs. split; [exact Hp|]. split; [exact Hl|reflexivity].
Defined.

(** X15.  When the fixed parts of all declared records lie inside the
    buffer, both policies decode the same records, as many as declared. *)
Theorem X15_model_data_policies_agree (data : list byte) (first : Z) (todo : nat)
    (i : Z) :
  0 <= first -> 0 <= i ->
  first + (i + Z.of_nat todo) * 24 <= len data ->
  exists rs,
    subsections.ModelData_records true todo i data first = Ok rs
    /\ subsections.ModelData_records false todo i data first = Ok rs
    /\ List.length rs = todo.
Proof.
  intros Hf. revert i. induction todo as [|todo IH]; intros i Hi Hlen.
  - exists []. repeat split.
  - cbn [subsections.ModelData_records].
    change (calcsize modeldata.ModelDataRecord_fmt) with 24.
    destruct (IH (i + 1) ltac:(lia) ltac:(lia)) as (rs & Ht & Hfa & Hl).
    rewrite Ht, Hfa. cbn [Py.bind].
    assert (Hr : exists r, modeldata.ModelDataRecord_parse data (first + i * 24) = Ok r).
    { unfold modeldata.ModelDataRecord_parse.
      assert (Hc : calcsize modeldata.ModelDataRecord_fmt = 24) by reflexivity.
      rewrite get_data_inside by nia. rewrite Hc, unpack_ModelDataRecord.
      cbn [Py.bind].
      destruct (UUID_bytes_le_ok (slice (slice data (first + i * 24)
                                           (first + i * 24 + 24)) 0 16)) as (u & ->).
      { rewrite slice_slice, len_slice_inside by nia. lia. }
      cbn [Py.bind]. eauto. }
    destruct Hr as (r & ->). exists (r :: rs). cbn. auto.
Qed.

(** X15, witness: the model record of the sample file. *)
Lemma X15_model_data_policies_agree_witness :
  exists rs,
    subsections.ModelData_records true 1 0 samples.small_file 258 = Ok rs
    /\ subsections.ModelData_records false 1 0 samples.small_file 258 = Ok rs
    /\ List.length rs = 1%nat.
Proof.
  apply (X15_model_data_policies_agree samples.small_file 258 1 0).
  - lia.
  - lia.
  - vm_compute. discriminate.
Defined.

(** * Further properties of fs_parse/bgl/records/sceneryobject.py *)

Lemma unpack_H (d : list byte) :
  unpack_from 0 (fmt "@H") d = [VInt (le_uint (slice d 0 2))].
Proof. reflexivity. Qed.

(** X16.  A library object placement followed by exactly one more byte
    cannot be decoded: the peek for the attached object tag takes a slice
    of one byte and unpacking it raises [struct.error]. *)
Theorem X16_placement_with_one_trailing_byte (V : Values) (fam : sceneryobject.family)
    (data : list byte) (off : Z) (h : sceneryobject.SceneryObjectHeader) :
  0 <= off ->
  sceneryobject.header_parse fam data off = Ok h ->
  len data = off + sceneryobject.header_total_size fam + 21 ->
  sceneryobject.LibraryObjectRecord_parse fam data off = Err struct_error.
Proof.
  intros Hoff Hh Hlen. pose proof (header_total_size_range fam) as Hts.
  unfold sceneryobject.LibraryObjectRecord_parse, sceneryobject.SceneryObjectRecord_parse.
  rewrite Hh. cbn [Py.bind].
  assert (Hc : calcsize sceneryobject.LibraryObject_fmt = 20) by reflexivity.
  rewrite get_data_inside by lia. cbn [Py.bind].
  destruct (LibraryObject_parse_inside data (off + sceneryobject.header_total_size fam))
    as (obj & ->); [lia|lia|].
  cbn [Py.bind]. rewrite Hc.
  set (a := off + sceneryobject.header_total_size fam + 20).
  assert (Hl : len (slice data a (a + 2)) = 1)
    by (rewrite len_slice by lia; lia).
  destruct (slice data a (a + 2)) as [|b l] eqn:Hs; [cbn in Hl; lia|].
  unfold unpack. rewrite Hl. reflexivity.
Qed.

(** X16, witness: the FS9 placement of 48 bytes and one more byte. *)
Lemma X16_placement_with_one_trailing_byte_witness :
  sceneryobject.LibraryObjectRecord_parse (V := samples.values) sceneryobject.FS9
    (samples.fs9_placement ++ [x00]) 0 = Err struct_error.
Proof.
  eapply (X16_placement_with_one_trailing_byte samples.values sceneryobject.FS9
            (samples.fs9_placement ++ [x00]) 0).
  - lia.
  - vm_compute. reflexivity.
  - vm_compute. reflexivity.
Defined.

(** X17.  When at least two bytes follow the object info block and they are
    not the attached object tag of the record's family, the placement
    decodes with no attached object, whatever else follows. *)
Theorem X17_placement_without_the_tag (V : Values) (fam : sceneryobject.family)
    (data : list byte) (off : Z) (h : sceneryobject.SceneryObjectHeader) :
  0 <= off ->
  sceneryobject.header_parse fam data off = Ok h ->
  off + sceneryobject.header_total_size fam + 22 <= len data ->
  le_uint (slice data (off + sceneryobject.header_total_size fam + 20)
                      (off + sceneryobject.header_total_size fam + 22))
  <> sceneryobject.attached_object_delimiter_id fam ->
  exists obj_info,
    sceneryobject.LibraryObjectRecord_parse fam data off
    = Ok {| sceneryobject.fam := fam;
            sceneryobject.header := h;
            sceneryobject.data_offset := off + sceneryobject.header_total_size fam;
            sceneryobject.body := sceneryobject.LibraryObjectRecord obj_info None |}.
Proof.
  intros Hoff Hh Hlen Hid. pose proof (header_total_size_range fam) as Hts.
  unfold sceneryobject.LibraryObjectRecord_parse, sceneryobject.SceneryObjectRecord_parse.
  rewrite Hh. cbn [Py.bind].
  assert (Hc : calcsize sceneryobject.LibraryObject_fmt = 20) by reflexivity.
  rewrite get_data_inside by lia. cbn [Py.bind].
  destruct (LibraryObject_parse_inside data (off + sceneryobject.header_total_size fam))
    as (obj & ->); [lia|lia|].
  cbn [Py.bind]. rewrite Hc. exists obj.
  set (a := off + sceneryobject.header_total_size fam + 20) in *.
  replace (off + sceneryobject.header_total_size fam + 22) with (a + 2) in * by lia.
  assert (Hl : len (slice data a (a + 2)) = 2)
    by (rewrite len_slice_inside by lia; lia).
  assert (Hu : unpack (fmt "@H") (slice data a (a + 2))
               = Ok [VInt (le_uint (slice data a (a + 2)))]).
  { unfold unpack. rewrite Hl. change (2 =? calcsize (fmt "@H")) with true.
    rewrite unpack_H, slice_slice by lia. rewrite Z.add_0_r. reflexivity. }
  destruct (slice data a (a + 2)) as [|b l] eqn:Hs; [cbn in Hl; lia|].
  rewrite Hu. cbn [Py.bind].
  destruct (Z.eqb_spec (le_uint (b :: l)) (sceneryobject.attached_object_delimiter_id fam))
    as [E|_]; [contradiction|].
  reflexivity.
Qed.

(** X17, witness: the FS9 placement followed by the FSX tag [0x1002]. *)
Lemma X17_placement_without_the_tag_witness :
  exists h obj_info,
    sceneryobject.LibraryObjectRecord_parse (V := samples.values) sceneryobject.FS9
      (samples.fs9_placement ++ [x02; x10]) 0
    = Ok {| sceneryobject.fam := sceneryobject.FS9;
            sceneryobject.header := h;
            sceneryobject.data_offset := 0 + sceneryobject.header_total_size sceneryobject.FS9;
            sceneryobject.body := sceneryobject.LibraryObjectRecord obj_info None |}.
Proof.
  eexists.
  apply (X17_placement_without_the_tag samples.values sceneryobject.FS9
           (samples.fs9_placement ++ [x02; x10]) 0).
  - lia.
  - vm_compute. reflexivity.
  - vm_compute. discriminate.
  - vm_compute. discriminate.
Defined.

(** X18.  An attached object whose payload type is neither a library
    object ([0x02], [0x0B]) nor a beacon ([0x08], [0x11]) is rejected with
    the [Exception] that reports the type, before the name and the closing
    delimiter are looked at. *)
Theorem X18_unknown_attached_object_type (V : Values) (fam : sceneryobject.family)
    (data : list byte) (off : Z) (fields : list val) (oti : Z) :
  get_data
    match fam with
    | sceneryobject.FS9 => sceneryobject.FS9AttachedObjectData_fmt
    | sceneryobject.FSX => sceneryobject.FSXAttachedObjectData_fmt
    end data off = Ok fields ->
  nth_error fields 2 = Some (VInt oti) ->
  ~ In oti [0x02; 0x0B; 0x08; 0x11] ->
  sceneryobject.attached_object_class_parse fam data off
  = Err (Exception (Unknown_attached_object_type oti)).
Proof.
  intros Hget H2 Hid.
  assert (Hpay : forall o, sceneryobject.attached_payload_parse data o oti
                           = Err (Exception (Unknown_attached_object_type oti))).
  { intros o. unfold sceneryobject.attached_payload_parse. cbn [existsb].
    unfold sceneryobject.FS9_LIB_OBJ, sceneryobject.FSX_LIB_OBJ,
      sceneryobject.FS9_BEACON, sceneryobject.FSX_BEACON.
    repeat match goal with
           | |- context [oti =? ?c] =>
               destruct (Z.eqb_spec oti c) as [E|_];
               [exfalso; apply Hid; rewrite E; vm_compute; tauto|]
           end.
    reflexivity. }
  destruct fam; cbn [sceneryobject.attached_object_class_parse].
  - destruct (get_data_ok _ _ _ _ Hget) as (Hlen & Hf).
    rewrite unpack_FS9AttachedObjectData in Hf. subst fields.
    cbn [nth_error] in H2. injection H2 as H2.
    unfold sceneryobject.FS9AttachedObjectData_parse.
    rewrite Hget. cbn [Py.bind]. rewrite H2, Hpay. reflexivity.
  - destruct (get_data_ok _ _ _ _ Hget) as (Hlen & Hf).
    rewrite unpack_FSXAttachedObjectData in Hf. subst fields.
    cbn [nth_error] in H2. injection H2 as H2.
    unfold sceneryobject.FSXAttachedObjectData_parse.
    rewrite Hget. cbn [Py.bind].
    assert (Hc : calcsize sceneryobject.FSXAttachedObjectData_fmt = 48) by reflexivity.
    rewrite Hc in *.
    destruct (UUID_bytes_le_ok (slice (slice data off (off + 48)) 28 44)) as (u & ->).
    { pose proof (len_slice (slice data off (off + 48)) 28 44 ltac:(lia)) as Hl.
      rewrite Hlen in Hl. rewrite Hl. reflexivity. }
    cbn [Py.bind]. rewrite H2, Hpay. reflexivity.
Qed.

(** X18, witness: an FS9 attached object with payload type [0x03]. *)
Lemma X18_unknown_attached_object_type_witness :
  sceneryobject.attached_object_class_parse (V := samples.values) sceneryobject.FS9
    ([x00; x10; x04; x00; x03; x00] ++ repeat x00 22) 0
  = Err (Exception (Unknown_attached_object_type 3)).
Proof.
  eapply (X18_unknown_attached_object_type samples.values sceneryobject.FS9
            ([x00; x10; x04; x00; x03; x00] ++ repeat x00 22) 0).
  - vm_compute. reflexivity.
  - reflexivity.
  - vm_compute. intuition discriminate.
Defined.

Lemma taxiway_sign_items_ok (V : Values) (anchor_lon anchor_lat : Z) (data : list byte) :
  forall (count : nat) (cur : Z) (items : list sceneryobject.TaxiwaySignDataItem),
    sceneryobject.taxiway_sign_items count anchor_lon anchor_lat data cur = Ok items ->
    List.length items = count
    /\ forall item, In item items ->
         sceneryobject.TaxiwaySignDataItem_total_size item mod 2 = 0
         /\ 14 <= sceneryobject.TaxiwaySignDataItem_total_size item.
Proof.
  induction count as [|count IH]; intros cur items H.
  - cbn in H. injection H as <-. split; [reflexivity|intros item []].
  - cbn [sceneryobject.taxiway_sign_items] in H.
    destruct (sceneryobject.TaxiwaySignDataItem_parse _ _ data cur) as [item0|] eqn:Hi;
      [|discriminate H].
    cbn [Py.bind] in H.
    destruct (sceneryobject.taxiway_sign_items count _ _ data _) as [rest|] eqn:Hrest;
      [|discriminate H].
    cbn [Py.bind] in H. injection H as <-.
    destruct (IH _ rest Hrest) as (Hl & Hall).
    split; [cbn; congruence|].
    intros item [<-|Hin]; [|apply Hall, Hin].
    unfold sceneryobject.TaxiwaySignDataItem_parse in Hi.
    destruct (get_data _ _ _) as [fields|]; [|discriminate Hi].
    cbn [Py.bind] in Hi.
    destruct fields as [|[|lo|] [|[|la|] [|[hd| |] [|[ts| |] [|[ju| |] [|]]]]]];
      try discriminate Hi.
    destruct (taxiway_sign_position _ _ _ _) as [[lon lat]|]; [|discriminate Hi].
    cbn [Py.bind] in Hi.
    destruct (IntEnum _ _) as [j|]; [|discriminate Hi].
    cbn [Py.bind] in Hi.
    destruct (utils.read_stringz_word_aligned _) as [[n text]|] eqn:Hr; [|discriminate Hi].
    cbn [Py.bind] in Hi. injection Hi as <-.
    apply read_stringz_word_aligned_ok in Hr as (Heven & Hn & _).
    unfold sceneryobject.TaxiwaySignDataItem_total_size.
    cbn [sceneryobject.label_raw_size].
    change (calcsize sceneryobject.TaxiwaySignDataItem_fmt) with 12.
    split; [Z.div_mod_to_equations; lia|lia].
Qed.

(** X19.  A decoded taxiway sign record holds as many signs as its count
    field says, and every sign takes an even number of bytes, at least 14:
    the 12 fixed bytes and a label padded to an even length. *)
Theorem X19_taxiway_sign_items (V : Values) (fam : sceneryobject.family)
    (data : list byte) (off : Z) (r : sceneryobject.SceneryObjectRecord) :
  sceneryobject.TaxiwaySign_parse fam data off = Ok r ->
  exists count items,
    sceneryobject.body r = sceneryobject.TaxiwaySign count items
    /\ List.length items = Z.to_nat count
    /\ forall item, In item items ->
         sceneryobject.TaxiwaySignDataItem_total_size item mod 2 = 0
         /\ 14 <= sceneryobject.TaxiwaySignDataItem_total_size item.
Proof.
  intros H. unfold sceneryobject.TaxiwaySign_parse in H.
  destruct (sceneryobject.SceneryObjectRecord_parse fam data off) as [[h d]|];
    [|discriminate H].
  cbn [Py.bind] in H.
  destruct (get_data _ _ _) as [fields|]; [|discriminate H].
  cbn [Py.bind] in H.
  destruct fields as [|[count| |] [|]]; try discriminate H.
  destruct (sceneryobject.taxiway_sign_items _ _ _ _ _) as [items|] eqn:Hi;
    [|discriminate H].
  cbn [Py.bind] in H. injection H as <-. cbn [sceneryobject.body].
  exists count, items. split; [reflexivity|].
  apply (taxiway_sign_items_ok V _ _ data _ _ items Hi).
Qed.

(** X19, witness: the record with the one sign ["A"]. *)
Lemma X19_taxiway_sign_items_witness :
  exists r count items,
    sceneryobject.TaxiwaySign_parse (V := samples.values) sceneryobject.FS9
      samples.fs9_taxiway_sign 0 = Ok r
    /\ sceneryobject.body r = sceneryobject.TaxiwaySign count items
    /\ List.length items = Z.to_nat count
    /\ count = 1
    /\ forall item, In item items ->
         sceneryobject.TaxiwaySignDataItem_total_size item mod 2 = 0
         /\ 14 <= sceneryobject.TaxiwaySignDataItem_total_size item.
Proof.
  assert (Hp : exists r,
             sceneryobject.TaxiwaySign_parse (V := samples.values) sceneryobject.FS9
               samples.fs9_taxiway_sign 0 = Ok r
             /\ (forall c c' i i', sceneryobject.body r = sceneryobject.TaxiwaySign c i ->
                   sceneryobject.body r = sceneryobject.TaxiwaySign c' i' -> c = 1)).
  { eexists. split; [vm_compute; reflexivity|].
    cbn. intros c c' i i' E _. injection E as <- _. reflexivity. }
  destruct Hp as (r & Hr & Hone).
  destruct (X19_taxiway_sign_items samples.values sceneryobject.FS9
              samples.fs9_taxiway_sign 0 r Hr) as (count & items & Hb & Hl & Hall).
  exists r, count, items. split; [exact Hr|]. split; [exact Hb|].
  split; [exact Hl|]. split; [apply (Hone count count items items Hb Hb)|exact Hall].
Defined.

(** X20.  An effect record whose name slot of 80 bytes holds no zero byte
    cannot be decoded: reading the name runs off the end of the slot and
    raises [IndexError]. *)
Theorem X20_effect_name_needs_a_terminator (V : Values) (fam : sceneryobject.family)
    (data : list byte) (off : Z) (h : sceneryobject.SceneryObjectHeader) :
  0 <= off ->
  sceneryobject.header_parse fam data off = Ok h ->
  off + sceneryobject.header_total_size fam + 80 <= len data ->
  (forall b,
      In b (slice data (off + sceneryobject.header_total_size fam)
                       (off + sceneryobject.header_total_size fam + 80)) ->
      byte_val b <> 0) ->
  sceneryobject.EffectPlacement_parse fam data off = Err IndexError.
Proof.
  intros Hoff Hh Hlen Hnz. pose proof (header_total_size_range fam) as Hts.
  unfold sceneryobject.EffectPlacement_parse, sceneryobject.SceneryObjectRecord_parse.
  rewrite Hh. cbn [Py.bind].
  assert (Hc : calcsize sceneryobject.FSXEffectPlacement_fmt = 80) by reflexivity.
  rewrite get_data_inside by lia. rewrite Hc. cbn [Py.bind].
  change (unpack_from 0 sceneryobject.FSXEffectPlacement_fmt
            (slice data (off + sceneryobject.header_total_size fam)
               (off + sceneryobject.header_total_size fam + 80)))
    with [VBytes (slice (slice data (off + sceneryobject.header_total_size fam)
                           (off + sceneryobject.header_total_size fam + 80)) 0 80)].
  rewrite slice_slice by lia. rewrite Z.add_0_r.
  unfold utils.read_stringz_word_aligned.
  rewrite <- (app_nil_r (slice data _ _)).
  rewrite read_stringz_word_aligned_loop_prefix by exact Hnz.
  reflexivity.
Qed.

(** X20, witness: an FS9 effect record with 80 letters in the name slot. *)
Lemma X20_effect_name_needs_a_terminator_witness :
  sceneryobject.EffectPlacement_parse (V := samples.values) sceneryobject.FS9
    samples.fs9_effect_unterminated 0 = Err IndexError.
Proof.
  eapply (X20_effect_name_needs_a_terminator samples.values sceneryobject.FS9
            samples.fs9_effect_unterminated 0).
  - lia.
  - vm_compute. reflexivity.
  - vm_compute. discriminate.
  - intros b Hb. vm_compute in Hb.
    repeat (destruct Hb as [<-|Hb]; [vm_compute; discriminate|]).
    destruct Hb.
Defined.

(** * Further properties of fs_parse/mdl *)

(** The loop of the item decoders: it stops after as many rounds as items
    of [stride] bytes are needed to reach [stop], and item [j] is decoded
    at [j] strides from the start. *)
Lemma items_while_ok {A : Type} (parse_item : list byte -> Z -> result A)
    (stride : Z) (data : list byte) (stop : Z) :
  0 < stride ->
  forall (n : nat) (cur : Z) (acc : list A) (res : Z * list A),
    stop - cur <= Z.of_nat n ->
    while n (fun '(current_offset, _) => current_offset <? stop)
      (fun '(current_offset, items) =>
         item <- parse_item data current_offset ;;
         Ok (current_offset + stride, items ++ [item])) (cur, acc) = Ok res ->
    exists l,
      snd res = acc ++ l
      /\ len l = Z.max 0 ((stop - cur + stride - 1) / stride)
      /\ forall (j : nat) (x : A),
           nth_error l j = Some x -> parse_item data (cur + Z.of_nat j * stride) = Ok x.
Proof.
  intros Hs. induction n as [|n IH]; intros cur acc res Hn H.
  - cbn in H. injection H as <-. exists []. cbn [snd].
    split; [now rewrite app_nil_r|]. split.
    + assert ((stop - cur + stride - 1) / stride <= 0); [|unfold len; cbn; lia].
      apply Z.lt_succ_r, Z.div_lt_upper_bound; lia.
    + intros j x Hj. destruct j; discriminate Hj.
  - cbn [while] in H. destruct (Z.ltb_spec cur stop) as [Hlt|Hge].
    + destruct (parse_item data cur) as [x0|] eqn:Hx; [|discriminate H].
      cbn [Py.bind] in H.
      apply IH in H as (l & Hl & Hcount & Hitems); [|lia].
      exists (x0 :: l). split; [rewrite Hl, <- app_assoc; reflexivity|]. split.
      * rewrite len_cons, Hcount.
        replace (stop - cur + stride - 1) with (stop - (cur + stride) + stride - 1 + 1 * stride)
          by lia.
        rewrite Z.div_add by lia.
        assert (0 <= (stop - (cur + stride) + stride - 1) / stride)
          by (apply Z.div_pos; lia).
        lia.
      * intros j x Hj. destruct j as [|j].
        -- cbn in Hj. injection Hj as <-. rewrite Z.add_0_r. exact Hx.
        -- cbn [nth_error] in Hj. apply Hitems in Hj.
           rewrite <- Hj. f_equal. lia.
    + injection H as <-. exists []. cbn [snd].
      split; [now rewrite app_nil_r|]. split.
      * assert ((stop - cur + stride - 1) / stride <= 0); [|unfold len; cbn; lia].
        apply Z.lt_succ_r, Z.div_lt_upper_bound; lia.
      * intros j x Hj. destruct j; discriminate Hj.
Qed.

Lemma items_loop_ok {A : Type} (parse_item : list byte -> Z -> result A)
    (stride : Z) (h : mdl_classes.RIFFSectionHeader) (data : list byte) (off : Z)
    (l : list A) :
  0 < stride ->
  mdld_classes.items_loop parse_item stride h data off = Ok l ->
  len l = Z.max 0 ((mdl_classes.data_size h + stride - 1) / stride)
  /\ forall (j : nat) (x : A),
       nth_error l j = Some x -> parse_item data (off + Z.of_nat j * stride) = Ok x.
Proof.
  intros Hs H. unfold mdld_classes.items_loop in H.
  match type of H with
  | Py.bind ?c _ = Ok _ => destruct c as [[cur' items]|] eqn:Hw; [|discriminate H]
  end.
  cbn [Py.bind] in H. injection H as <-.
  apply (items_while_ok parse_item stride data _ Hs) in Hw as (l & Hl & Hc & Hi); [|lia].
  cbn [snd app] in Hl. subst items.
  replace (off + mdl_classes.data_size h - off + stride - 1)
    with (mdl_classes.data_size h + stride - 1) in Hc by lia.
  auto.
Qed.

(** X21.  A decoded triangle, texture name, material, matrix or animation
    map chunk holds as many items as strides (6, 64, 120, 64, 8 bytes) are
    needed to cover its declared length, rounded up: a length that is not a
    multiple of the stride makes the last item reach beyond the declared
    end of the chunk.  Triangle [j] is the three [H] at [j * 6] bytes from
    the start of the payload.  The other chunks are left as created. *)
Theorem X21_chunk_item_counts (t : mdld_classes.tag) (section s : mdld_classes.MDLSection)
    (data : list byte) (off : Z) :
  mdld_classes.section_parse t section data off = Ok s ->
  match t with
  | mdld_classes.INDE =>
      exists l, mdld_classes.stored s = mdld_classes.triangles l
        /\ len l
           = Z.max 0 ((mdl_classes.data_size (mdld_classes.header section) + 5) / 6)
        /\ forall (j : nat) x, nth_error l j = Some x ->
             mdld_classes.triangle_parse data (off + Z.of_nat j * 6) = Ok x
  | mdld_classes.TEXT =>
      exists l, mdld_classes.stored s = mdld_classes.texture_names l
        /\ len l
           = Z.max 0 ((mdl_classes.data_size (mdld_classes.header section) + 63) / 64)
  | mdld_classes.MATE =>
      exists l, mdld_classes.stored s = mdld_classes.material_items l
        /\ len l
           = Z.max 0 ((mdl_classes.data_size (mdld_classes.header section) + 119) / 120)
  | mdld_classes.TRAN =>
      exists l, mdld_classes.stored s = mdld_classes.matrices l
        /\ len l
           = Z.max 0 ((mdl_classes.data_size (mdld_classes.header section) + 63) / 64)
  | mdld_classes.AMAP =>
      exists l, mdld_classes.stored s = mdld_classes.animation_items l
        /\ len l
           = Z.max 0 ((mdl_classes.data_size (mdld_classes.header section) + 7) / 8)
  | _ => s = section
  end.
Proof.
  intros H. unfold mdld_classes.section_parse in H.
  destruct t; try (injection H as <-; reflexivity).
  all: match type of H with
       | Py.bind ?c _ = Ok _ => destruct c as [l|] eqn:Hl; [|discriminate H]
       end;
       cbn [Py.bind] in H; injection H as <-; cbn [mdld_classes.stored];
       exists l; (split; [reflexivity|]);
       apply items_loop_ok in Hl; [|vm_compute; reflexivity];
       destruct Hl as [Hc Hi].
  - change mdld_classes.texture_size with 64 in Hc.
    rewrite Hc. f_equal. f_equal. lia.
  - change (calcsize mdld_classes.MaterialItem_fmt) with 120 in Hc.
    rewrite Hc. f_equal. f_equal. lia.
  - change (calcsize (fmt "3H")) with 6 in Hc, Hi.
    split; [rewrite Hc; f_equal; f_equal; lia|exact Hi].
  - change (calcsize (fmt "16f")) with 64 in Hc.
    rewrite Hc. f_equal. f_equal. lia.
  - change (calcsize mdld_classes.AnimationItem_fmt) with 8 in Hc.
    rewrite Hc. f_equal. f_equal. lia.
Qed.

(** X21, witness: a triangle chunk of declared length 7 in a buffer of 12
    bytes decodes to two triangles. *)
Lemma X21_chunk_item_counts_witness :
  exists s l,
    mdld_classes.section_parse mdld_classes.INDE
      (mdld_classes.new_section mdld_classes.INDE
         {| mdl_classes.type_id := "INDE"; mdl_classes.data_size := 7 |})
      (repeat x01 12) 0 = Ok s
    /\ mdld_classes.stored s = mdld_classes.triangles l
    /\ len l = 2.
Proof.
  eexists.
  assert (Hp : mdld_classes.section_parse mdld_classes.INDE
                 (mdld_classes.new_section mdld_classes.INDE
                    {| mdl_classes.type_id := "INDE"; mdl_classes.data_size := 7 |})
                 (repeat x01 12) 0 = Ok _) by (vm_compute; reflexivity).
  destruct (X21_chunk_item_counts mdld_classes.INDE _ _ _ 0 Hp) as (l & Hst & Hc & _).
  exists l. split; [exact Hp|]. split; [exact Hst|exact Hc].
Defined.

(** X22.  A data chunk whose first inner chunk has a tag that is not one of
    the nineteen known ones is rejected, in either mode, with the
    [Exception] that reports the tag and the offset behind the 8 header
    bytes. *)
Theorem X22_unknown_inner_chunk (header h : mdl_classes.RIFFSectionHeader)
    (metadata_only : bool) (data : list byte) (off : Z) :
  0 < mdl_classes.data_size header ->
  mdl_classes.RIFFSectionHeader_parse data off = Ok h ->
  mdld_classes.section_types (mdl_classes.type_id h) = None ->
  mdld_classes.MDLDSection_parse header metadata_only data off
  = Err (Exception (Unknown_section (mdl_classes.type_id h) (off + 8))).
Proof.
  intros Hsize Hh Ht. unfold mdld_classes.MDLDSection_parse.
  destruct (Z.to_nat (mdl_classes.data_size header)) as [|n] eqn:Hn; [lia|].
  cbn [while].
  destruct (Z.ltb_spec off (off + mdl_classes.data_size header)) as [_|]; [|lia].
  unfold mdld_classes.MDLDSection_round. rewrite Hh. cbn [Py.bind]. rewrite Ht.
  reflexivity.
Qed.

(** X22, witness: a data chunk that starts with a chunk tagged ["XXXX"]. *)
Lemma X22_unknown_inner_chunk_witness :
  mdld_classes.MDLDSection_parse
    {| mdl_classes.type_id := "MDLD"; mdl_classes.data_size := 8 |} true
    ([x58; x58; x58; x58] ++ repeat x00 4) 0
  = Err (Exception (Unknown_section "XXXX" (0 + 8))).
Proof.
  apply (X22_unknown_inner_chunk
           {| mdl_classes.type_id := "MDLD"; mdl_classes.data_size := 8 |}
           {| mdl_classes.type_id := "XXXX"; mdl_classes.data_size := 0 |}
           true ([x58; x58; x58; x58] ++ repeat x00 4) 0).
  - cbn. lia.
  - vm_compute. reflexivity.
  - reflexivity.
Defined.

(** X23.  When the four bytes at the start of the RIFF section are valid
    UTF-8 but not ["MDLX"], decoding stops with
    [UnsupportedMDLVersionException] carrying those four characters,
    whatever the declared size and whatever follows: no chunk is read. *)
Theorem X23_unsupported_version (header : mdl_classes.RIFFSectionHeader)
    (metadata_only : bool) (data : list byte) (off : Z) :
  0 <= off -> off + 4 <= len data ->
  utf8_valid (slice data off (off + 4)) = true ->
  string_of_list_byte (slice data off (off + 4)) <> "MDLX"%string ->
  main_classes.RIFFSection_parse header metadata_only data off
  = main_classes.Raise
      (main_classes.UnsupportedMDLVersionException
         (string_of_list_byte (slice data off (off + 4)))).
Proof.
  intros Hoff Hlen Hutf Hne. unfold main_classes.RIFFSection_parse.
  assert (Hc : calcsize (fmt "4s") = 4) by reflexivity.
  rewrite get_data_inside by lia. rewrite Hc.
  cbn [main_classes.lift main_classes.obind].
  change (unpack_from 0 (fmt "4s") (slice data off (off + 4)))
    with [VBytes (slice (slice data off (off + 4)) 0 4)].
  rewrite slice_slice by lia. rewrite Z.add_0_r.
  unfold decode_utf8. rewrite Hutf. cbn [main_classes.lift main_classes.obind].
  destruct (String.eqb_spec (string_of_list_byte (slice data off (off + 4))) "MDLX")
    as [E|_]; [contradiction|].
  reflexivity.
Qed.

(** X23, witness: a section that starts with ["MDL9"]. *)
Lemma X23_unsupported_version_witness :
  main_classes.RIFFSection_parse
    {| mdl_classes.type_id := "RIFF"; mdl_classes.data_size := 100 |} false
    [x4d; x44; x4c; x39] 0
  = main_classes.Raise (main_classes.UnsupportedMDLVersionException "MDL9").
Proof.
  apply (X23_unsupported_version
           {| mdl_classes.type_id := "RIFF"; mdl_classes.data_size := 100 |} false
           [x4d; x44; x4c; x39] 0).
  - lia.
  - vm_compute. discriminate.
  - reflexivity.
  - vm_compute. discriminate.
Defined.

(** X24.  The friendly name chunk yields the ASCII text before the first
    zero byte of the bytes behind its offset; when that text is empty the
    chunk cannot be decoded, because [StringZ.size] raises on an empty
    string. *)
Theorem X24_friendly_name (h : mdl_classes.RIFFSectionHeader) (data : list byte)
    (off : Z) (pre rest : list byte) :
  slice_from data off = pre ++ x00 :: rest ->
  (forall b, In b pre -> byte_val b <> 0) ->
  forallb is_ascii pre = true ->
  main_classes.section_parse main_classes.MDLN h data off
  = match pre with
    | [] => main_classes.Raise main_classes.You_must_call_parse_before_accessing_its_size
    | _ => main_classes.Return
             {| main_classes.header := h;
                main_classes.stored := main_classes.mdln (string_of_list_byte pre) |}
    end.
Proof.
  intros Hs Hnz Hascii.
  unfold main_classes.section_parse, main_classes.StringZ_parse.
  rewrite Hs, read_stringz_terminated by assumption.
  cbn [main_classes.lift main_classes.obind].
  destruct pre as [|b pre]; reflexivity.
Qed.

(** X24, witness: an empty friendly name. *)
Lemma X24_friendly_name_witness :
  main_classes.section_parse main_classes.MDLN
    {| mdl_classes.type_id := "MDLN"; mdl_classes.data_size := 2 |} [x00; x00] 0
  = main_classes.Raise main_classes.You_must_call_parse_before_accessing_its_size.
Proof.
  apply (X24_friendly_name
           {| mdl_classes.type_id := "MDLN"; mdl_classes.data_size := 2 |}
           [x00; x00] 0 [] [x00]).
  - reflexivity.
  - intros b [].
  - reflexivity.
Defined.

(** The data chunk decoded in metadata-only mode is the view of the full
    decode. *)
Lemma MDLDSection_parse_view (header : mdl_classes.RIFFSectionHeader)
    (data : list byte) (off : Z) (full : mdld_classes.MDLDSection) :
  mdld_classes.MDLDSection_parse header false data off = Ok full ->
  exists meta,
    mdld_classes.MDLDSection_parse header true data off = Ok meta
    /\ forall t, meta t = views.metadata_view full t.
Proof.
  intros H. unfold mdld_classes.MDLDSection_parse in *.
  match type of H with
  | Py.bind ?c _ = Ok _ => destruct c as [[cur' full']|] eqn:Hw; [|discriminate H]
  end.
  cbn [Py.bind] in H. injection H as <-.
  assert (Hinit : forall t, mdld_classes.MDLDSection_init t
                            = views.metadata_view mdld_classes.MDLDSection_init t).
  { intros t. unfold views.metadata_view. destruct (views.excluded t); reflexivity. }
  destruct (MDLDSection_while_view data _ _ _ _ mdld_classes.MDLDSection_init full'
              mdld_classes.MDLDSection_init Hinit Hw) as (meta & -> & Hview).
  cbn [Py.bind]. exists meta. split; [reflexivity|exact Hview].
Qed.

(** A round of the top level advances by the 8 header bytes and the
    declared length of the chunk. *)
Lemma RIFFSection_round_offset (metadata_only : bool) (data : list byte) (cur cur' : Z)
    (self self' : main_classes.RIFFSection) :
  main_classes.RIFFSection_round metadata_only data (cur, self)
  = main_classes.Return (cur', self') ->
  exists h, mdl_classes.RIFFSectionHeader_parse data cur = Ok h
    /\ cur' = cur + 8 + mdl_classes.data_size h.
Proof.
  unfold main_classes.RIFFSection_round. intros H.
  destruct (mdl_classes.RIFFSectionHeader_parse data cur) as [h|]; [|discriminate H].
  cbn [main_classes.lift main_classes.obind] in H. exists h. split; [reflexivity|].
  destruct (main_classes.section_types _) as [t|].
  - destruct (main_classes.section_parse t h data (cur + 8)) as [sec|]; [|discriminate H].
    cbn [main_classes.obind] in H. injection H as <- _. reflexivity.
  - destruct (String.eqb _ _); [|discriminate H].
    destruct (mdld_classes.MDLDSection_parse h metadata_only data (cur + 8)) as [sec|];
      [|discriminate H].
    cbn [main_classes.lift main_classes.obind] in H. injection H as <- _. reflexivity.
Qed.

(** The bound on the rounds of the top-level loop is never what ends it. *)
Lemma RIFFSection_parse_rounds (metadata_only : bool) (data : list byte) (stop : Z) :
  forall (n m : nat) (st : Z * main_classes.RIFFSection),
    stop - fst st <= Z.of_nat n -> stop - fst st <= Z.of_nat m ->
    main_classes.owhile n (fun '(current_offset, _) => current_offset <? stop)
      (main_classes.RIFFSection_round metadata_only data) st
    = main_classes.owhile m (fun '(current_offset, _) => current_offset <? stop)
        (main_classes.RIFFSection_round metadata_only data) st.
Proof.
  induction n as [|n IH]; intros m [cur self] Hn Hm; cbn [fst] in *.
  - destruct m; cbn [main_classes.owhile]; [reflexivity|].
    destruct (Z.ltb_spec cur stop); [lia|reflexivity].
  - destruct m; cbn [main_classes.owhile].
    + destruct (Z.ltb_spec cur stop); [lia|reflexivity].
    + destruct (Z.ltb_spec cur stop); [|reflexivity].
      destruct (main_classes.RIFFSection_round metadata_only data (cur, self))
        as [[cur' self']|] eqn:Hr; [|reflexivity].
      apply RIFFSection_round_offset in Hr as (h & Hh & ->).
      apply RIFFSectionHeader_parse_ok in Hh.
      apply IH; cbn [fst]; lia.
Qed.

(** One round of the top level in metadata-only mode follows the round of
    the full decode. *)
Lemma RIFFSection_round_view (data : list byte) (cur cur' : Z)
    (full full' meta : main_classes.RIFFSection) :
  views.file_view full meta ->
  main_classes.RIFFSection_round false data (cur, full)
  = main_classes.Return (cur', full') ->
  exists meta',
    main_classes.RIFFSection_round true data (cur, meta)
    = main_classes.Return (cur', meta')
    /\ views.file_view full' meta'.
Proof.
  intros (Hv & Ha & Hm) H. unfold main_classes.RIFFSection_round in *.
  destruct (mdl_classes.RIFFSectionHeader_parse data cur) as [h|]; [|discriminate H].
  cbn [main_classes.lift main_classes.obind] in *.
  destruct (main_classes.section_types _) as [t|].
  - destruct (main_classes.section_parse t h data (cur + 8)) as [sec|]; [|discriminate H].
    cbn [main_classes.obind] in *. injection H as <- <-.
    eexists. split; [reflexivity|].
    unfold views.file_view, main_classes.setattr.
    cbn [main_classes.version_string main_classes.attrs main_classes.mdld].
    split; [exact Hv|]. split; [|exact Hm].
    intros t'. destruct (main_classes.tag_eqb t' t); [reflexivity|apply Ha].
  - destruct (String.eqb _ _); [|discriminate H].
    destruct (mdld_classes.MDLDSection_parse h false data (cur + 8)) as [f|] eqn:Hf;
      [|discriminate H].
    cbn [main_classes.lift main_classes.obind] in H. injection H as <- <-.
    destruct (MDLDSection_parse_view h data (cur + 8) f Hf) as (m & -> & Hview).
    cbn [main_classes.lift main_classes.obind].
    eexists. split; [reflexivity|].
    unfold views.file_view.
    cbn [main_classes.version_string main_classes.attrs main_classes.mdld].
    split; [exact Hv|]. split; [exact Ha|exact Hview].
Qed.

Lemma RIFFSection_while_view (data : list byte) (stop : Z) :
  forall (n : nat) (cur cur' : Z) (full full' meta : main_classes.RIFFSection),
    views.file_view full meta ->
    main_classes.owhile n (fun '(current_offset, _) => current_offset <? stop)
      (main_classes.RIFFSection_round false data) (cur, full)
    = main_classes.Return (cur', full') ->
    exists meta',
      main_classes.owhile n (fun '(current_offset, _) => current_offset <? stop)
        (main_classes.RIFFSection_round true data) (cur, meta)
      = main_classes.Return (cur', meta')
      /\ views.file_view full' meta'.
Proof.
  induction n as [|n IH]; intros cur cur' full full' meta Hview H.
  - cbn [main_classes.owhile] in *. injection H as <- <-. eauto.
  - cbn [main_classes.owhile] in *.
    destruct (cur <? stop); [|injection H as <- <-; eauto].
    destruct (main_classes.RIFFSection_round false data (cur, full))
      as [[c1 f1]|] eqn:Hr; [|discriminate H].
    destruct (RIFFSection_round_view data cur c1 full f1 meta Hview Hr)
      as (m1 & -> & Hv1).
    apply (IH c1 cur' f1 full' m1 Hv1 H).
Qed.

Lemma file_view_texture_names (full meta : main_classes.RIFFSection) :
  views.file_view full meta ->
  main_classes.get_texture_names meta = main_classes.get_texture_names full.
Proof.
  intros (_ & _ & Hm). unfold main_classes.get_texture_names.
  destruct (main_classes.mdld full) as [f|], (main_classes.mdld meta) as [m|];
    try contradiction; [|reflexivity].
  rewrite Hm. reflexivity.
Qed.

(** X25.  A file that decodes in full also decodes in metadata-only mode,
    and the cheaper decode gives the same version string, the same
    sections of the top level and the same list from [get_texture_names]:
    leaving out the INDE, VERB, TRAN and ANIB payloads loses no texture
    name. *)
Theorem X25_texture_names_in_both_modes (data : list byte)
    (full : main_classes.RIFFSection) :
  main_classes.MDLFile_parse false data = main_classes.Return full ->
  exists meta,
    main_classes.MDLFile_parse true data = main_classes.Return meta
    /\ main_classes.version_string meta = main_classes.version_string full
    /\ (forall t, main_classes.attrs meta t = main_classes.attrs full t)
    /\ main_classes.get_texture_names meta = main_classes.get_texture_names full.
Proof.
  unfold main_classes.MDLFile_parse, main_classes.RIFFSection_parse. intros H.
  destruct (mdl_classes.RIFFSectionHeader_parse data 0) as [h|]; [|discriminate H].
  cbn [main_classes.lift main_classes.obind] in *.
  destruct (get_data (fmt "4s") data _) as [fields|]; [|discriminate H].
  cbn [main_classes.lift main_classes.obind] in *.
  destruct fields as [|[?|?|v] [|? ?]]; try discriminate H.
  destruct (decode_utf8 v) as [vs|]; [|discriminate H].
  cbn [main_classes.lift main_classes.obind] in *.
  destruct (negb (String.eqb vs "MDLX")); [discriminate H|].
  match type of H with
  | main_classes.obind ?c _ = _ => destruct c as [[cur' full']|] eqn:Hw; [|discriminate H]
  end.
  cbn [main_classes.obind] in H. injection H as <-.
  match type of Hw with
  | main_classes.owhile _ _ _ (_, ?init) = _ =>
      assert (Hinit : views.file_view init init)
        by (unfold views.file_view; cbn; auto)
  end.
  destruct (RIFFSection_while_view data _ _ _ _ _ _ _ Hinit Hw) as (meta & -> & Hview).
  cbn [main_classes.obind]. exists meta. split; [reflexivity|].
  split; [apply Hview|]. split; [apply Hview|].
  apply file_view_texture_names, Hview.
Qed.

(** X25, witness: a file with a triangle chunk and the texture name
    ["A.BMP"]. *)
Lemma X25_texture_names_in_both_modes_witness :
  exists full meta,
    main_classes.MDLFile_parse false samples.small_mdl = main_classes.Return full
    /\ main_classes.MDLFile_parse true samples.small_mdl = main_classes.Return meta
    /\ main_classes.get_texture_names full = ["A.BMP"%string]
    /\ main_classes.get_texture_names meta = main_classes.get_texture_names full.
Proof.
  eexists.
  assert (Hp : main_classes.MDLFile_parse false samples.small_mdl = main_classes.Return _)
    by (vm_compute; reflexivity).
  destruct (X25_texture_names_in_both_modes samples.small_mdl _ Hp)
    as (meta & Hmeta & _ & _ & Hnames).
  exists meta. split; [exact Hp|]. split; [exact Hmeta|].
  split; [vm_compute; reflexivity|exact Hnames].
Defined.
